(** * Client-side SSH user authentication (libssh, [src/auth.c])

    A shallow embedding of the authentication state machine of [auth.c]:
    the packet handlers, the method drivers, the keyboard-interactive
    scratch and the agent and automatic public-key cascades, followed by
    the properties proved about them.

    Modelling conventions.
    - The build modelled is the one without [WITH_SSH1] and without
      [_WIN32] (the agent driver is compiled in).
    - A [char *] is the content of its memory block without the final
      terminator; the C library sees the part before the first zero byte
      ([c_view]).  An [ssh_string] is its payload.
    - [unsigned int] and [uint32_t] are [N]; [int] results are [Z].
    - Undefined behaviour of the C program (a null dereference, an access
      past the end of an array, the read of an indeterminate local) is a
      result of its own, [Undefined], never a silent default.
    - Memory allocation succeeds: the [ssh_set_error_oom] branches that
      only a failed [malloc], [strdup] or buffer growth can reach are
      outside the model.  The [fail:] exits of the drivers are kept where
      a collaborator (key export, signature) can fail for other reasons.
    - The collaborators that live outside [auth.c] (wire codec, transport,
      PKI, agent) are scripted: the session carries what they will answer. *)

From Stdlib Require Import ZArith NArith List Ascii String Bool Lia.
From stdpp Require Import base option list.
Import ListNotations.

Set Default Proof Using "Type".

(* ================================================================== *)
(** * Part I. The program                                              *)
(* ================================================================== *)

(** ** Results of a C computation *)

Inductive fault : Type :=
  | NullDereference
  | OutOfBounds
  | UninitializedRead.

Inductive run (A : Type) : Type :=
  | Done (a : A)
  | Undefined (f : fault).
Arguments Done {A} a.
Arguments Undefined {A} f.

#[global] Instance run_ret : MRet run := fun A a => Done a.
#[global] Instance run_bind : MBind run := fun A B k m =>
  match m with
  | Done a => k a
  | Undefined f => Undefined f
  end.

(** ** Bytes, C strings *)

Definition bytes := list ascii.
Definition cstring := list ascii.

Definition lit (s : string) : cstring := list_ascii_of_string s.

Definition is_nul (a : ascii) : bool := Ascii.eqb a Ascii.zero.

(** What the C library reads of a block: the bytes before the first zero. *)
Fixpoint c_view (s : cstring) : cstring :=
  match s with
  | [] => []
  | a :: r => if is_nul a then [] else a :: c_view r
  end.

Definition strlen (s : cstring) : nat := length (c_view s).

Definition strdup (s : cstring) : cstring := c_view s.

Fixpoint starts_with (p s : list ascii) : bool :=
  match p, s with
  | [], _ => true
  | _ :: _, [] => false
  | a :: p', b :: s' => Ascii.eqb a b && starts_with p' s'
  end.

Fixpoint find_from (needle hay : list ascii) : option nat :=
  if starts_with needle hay then Some 0
  else match hay with
       | [] => None
       | _ :: hay' => S <$> find_from needle hay'
       end.

(** [strstr(haystack, needle)]: the offset of the first occurrence, [None]
    for a [NULL] result. *)
Definition strstr (haystack needle : cstring) : option nat :=
  find_from (c_view needle) (c_view haystack).

(** Modelled from the spec: the macro [BURN_STRING] of [libssh/priv.h],
    which is not in [auth.c].  "Passwords, kbdint answers, and non-echo
    prompts are zeroed (byte-by-byte overwrite) before deallocation": the
    [strlen] bytes the C library sees are overwritten with zero, the rest
    of the block is left as it is. *)
Definition BURN_STRING (s : cstring) : cstring :=
  replicate (strlen s) Ascii.zero ++ drop (strlen s) s.

(** ** Wire codec *)

(** A 32-bit word as it lies in memory after [htonl]: four bytes, most
    significant first. *)
Definition raw32 := list ascii.

Definition htonl (n : N) : raw32 :=
  [ ascii_of_N ((n / 16777216) mod 256);
    ascii_of_N ((n / 65536) mod 256);
    ascii_of_N ((n / 256) mod 256);
    ascii_of_N (n mod 256) ]%N.

Definition ntohl (w : raw32) : N :=
  match w with
  | [b3; b2; b1; b0] =>
      (N_of_ascii b3 * 16777216 + N_of_ascii b2 * 65536
       + N_of_ascii b1 * 256 + N_of_ascii b0)%N
  | _ => 0%N
  end.

(** The buffer and string codec lives in [buffer.c] and [string.c], which
    are not in [auth.c].  The spec gives it as "SSH wire primitives
    ([uint32] big-endian length-prefixed strings, [uint8], [uint32])" and
    "SSH [string] framing (4-byte big-endian length, raw bytes)".  A writer
    appends to the buffer; a reader returns what it read, [None] for a
    failed read, and the buffer with its read position moved, a failed read
    leaving the position where it was. *)

(** Modelled from the spec: [buffer_add_u8], the writer of a "uint8". *)
Definition buffer_add_u8 (b : bytes) (x : ascii) : bytes := b ++ [x].

(** Modelled from the spec: [buffer_add_u32], the writer of a "uint32"
    given as it lies in memory. *)
Definition buffer_add_u32 (b : bytes) (w : raw32) : bytes := b ++ w.

(** Modelled from the spec: [ssh_string_from_char], the "string" whose
    payload is a C string. *)
Definition ssh_string_from_char (s : cstring) : bytes := c_view s.

(** Modelled from the spec: [ssh_string_to_char], the copy of the payload
    of a "string" into a fresh terminated block. *)
Definition ssh_string_to_char (s : bytes) : cstring := s.

(** Modelled from the spec: [buffer_add_ssh_string], the writer of a
    "string": "4-byte big-endian length, raw bytes". *)
Definition buffer_add_ssh_string (b : bytes) (s : bytes) : bytes :=
  b ++ htonl (N.of_nat (length s)) ++ s.

(** Modelled from the spec: [buffer_get_u8], the reader of a "uint8". *)
Definition buffer_get_u8 (b : bytes) : option ascii * bytes :=
  match b with
  | [] => (None, b)
  | x :: r => (Some x, r)
  end.

(** Modelled from the spec: [buffer_get_u32], the reader of a "uint32",
    returned as it lies in the packet. *)
Definition buffer_get_u32 (b : bytes) : option raw32 * bytes :=
  if (length b <? 4)%nat then (None, b) else (Some (take 4 b), drop 4 b).

(** Modelled from the spec: [buffer_get_ssh_string], the reader of a
    "string"; it fails when the length announced exceeds what is left. *)
Definition buffer_get_ssh_string (b : bytes) : option bytes * bytes :=
  match buffer_get_u32 b with
  | (None, _) => (None, b)
  | (Some w, r) =>
      let hostlen := ntohl w in
      if (N.of_nat (length r) <? hostlen)%N then (None, b)
      else (Some (take (N.to_nat hostlen) r), drop (N.to_nat hostlen) r)
  end.

(** ** Constants of the public headers *)

(** The result codes are declared in [libssh/libssh.h] and
    [libssh/priv.h], which are not in [auth.c].  The spec names them: the
    outcomes "OK, AGAIN (would block; caller must retry), ERROR (fatal)" of
    a call into the transport or the PKI, and the "result set: {ERROR,
    DENIED, PARTIAL, SUCCESS, INFO, AGAIN}" of a driver.  They are [int]s
    in the code, which compares and returns them across the two families
    (a driver returns [SSH_ERROR] where its callers test
    [SSH_AUTH_ERROR]); the integers below are those of the headers, with
    one integer for ERROR as the spec has one ERROR. *)

(** Modelled from the spec: the outcome "OK". *)
Definition SSH_OK : Z := 0.
(** Modelled from the spec: the outcome "ERROR (fatal)". *)
Definition SSH_ERROR : Z := -1.
(** Modelled from the spec: the outcome "AGAIN (would block; caller must
    retry)". *)
Definition SSH_AGAIN : Z := -2.
(** Modelled from the spec: the outcome "EOF (no public file)" of a key
    import. *)
Definition SSH_EOF : Z := -127.

(** Modelled from the spec: the result "SUCCESS". *)
Definition SSH_AUTH_SUCCESS : Z := 0.
(** Modelled from the spec: the result "DENIED". *)
Definition SSH_AUTH_DENIED : Z := 1.
(** Modelled from the spec: the result "PARTIAL". *)
Definition SSH_AUTH_PARTIAL : Z := 2.
(** Modelled from the spec: the result "INFO". *)
Definition SSH_AUTH_INFO : Z := 3.
(** Modelled from the spec: the result "AGAIN". *)
Definition SSH_AUTH_AGAIN : Z := 4.
(** Modelled from the spec: the result "ERROR". *)
Definition SSH_AUTH_ERROR : Z := -1.

(** The message numbers are declared in [libssh/ssh2.h], which is not in
    [auth.c]; they are those of the table "Wire messages consumed /
    produced" of the spec. *)

(** Modelled from the spec: "50 USERAUTH_REQUEST". *)
Definition SSH2_MSG_USERAUTH_REQUEST : N := 50.
(** Modelled from the spec: "51 USERAUTH_FAILURE". *)
Definition SSH2_MSG_USERAUTH_FAILURE : N := 51.
(** Modelled from the spec: "52 USERAUTH_SUCCESS". *)
Definition SSH2_MSG_USERAUTH_SUCCESS : N := 52.
(** Modelled from the spec: "53 USERAUTH_BANNER". *)
Definition SSH2_MSG_USERAUTH_BANNER : N := 53.
(** Modelled from the spec: "60 USERAUTH_PK_OK", the number shared with
    "60 USERAUTH_INFO_REQUEST". *)
Definition SSH2_MSG_USERAUTH_PK_OK : N := 60.
(** Modelled from the spec: "61 USERAUTH_INFO_RESPONSE". *)
Definition SSH2_MSG_USERAUTH_INFO_RESPONSE : N := 61.

(** The method flags are declared in [libssh/libssh.h], which is not in
    [auth.c]: the "authentication methods bitset: union of {PASSWORD,
    PUBLICKEY, HOSTBASED, INTERACTIVE}" of the spec, one bit each, at the
    positions of the header. *)

(** Modelled from the spec: the flag "PASSWORD". *)
Definition SSH_AUTH_METHOD_PASSWORD : Z := 2.
(** Modelled from the spec: the flag "PUBLICKEY". *)
Definition SSH_AUTH_METHOD_PUBLICKEY : Z := 4.
(** Modelled from the spec: the flag "HOSTBASED". *)
Definition SSH_AUTH_METHOD_HOSTBASED : Z := 8.
(** Modelled from the spec: the flag "INTERACTIVE". *)
Definition SSH_AUTH_METHOD_INTERACTIVE : Z := 16.

(** Modelled from the spec: [KBDINT_MAX_PROMPT], "implementation constant,
    suggested 32", declared in a header that is not in [auth.c].  It is
    kept as a parameter of the build: what is proved holds for every
    value of it. *)
Class Limits : Type := { KBDINT_MAX_PROMPT : N }.

(** ** Session data *)

(** The enumerations and structures of the session are declared in
    [libssh/session.h], [libssh/auth.h], [libssh/crypto.h] and
    [libssh/pki.h], which are not in [auth.c]; they are given here with
    the members [auth.c] names. *)

(** Modelled from the spec: the authentication state, "one of NONE,
    KBDINT_SENT, INFO, PK_OK, PARTIAL, FAILED, SUCCESS, ERROR". *)
Inductive ssh_auth_state_e : Type :=
  | SSH_AUTH_STATE_NONE
  | SSH_AUTH_STATE_PARTIAL
  | SSH_AUTH_STATE_SUCCESS
  | SSH_AUTH_STATE_FAILED
  | SSH_AUTH_STATE_ERROR
  | SSH_AUTH_STATE_INFO
  | SSH_AUTH_STATE_PK_OK
  | SSH_AUTH_STATE_KBDINT_SENT.

(** Modelled from the spec: the single-slot marker "{none, auth-none,
    auth-offer-pubkey, auth-pubkey, auth-agent, auth-kbdint}", with the
    "auth-password" the design notes name; the enumeration is declared in
    [libssh/session.h], which is not in [auth.c].  [auth.c] itself names
    five of them: NONE, AUTH_NONE, AUTH_OFFER_PUBKEY, AUTH_PUBKEY and
    AUTH_AGENT. *)
Inductive ssh_pending_call_e : Type :=
  | SSH_PENDING_CALL_NONE
  | SSH_PENDING_CALL_AUTH_NONE
  | SSH_PENDING_CALL_AUTH_PASSWORD
  | SSH_PENDING_CALL_AUTH_OFFER_PUBKEY
  | SSH_PENDING_CALL_AUTH_PUBKEY
  | SSH_PENDING_CALL_AUTH_AGENT
  | SSH_PENDING_CALL_AUTH_KBDINT.

(** Modelled from the spec: the state of the session as far as this
    module moves it, "transition session to authenticated". *)
Inductive ssh_session_state_e : Type :=
  | SSH_SESSION_STATE_AUTHENTICATING
  | SSH_SESSION_STATE_AUTHENTICATED.

(** Modelled from the spec: the two error classes [auth.c] raises,
    "Denied" and "Fatal protocol". *)
Inductive ssh_error_code : Type :=
  | SSH_REQUEST_DENIED
  | SSH_FATAL.

#[global] Instance ssh_auth_state_eq_dec : EqDecision ssh_auth_state_e.
Proof. solve_decision. Defined.
#[global] Instance ssh_pending_call_eq_dec : EqDecision ssh_pending_call_e.
Proof. solve_decision. Defined.

(** Modelled from the spec: the negotiated crypto as far as [auth.c]
    touches it, the request for "delayed compression" and the "compression
    flags on both directions". *)
Record ssh_crypto_struct : Type := {
  delayed_compress_in : bool;
  delayed_compress_out : bool;
  do_compress_in : bool;
  do_compress_out : bool
}.

(** Modelled from the spec: the keyboard-interactive scratch, with
    "name, instruction", "nprompts", "prompts[nprompts]",
    "echo[nprompts]", "answers[nprompts], nanswers".  A [NULL] pointer
    field is [None]. *)
Record ssh_kbdint_struct : Type := {
  nprompts : N;
  nanswers : N;
  name : option cstring;
  instruction : option cstring;
  prompts : option (list (option cstring));
  echo : option (list ascii);
  answers : option (list (option cstring))
}.

(** Modelled from the spec: a key of the PKI collaborator ("public-key
    variant must be public, private variant must be private"): its type
    name, what [ssh_key_is_public] and [ssh_key_is_private] answer, and
    what [ssh_pki_export_pubkey_blob] makes of it ([None] when the export
    fails). *)
Record ssh_key_struct : Type := {
  type_c : cstring;
  is_public : bool;
  is_private : bool;
  pubkey_blob : option bytes
}.

(** ** Collaborators *)

(** Modelled from the spec: the outcomes of the service request, "OK,
    AGAIN, ERROR". *)
Inductive service_outcome : Type := SvcOk | SvcAgain | SvcError.

(** What the socket brings while the session waits: a packet (message
    number, payload), the point where a read would block or the timeout
    ends the wait, or a socket error. *)
Inductive event : Type :=
  | EvPacket (type : N) (payload : bytes)
  | EvWouldBlock
  | EvSocketError.

(** The transport of one session: the answers [ssh_service_request] and
    [packet_send] will give, in order (an exhausted script answers OK), what
    is still to arrive, and the packets handed to the wire so far. *)
Record transport : Type := {
  service_script : list service_outcome;
  send_script : list bool;
  inbox : list event;
  wire : list bytes
}.

(** Modelled from the spec: what the import of a key file gives: the key,
    "EOF (no public file)", or another error. *)
Inductive pki_import : Type :=
  | PkiKey (k : ssh_key_struct)
  | PkiEof
  | PkiError.

(** Modelled from the spec: the agent and the PKI, "specified only at the
    interface level"; [auth.c] calls them and the session carries what
    they answer. *)
Record collaborators : Type := {
  agent_is_running : bool;
  agent_identities : list (ssh_key_struct * cstring);
  ssh_pki_do_sign : bytes -> ssh_key_struct -> option bytes;
  ssh_pki_do_sign_agent : bytes -> ssh_key_struct -> option bytes;
  ssh_pki_import_pubkey_file : cstring -> pki_import;
  ssh_pki_import_privkey_file : cstring -> option cstring -> pki_import;
  ssh_pki_export_privkey_to_pubkey : ssh_key_struct -> option ssh_key_struct;
  ssh_pki_export_pubkey_file : ssh_key_struct -> cstring -> Z
}.

(** Modelled from the spec: the session, which "holds username, identity
    list, negotiated crypto" and the state of this module; the fields are
    those [auth.c] reads or writes, with the transport and the
    collaborators behind two of them.  [freed] is a ghost field: the content of every string block of
    the keyboard-interactive scratch at the moment it was given to [free],
    oldest first. *)
Record ssh_session_struct : Type := {
  auth_state : ssh_auth_state_e;
  pending_call_state : ssh_pending_call_e;
  auth_methods : Z;
  session_state : ssh_session_state_e;
  current_crypto : option ssh_crypto_struct;
  banner : option bytes;
  kbdint : option ssh_kbdint_struct;
  out_buffer : bytes;
  username : cstring;
  identity : list cstring;
  error : option (ssh_error_code * string);
  link : transport;
  world : collaborators;
  freed : list cstring
}.

Definition set_auth_state (v : ssh_auth_state_e)
    (s : ssh_session_struct) : ssh_session_struct :=
  {| auth_state := v; pending_call_state := pending_call_state s;
     auth_methods := auth_methods s; session_state := session_state s;
     current_crypto := current_crypto s; banner := banner s;
     kbdint := kbdint s; out_buffer := out_buffer s; username := username s;
     identity := identity s; error := error s; link := link s;
     world := world s; freed := freed s |}.

Definition set_pending_call_state (v : ssh_pending_call_e)
    (s : ssh_session_struct) : ssh_session_struct :=
  {| auth_state := auth_state s; pending_call_state := v;
     auth_methods := auth_methods s; session_state := session_state s;
     current_crypto := current_crypto s; banner := banner s;
     kbdint := kbdint s; out_buffer := out_buffer s; username := username s;
     identity := identity s; error := error s; link := link s;
     world := world s; freed := freed s |}.

Definition set_auth_methods (v : Z)
    (s : ssh_session_struct) : ssh_session_struct :=
  {| auth_state := auth_state s; pending_call_state := pending_call_state s;
     auth_methods := v; session_state := session_state s;
     current_crypto := current_crypto s; banner := banner s;
     kbdint := kbdint s; out_buffer := out_buffer s; username := username s;
     identity := identity s; error := error s; link := link s;
     world := world s; freed := freed s |}.

Definition set_session_state (v : ssh_session_state_e)
    (s : ssh_session_struct) : ssh_session_struct :=
  {| auth_state := auth_state s; pending_call_state := pending_call_state s;
     auth_methods := auth_methods s; session_state := v;
     current_crypto := current_crypto s; banner := banner s;
     kbdint := kbdint s; out_buffer := out_buffer s; username := username s;
     identity := identity s; error := error s; link := link s;
     world := world s; freed := freed s |}.

Definition set_current_crypto (v : option ssh_crypto_struct)
    (s : ssh_session_struct) : ssh_session_struct :=
  {| auth_state := auth_state s; pending_call_state := pending_call_state s;
     auth_methods := auth_methods s; session_state := session_state s;
     current_crypto := v; banner := banner s; kbdint := kbdint s;
     out_buffer := out_buffer s; username := username s;
     identity := identity s; error := error s; link := link s;
     world := world s; freed := freed s |}.

Definition set_banner (v : option bytes)
    (s : ssh_session_struct) : ssh_session_struct :=
  {| auth_state := auth_state s; pending_call_state := pending_call_state s;
     auth_methods := auth_methods s; session_state := session_state s;
     current_crypto := current_crypto s; banner := v; kbdint := kbdint s;
     out_buffer := out_buffer s; username := username s;
     identity := identity s; error := error s; link := link s;
     world := world s; freed := freed s |}.

Definition set_kbdint (v : option ssh_kbdint_struct)
    (s : ssh_session_struct) : ssh_session_struct :=
  {| auth_state := auth_state s; pending_call_state := pending_call_state s;
     auth_methods := auth_methods s; session_state := session_state s;
     current_crypto := current_crypto s; banner := banner s; kbdint := v;
     out_buffer := out_buffer s; username := username s;
     identity := identity s; error := error s; link := link s;
     world := world s; freed := freed s |}.

Definition set_out_buffer (v : bytes)
    (s : ssh_session_struct) : ssh_session_struct :=
  {| auth_state := auth_state s; pending_call_state := pending_call_state s;
     auth_methods := auth_methods s; session_state := session_state s;
     current_crypto := current_crypto s; banner := banner s;
     kbdint := kbdint s; out_buffer := v; username := username s;
     identity := identity s; error := error s; link := link s;
     world := world s; freed := freed s |}.

Definition set_error (v : option (ssh_error_code * string))
    (s : ssh_session_struct) : ssh_session_struct :=
  {| auth_state := auth_state s; pending_call_state := pending_call_state s;
     auth_methods := auth_methods s; session_state := session_state s;
     current_crypto := current_crypto s; banner := banner s;
     kbdint := kbdint s; out_buffer := out_buffer s; username := username s;
     identity := identity s; error := v; link := link s; world := world s;
     freed := freed s |}.

Definition set_link (v : transport)
    (s : ssh_session_struct) : ssh_session_struct :=
  {| auth_state := auth_state s; pending_call_state := pending_call_state s;
     auth_methods := auth_methods s; session_state := session_state s;
     current_crypto := current_crypto s; banner := banner s;
     kbdint := kbdint s; out_buffer := out_buffer s; username := username s;
     identity := identity s; error := error s; link := v; world := world s;
     freed := freed s |}.

Definition set_freed (v : list cstring)
    (s : ssh_session_struct) : ssh_session_struct :=
  {| auth_state := auth_state s; pending_call_state := pending_call_state s;
     auth_methods := auth_methods s; session_state := session_state s;
     current_crypto := current_crypto s; banner := banner s;
     kbdint := kbdint s; out_buffer := out_buffer s; username := username s;
     identity := identity s; error := error s; link := link s;
     world := world s; freed := v |}.

(** Modelled from the spec: [ssh_set_error] of [error.c], which "sets
    session-level error string"; the text kept is the format string. *)
Definition ssh_set_error (code : ssh_error_code) (msg : string)
    (s : ssh_session_struct) : ssh_session_struct :=
  set_error (Some (code, msg)) s.

(** Modelled from the spec: [ssh_set_error_oom], "ERROR with an
    out-of-memory message". *)
Definition ssh_set_error_oom (s : ssh_session_struct) : ssh_session_struct :=
  ssh_set_error SSH_FATAL "Not enough space" s.

(** Modelled from the spec: [ssh_set_error_invalid], the error of a
    "local precondition". *)
Definition ssh_set_error_invalid (function : string)
    (s : ssh_session_struct) : ssh_session_struct :=
  ssh_set_error SSH_FATAL ("Invalid argument in " ++ function)%string s.

(** Modelled from the spec: [buffer_reinit] on the outgoing buffer, "the
    outgoing buffer is reset to a safe state". *)
Definition buffer_reinit (s : ssh_session_struct) : ssh_session_struct :=
  set_out_buffer [] s.

(** Modelled from the spec: [ssh_service_request] of the transport.  "Three
    outcomes: OK, AGAIN (would block; caller must retry), ERROR (fatal)". *)
Definition ssh_service_request (s : ssh_session_struct)
    : Z * ssh_session_struct :=
  match service_script (link s) with
  | [] => (SSH_OK, s)
  | o :: rest =>
      (match o with
       | SvcOk => SSH_OK
       | SvcAgain => SSH_AGAIN
       | SvcError => SSH_ERROR
       end,
       set_link {| service_script := rest;
                   send_script := send_script (link s);
                   inbox := inbox (link s);
                   wire := wire (link s) |} s)
  end.

Definition ssh_userauth_request_service (s : ssh_session_struct)
    : Z * ssh_session_struct :=
  ssh_service_request s.

(** Modelled from the spec: [packet_send] of the transport, which "sends
    framed SSH binary packets".  An accepted packet goes to the wire and
    the outgoing buffer is released; a refused one reaches nothing. *)
Definition packet_send (s : ssh_session_struct) : Z * ssh_session_struct :=
  let l := link s in
  let ok := match send_script l with [] => true | b :: _ => b end in
  let rest := match send_script l with [] => [] | _ :: r => r end in
  if ok then
    (SSH_OK,
     set_out_buffer []
       (set_link {| service_script := service_script l;
                    send_script := rest;
                    inbox := inbox l;
                    wire := wire l ++ [out_buffer s] |} s))
  else
    (SSH_ERROR,
     set_link {| service_script := service_script l;
                 send_script := rest;
                 inbox := inbox l;
                 wire := wire l |} s).

Definition set_inbox (evs : list event) (s : ssh_session_struct)
    : ssh_session_struct :=
  set_link {| service_script := service_script (link s);
              send_script := send_script (link s);
              inbox := evs;
              wire := wire (link s) |} s.

(** ** The keyboard-interactive scratch *)

Definition ssh_kbdint_new : ssh_kbdint_struct :=
  {| nprompts := 0; nanswers := 0; name := None; instruction := None;
     prompts := None; echo := None; answers := None |}.

(** [n = kbd->nprompts] with [int n]: the conversion of a [uint32_t]. *)
Definition int_of_uint32 (x : N) : Z :=
  if (x <? 2147483648)%N then Z.of_N x else (Z.of_N x - 4294967296)%Z.

(** [for (i = 0; i < n; i++) { BURN_STRING(a[i]); SAFE_FREE(a[i]); }]:
    the blocks released, as they are when released. *)
Fixpoint burn_strings (count : nat) (a : list (option cstring))
    : run (list cstring) :=
  match count with
  | O => Done []
  | S c =>
      match a with
      | [] => Undefined OutOfBounds
      | x :: r =>
          rest ← burn_strings c r;
          Done (match x with
                | Some p => BURN_STRING p :: rest
                | None => rest
                end)
      end
  end.

Definition burn_array (n : Z) (a : option (list (option cstring)))
    : run (list cstring) :=
  match a with
  | None => Done []
  | Some l => burn_strings (Z.to_nat n) l
  end.

Definition free_block (p : option cstring) : list cstring :=
  match p with
  | Some b => [b]
  | None => []
  end.

(** [ssh_kbdint_free]: the blocks it releases. *)
Definition ssh_kbdint_free (kbd : option ssh_kbdint_struct)
    : run (list cstring) :=
  match kbd with
  | None => Done []
  | Some k =>
      ps ← burn_array (int_of_uint32 (nprompts k)) (prompts k);
      ans ← burn_array (int_of_uint32 (nanswers k)) (answers k);
      Done (free_block (name k) ++ free_block (instruction k) ++ ps ++ ans)
  end.

(** [ssh_kbdint_clean]: the emptied scratch and the blocks released. *)
Definition ssh_kbdint_clean (k : ssh_kbdint_struct)
    : run (ssh_kbdint_struct * list cstring) :=
  ps ← burn_array (int_of_uint32 (nprompts k)) (prompts k);
  ans ← burn_array (int_of_uint32 (nanswers k)) (answers k);
  Done (ssh_kbdint_new,
        free_block (name k) ++ free_block (instruction k) ++ ps ++ ans).

Definition array_load {A} (i : N) (a : list A) : run A :=
  if (i <? N.of_nat (length a))%N then
    match a !! N.to_nat i with
    | Some x => Done x
    | None => Undefined OutOfBounds
    end
  else Undefined OutOfBounds.

Definition array_store {A} (i : N) (x : A) (a : list A) : run (list A) :=
  if (i <? N.of_nat (length a))%N then Done (<[N.to_nat i := x]> a)
  else Undefined OutOfBounds.

(** ** Packet handlers *)

(** [ssh_auth_response_termination]: the wait ends in every state but
    NONE and KBDINT_SENT. *)
Definition ssh_auth_response_termination (s : ssh_session_struct) : bool :=
  match auth_state s with
  | SSH_AUTH_STATE_NONE
  | SSH_AUTH_STATE_KBDINT_SENT => false
  | _ => true
  end.

(** [ssh_packet_userauth_banner]. *)
Definition ssh_packet_userauth_banner (packet : bytes)
    (s : ssh_session_struct) : ssh_session_struct :=
  match buffer_get_ssh_string packet with
  | (None, _) => s
  | (Some b, _) => set_banner (Some b) s
  end.

(** [if (strstr(auth_methods, name) != NULL) session->auth_methods |= flag] *)
Definition add_method_if_found (list_of_methods : cstring) (name : string)
    (flag : Z) (s : ssh_session_struct) : ssh_session_struct :=
  match strstr list_of_methods (lit name) with
  | Some _ => set_auth_methods (Z.lor (auth_methods s) flag) s
  | None => s
  end.

(** [ssh_packet_userauth_failure].  The branch taken when
    [ssh_string_to_char] cannot allocate is outside the model. *)
Definition ssh_packet_userauth_failure (packet : bytes)
    (s : ssh_session_struct) : ssh_session_struct :=
  let invalid :=
    set_auth_state SSH_AUTH_STATE_ERROR
      (ssh_set_error SSH_FATAL "Invalid SSH_MSG_USERAUTH_FAILURE message" s) in
  match buffer_get_ssh_string packet with
  | (None, _) => invalid
  | (Some auth, packet1) =>
      match buffer_get_u8 packet1 with
      | (None, _) => invalid
      | (Some partial, _) =>
          let methods := ssh_string_to_char auth in
          let s1 :=
            if negb (is_nul partial) then
              set_auth_state SSH_AUTH_STATE_PARTIAL s
            else
              set_auth_methods 0
                (ssh_set_error SSH_REQUEST_DENIED
                   "Access denied. Authentication that can continue: %s"
                   (set_auth_state SSH_AUTH_STATE_FAILED s)) in
          let s2 := add_method_if_found methods "password"
                      SSH_AUTH_METHOD_PASSWORD s1 in
          let s3 := add_method_if_found methods "keyboard-interactive"
                      SSH_AUTH_METHOD_INTERACTIVE s2 in
          let s4 := add_method_if_found methods "publickey"
                      SSH_AUTH_METHOD_PUBLICKEY s3 in
          add_method_if_found methods "hostbased"
            SSH_AUTH_METHOD_HOSTBASED s4
      end
  end.

Definition enable_compress_out (c : ssh_crypto_struct) : ssh_crypto_struct :=
  {| delayed_compress_in := delayed_compress_in c;
     delayed_compress_out := delayed_compress_out c;
     do_compress_in := do_compress_in c;
     do_compress_out := true |}.

Definition enable_compress_in (c : ssh_crypto_struct) : ssh_crypto_struct :=
  {| delayed_compress_in := delayed_compress_in c;
     delayed_compress_out := delayed_compress_out c;
     do_compress_in := true;
     do_compress_out := do_compress_out c |}.

(** [ssh_packet_userauth_success]. *)
Definition ssh_packet_userauth_success (packet : bytes)
    (s : ssh_session_struct) : ssh_session_struct :=
  let s1 := set_auth_state SSH_AUTH_STATE_SUCCESS s in
  let s2 := set_session_state SSH_SESSION_STATE_AUTHENTICATED s1 in
  let s3 :=
    match current_crypto s2 with
    | Some c =>
        if delayed_compress_out c
        then set_current_crypto (Some (enable_compress_out c)) s2
        else s2
    | None => s2
    end in
  match current_crypto s3 with
  | Some c =>
      if delayed_compress_in c
      then set_current_crypto (Some (enable_compress_in c)) s3
      else s3
  | None => s3
  end.

Definition with_prompts (n : N) (k : ssh_kbdint_struct) : ssh_kbdint_struct :=
  {| nprompts := n; nanswers := n; name := name k;
     instruction := instruction k;
     prompts := Some (replicate (N.to_nat n) None);
     echo := Some (replicate (N.to_nat n) Ascii.zero);
     answers := answers k |}.

Definition set_prompts (v : option (list (option cstring)))
    (k : ssh_kbdint_struct) : ssh_kbdint_struct :=
  {| nprompts := nprompts k; nanswers := nanswers k; name := name k;
     instruction := instruction k; prompts := v; echo := echo k;
     answers := answers k |}.

Definition set_echo (v : option (list ascii))
    (k : ssh_kbdint_struct) : ssh_kbdint_struct :=
  {| nprompts := nprompts k; nanswers := nanswers k; name := name k;
     instruction := instruction k; prompts := prompts k; echo := v;
     answers := answers k |}.

Definition set_answers (v : option (list (option cstring)))
    (k : ssh_kbdint_struct) : ssh_kbdint_struct :=
  {| nprompts := nprompts k; nanswers := nanswers k; name := name k;
     instruction := instruction k; prompts := prompts k; echo := echo k;
     answers := v |}.

(** Release the scratch of the session and clear the pointer:
    [ssh_kbdint_free(session->kbdint); session->kbdint = NULL;]. *)
Definition drop_kbdint (k : ssh_kbdint_struct) (s : ssh_session_struct)
    : run ssh_session_struct :=
  blocks ← ssh_kbdint_free (Some k);
  Done (set_kbdint None (set_freed (freed s ++ blocks) s)).

Definition set_name_instruction (n i : cstring) (k : ssh_kbdint_struct)
    : ssh_kbdint_struct :=
  {| nprompts := nprompts k; nanswers := nanswers k; name := Some n;
     instruction := Some i; prompts := prompts k; echo := echo k;
     answers := answers k |}.

(** The loop [for (i = 0; i < nprompts; i++)] of
    [ssh_packet_userauth_info_request], [remaining] iterations from index
    [i] on, and the two statements after it. *)
Fixpoint read_prompts (remaining : nat) (i : N) (packet : bytes)
    (k : ssh_kbdint_struct) (s : ssh_session_struct)
    : run ssh_session_struct :=
  match remaining with
  | O => Done (set_auth_state SSH_AUTH_STATE_INFO (set_kbdint (Some k) s))
  | S r =>
      let '(tmp, packet1) := buffer_get_ssh_string packet in
      let '(e, packet2) := buffer_get_u8 packet1 in
      k1 ← match e with
           | None => Done k
           | Some b =>
               match echo k with
               | None => Undefined NullDereference
               | Some a => a' ← array_store i b a; Done (set_echo (Some a') k)
               end
           end;
      match tmp with
      | None =>
          drop_kbdint k1
            (ssh_set_error SSH_FATAL "Short INFO_REQUEST packet" s)
      | Some t =>
          match prompts k1 with
          | None => Undefined NullDereference
          | Some a =>
              a' ← array_store i (Some (ssh_string_to_char t)) a;
              read_prompts r (N.succ i) packet2 (set_prompts (Some a') k1) s
          end
      end
  end.

(** [ssh_packet_userauth_info_request].  The count is read with
    [buffer_get_u32] whose result is not tested: when the packet ends
    before it, [nprompts] is used indeterminate.  The branches taken when
    [ssh_kbdint_new], [ssh_string_to_char] or [malloc] cannot allocate
    are outside the model. *)
Definition ssh_packet_userauth_info_request `{Limits} (packet : bytes)
    (s : ssh_session_struct) : run ssh_session_struct :=
  let '(name, packet1) := buffer_get_ssh_string packet in
  let '(instruction, packet2) := buffer_get_ssh_string packet1 in
  let '(tmp, packet3) := buffer_get_ssh_string packet2 in
  let '(nprompts_read, packet4) := buffer_get_u32 packet3 in
  match name, instruction, tmp with
  | Some name, Some instruction, Some _ =>
      '(k, blocks) ← match kbdint s with
                     | None => Done (ssh_kbdint_new, [])
                     | Some k => ssh_kbdint_clean k
                     end;
      let s1 := set_freed (freed s ++ blocks) s in
      let k1 := set_name_instruction (ssh_string_to_char name)
                  (ssh_string_to_char instruction) k in
      match nprompts_read with
      | None => Undefined UninitializedRead
      | Some w =>
          let nprompts := ntohl w in
          if (nprompts =? 0)%N || (KBDINT_MAX_PROMPT <? nprompts)%N then
            drop_kbdint k1
              (ssh_set_error SSH_FATAL
                 "Wrong number of prompts requested by the server: %u (0x%.4x)"
                 s1)
          else
            read_prompts (N.to_nat nprompts) 0 packet4
              (with_prompts nprompts k1) s1
      end
  | _, _, _ =>
      Done (ssh_set_error SSH_FATAL "Invalid USERAUTH_INFO_REQUEST msg" s)
  end.

(** [ssh_packet_userauth_pk_ok]: message 60 is an information request
    when the session waits for the answer to a keyboard-interactive
    message, and the acceptance of a key otherwise. *)
Definition ssh_packet_userauth_pk_ok `{Limits} (packet : bytes)
    (s : ssh_session_struct) : run ssh_session_struct :=
  if decide (auth_state s = SSH_AUTH_STATE_KBDINT_SENT) then
    ssh_packet_userauth_info_request packet s
  else
    Done (set_auth_state SSH_AUTH_STATE_PK_OK s).

(** Modelled from the spec: the packet dispatcher of the transport, which
    is not in [auth.c].  "Invoked by the transport when a packet arrives;
    routes by message number to one of the authentication handlers";
    message 60 goes to the shared PK_OK / INFO_REQUEST handler.  A message
    of another number is not for this module. *)
Definition ssh_packet_dispatch `{Limits} (type : N) (packet : bytes)
    (s : ssh_session_struct) : run ssh_session_struct :=
  if (type =? SSH2_MSG_USERAUTH_FAILURE)%N then
    Done (ssh_packet_userauth_failure packet s)
  else if (type =? SSH2_MSG_USERAUTH_SUCCESS)%N then
    Done (ssh_packet_userauth_success packet s)
  else if (type =? SSH2_MSG_USERAUTH_BANNER)%N then
    Done (ssh_packet_userauth_banner packet s)
  else if (type =? SSH2_MSG_USERAUTH_PK_OK)%N then
    ssh_packet_userauth_pk_ok packet s
  else Done s.

(** Modelled from the spec: [ssh_handle_packets_termination] of the
    transport, which is not in [auth.c].  "The transport's packet-handling
    loop is invoked with the user timeout; it returns early when the
    predicate holds"; "it returns either when the termination predicate
    holds, when the timeout elapses, or, in non-blocking mode, when the
    underlying socket would block"; "packets are delivered in arrival
    order to handlers". *)
Fixpoint handle_packets `{Limits} (fct : ssh_session_struct -> bool)
    (evs : list event) (s : ssh_session_struct)
    : run (Z * ssh_session_struct) :=
  if fct s then Done (SSH_OK, set_inbox evs s)
  else
    match evs with
    | [] => Done (SSH_AGAIN, set_inbox [] s)
    | EvWouldBlock :: rest => Done (SSH_AGAIN, set_inbox rest s)
    | EvSocketError :: rest => Done (SSH_ERROR, set_inbox rest s)
    | EvPacket type payload :: rest =>
        s' ← ssh_packet_dispatch type payload s;
        handle_packets fct rest s'
    end.

Definition ssh_handle_packets_termination `{Limits}
    (s : ssh_session_struct) (fct : ssh_session_struct -> bool)
    : run (Z * ssh_session_struct) :=
  handle_packets fct (inbox (link s)) s.

(** ** Waiting for the answer *)

(** [ssh_userauth_get_response]. *)
Definition ssh_userauth_get_response `{Limits} (s : ssh_session_struct)
    : run (Z * ssh_session_struct) :=
  '(rc, s1) ← ssh_handle_packets_termination s ssh_auth_response_termination;
  if (rc =? SSH_ERROR)%Z then Done (SSH_AUTH_ERROR, s1)
  else if negb (ssh_auth_response_termination s1) then
    Done (SSH_AUTH_AGAIN, s1)
  else
    Done (match auth_state s1 with
          | SSH_AUTH_STATE_ERROR => SSH_AUTH_ERROR
          | SSH_AUTH_STATE_FAILED => SSH_AUTH_DENIED
          | SSH_AUTH_STATE_INFO => SSH_AUTH_INFO
          | SSH_AUTH_STATE_PARTIAL => SSH_AUTH_PARTIAL
          | SSH_AUTH_STATE_PK_OK
          | SSH_AUTH_STATE_SUCCESS => SSH_AUTH_SUCCESS
          | SSH_AUTH_STATE_KBDINT_SENT
          | SSH_AUTH_STATE_NONE => SSH_AUTH_ERROR
          end, s1).

(** ** Method drivers *)

(** The fields every [USERAUTH_REQUEST] starts with, appended to the
    outgoing buffer: message number, user name (the argument, else the one
    of the session), service, method. *)
Definition add_request_head (user : option cstring) (method : string)
    (s : ssh_session_struct) : bytes :=
  let b := buffer_add_u8 (out_buffer s)
             (ascii_of_N SSH2_MSG_USERAUTH_REQUEST) in
  let b := buffer_add_ssh_string b
             (ssh_string_from_char
                (match user with Some u => u | None => username s end)) in
  let b := buffer_add_ssh_string b
             (ssh_string_from_char (lit "ssh-connection")) in
  buffer_add_ssh_string b (ssh_string_from_char (lit method)).

(** The statements at the label [pending:] of a driver. *)
Definition at_pending `{Limits} (s : ssh_session_struct)
    : run (Z * ssh_session_struct) :=
  '(rc, s1) ← ssh_userauth_get_response s;
  Done (rc, if (rc =? SSH_AUTH_AGAIN)%Z then s1
            else set_pending_call_state SSH_PENDING_CALL_NONE s1).

(** The statements at the label [fail:] of a driver.  The model reaches
    it where the key export or the signature fails; the jumps to it after
    a failed allocation are outside the model. *)
Definition at_fail (s : ssh_session_struct) : Z * ssh_session_struct :=
  (SSH_AUTH_ERROR, buffer_reinit (ssh_set_error_oom s)).

(** The end of the request path of a driver: state, marker, send, wait. *)
Definition send_request `{Limits} (marker : ssh_pending_call_e)
    (s : ssh_session_struct) : run (Z * ssh_session_struct) :=
  let s := set_auth_state SSH_AUTH_STATE_NONE s in
  let s := set_pending_call_state marker s in
  let '(rc, s) := packet_send s in
  if (rc =? SSH_ERROR)%Z then Done (SSH_AUTH_ERROR, s)
  else at_pending s.

(** [ssh_userauth_none] has no test of [session] against [NULL]: its first
    statement reads [session->pending_call_state]. *)
Definition ssh_userauth_none_body `{Limits} (s : ssh_session_struct)
    (user : option cstring) : run (Z * ssh_session_struct) :=
  match pending_call_state s with
  | SSH_PENDING_CALL_NONE =>
      let '(rc, s) := ssh_userauth_request_service s in
      if (rc =? SSH_AGAIN)%Z then Done (SSH_AUTH_AGAIN, s)
      else if (rc =? SSH_ERROR)%Z then Done (SSH_AUTH_ERROR, s)
      else
        let b := add_request_head user "none" s in
        send_request SSH_PENDING_CALL_AUTH_NONE (set_out_buffer b s)
  | SSH_PENDING_CALL_AUTH_NONE => at_pending s
  | _ =>
      Done (SSH_AUTH_ERROR,
            ssh_set_error SSH_FATAL
              "Bad call during pending SSH call in ssh_userauth_none" s)
  end.

(** The result of a call on a live session, seen through the pointer. *)
Definition lift_session {A} (m : run (A * ssh_session_struct))
    : run (A * option ssh_session_struct) :=
  '(a, s) ← m; Done (a, Some s).

(** [ssh_userauth_none] on a session pointer, [None] for [NULL]. *)
Definition ssh_userauth_none `{Limits} (session : option ssh_session_struct)
    (user : option cstring) : run (Z * option ssh_session_struct) :=
  match session with
  | None => Undefined NullDereference
  | Some s => lift_session (ssh_userauth_none_body s user)
  end.

(** [ssh_userauth_try_publickey] on a live session. *)
Definition ssh_userauth_try_publickey_body `{Limits}
    (s : ssh_session_struct) (user : option cstring)
    (pubkey : option ssh_key_struct) : run (Z * ssh_session_struct) :=
  let invalid := Done (SSH_AUTH_ERROR,
                       ssh_set_error SSH_FATAL "Invalid pubkey" s) in
  match pubkey with
  | None => invalid
  | Some key =>
      if negb (is_public key) then invalid
      else
        match pending_call_state s with
        | SSH_PENDING_CALL_NONE =>
            let '(rc, s) := ssh_userauth_request_service s in
            if (rc =? SSH_AGAIN)%Z then Done (SSH_AUTH_AGAIN, s)
            else if (rc =? SSH_ERROR)%Z then Done (SSH_AUTH_ERROR, s)
            else
              let b := add_request_head user "publickey" s in
              let b := buffer_add_u8 b Ascii.zero in
              let b := buffer_add_ssh_string b
                         (ssh_string_from_char (type_c key)) in
              match pubkey_blob key with
              | None => Done (at_fail (set_out_buffer b s))
              | Some blob =>
                  let b := buffer_add_ssh_string b blob in
                  send_request SSH_PENDING_CALL_AUTH_OFFER_PUBKEY
                    (set_out_buffer b s)
              end
        | SSH_PENDING_CALL_AUTH_OFFER_PUBKEY => at_pending s
        | _ =>
            Done (SSH_ERROR,
                  ssh_set_error SSH_FATAL
                    "Bad call during pending SSH call in ssh_userauth_try_pubkey"
                    s)
        end
  end.

(** [ssh_userauth_try_publickey], from its test of the pointer on. *)
Definition ssh_userauth_try_publickey `{Limits}
    (session : option ssh_session_struct) (user : option cstring)
    (pubkey : option ssh_key_struct) : run (Z * option ssh_session_struct) :=
  match session with
  | None => Done (SSH_AUTH_ERROR, None)
  | Some s => lift_session (ssh_userauth_try_publickey_body s user pubkey)
  end.

(** [ssh_userauth_publickey] on a live session. *)
Definition ssh_userauth_publickey_body `{Limits}
    (s : ssh_session_struct) (user : option cstring)
    (privkey : option ssh_key_struct) : run (Z * ssh_session_struct) :=
  let invalid := Done (SSH_AUTH_ERROR,
                       ssh_set_error SSH_FATAL "Invalid private key" s) in
  match privkey with
  | None => invalid
  | Some key =>
      if negb (is_private key) then invalid
      else
        match pending_call_state s with
        | SSH_PENDING_CALL_NONE =>
            let '(rc, s) := ssh_userauth_request_service s in
            if (rc =? SSH_AGAIN)%Z then Done (SSH_AUTH_AGAIN, s)
            else if (rc =? SSH_ERROR)%Z then Done (SSH_AUTH_ERROR, s)
            else
              let b := add_request_head user "publickey" s in
              let b := buffer_add_u8 b Ascii.one in
              let b := buffer_add_ssh_string b
                         (ssh_string_from_char (type_c key)) in
              match pubkey_blob key with
              | None => Done (at_fail (set_out_buffer b s))
              | Some blob =>
                  let b := buffer_add_ssh_string b blob in
                  match ssh_pki_do_sign (world s) b key with
                  | None => Done (at_fail (set_out_buffer b s))
                  | Some sig =>
                      let b := buffer_add_ssh_string b sig in
                      send_request SSH_PENDING_CALL_AUTH_PUBKEY
                        (set_out_buffer b s)
                  end
              end
        | SSH_PENDING_CALL_AUTH_PUBKEY => at_pending s
        | _ =>
            Done (SSH_AUTH_ERROR,
                  ssh_set_error SSH_FATAL
                    "Bad call during pending SSH call in ssh_userauth_try_pubkey"
                    s)
        end
  end.

(** [ssh_userauth_publickey], from its test of the pointer on. *)
Definition ssh_userauth_publickey `{Limits}
    (session : option ssh_session_struct) (user : option cstring)
    (privkey : option ssh_key_struct) : run (Z * option ssh_session_struct) :=
  match session with
  | None => Done (SSH_AUTH_ERROR, None)
  | Some s => lift_session (ssh_userauth_publickey_body s user privkey)
  end.

(** [ssh_userauth_agent_publickey], the static driver that lets the agent
    sign; it is only called on a live session. *)
Definition ssh_userauth_agent_publickey `{Limits}
    (s : ssh_session_struct) (user : option cstring)
    (pubkey : ssh_key_struct) : run (Z * ssh_session_struct) :=
  match pending_call_state s with
  | SSH_PENDING_CALL_NONE =>
      let '(rc, s) := ssh_userauth_request_service s in
      if (rc =? SSH_AGAIN)%Z then Done (SSH_AUTH_AGAIN, s)
      else if (rc =? SSH_ERROR)%Z then Done (SSH_AUTH_ERROR, s)
      else
        let b := add_request_head user "publickey" s in
        let b := buffer_add_u8 b Ascii.one in
        let b := buffer_add_ssh_string b
                   (ssh_string_from_char (type_c pubkey)) in
        match pubkey_blob pubkey with
        | None => Done (at_fail (set_out_buffer b s))
        | Some blob =>
            let b := buffer_add_ssh_string b blob in
            match ssh_pki_do_sign_agent (world s) b pubkey with
            | None => Done (at_fail (set_out_buffer b s))
            | Some sig =>
                let b := buffer_add_ssh_string b sig in
                send_request SSH_PENDING_CALL_AUTH_AGENT (set_out_buffer b s)
            end
        end
  | SSH_PENDING_CALL_AUTH_AGENT => at_pending s
  | _ =>
      Done (SSH_ERROR,
            ssh_set_error SSH_FATAL
              "Bad call during pending SSH call in ssh_userauth_try_pubkey" s)
  end.

(** What one turn of a [for] loop ends with. *)
Inductive turn : Type :=
  | Continue
  | Return (rc : Z).

(** The body of the loop of [ssh_userauth_agent] for one identity.  The
    inner calls are made on the live session, so the pointer test of
    [ssh_userauth_try_publickey] passes. *)
Definition agent_identity `{Limits} (s : ssh_session_struct)
    (user : option cstring) (pubkey : ssh_key_struct)
    : run (turn * ssh_session_struct) :=
  '(rc, s) ← ssh_userauth_try_publickey_body s user (Some pubkey);
  if (rc =? SSH_AUTH_ERROR)%Z then Done (Return rc, s)
  else if negb (rc =? SSH_AUTH_SUCCESS)%Z then Done (Continue, s)
  else
    '(rc, s) ← ssh_userauth_agent_publickey s user pubkey;
    if (rc =? SSH_AUTH_ERROR)%Z then Done (Return rc, s)
    else if negb (rc =? SSH_AUTH_SUCCESS)%Z then Done (Continue, s)
    else Done (Return SSH_AUTH_SUCCESS, s).

(** The loop over [ssh_agent_get_first_ident], [ssh_agent_get_next_ident]
    and the statement after it. *)
Fixpoint agent_loop `{Limits} (idents : list (ssh_key_struct * cstring))
    (s : ssh_session_struct) (user : option cstring)
    : run (Z * ssh_session_struct) :=
  match idents with
  | [] => Done (SSH_AUTH_ERROR, s)
  | (pubkey, comment) :: rest =>
      '(t, s) ← agent_identity s user pubkey;
      match t with
      | Return rc => Done (rc, s)
      | Continue => agent_loop rest s user
      end
  end.

(** [ssh_userauth_agent] on a live session. *)
Definition ssh_userauth_agent_body `{Limits} (s : ssh_session_struct)
    (user : option cstring) : run (Z * ssh_session_struct) :=
  if negb (agent_is_running (world s)) then Done (SSH_AUTH_DENIED, s)
  else agent_loop (agent_identities (world s)) s user.

(** [ssh_userauth_agent], from its test of the pointer on. *)
Definition ssh_userauth_agent `{Limits}
    (session : option ssh_session_struct) (user : option cstring)
    : run (Z * option ssh_session_struct) :=
  match session with
  | None => Done (SSH_AUTH_ERROR, None)
  | Some s => lift_session (ssh_userauth_agent_body s user)
  end.

(** [snprintf(pubkey_file, sizeof(pubkey_file), "%s.pub", privkey_file)]
    with [char pubkey_file[1024]]. *)
Definition pubkey_file_of (privkey_file : cstring) : cstring :=
  take 1023 (c_view privkey_file ++ lit ".pub").

(** The part of the loop body of [ssh_userauth_publickey_auto] from the
    offer on; [privkey] is [None] when only the public file was read. *)
Definition auto_offer_and_sign `{Limits} (s : ssh_session_struct)
    (user passphrase : option cstring) (privkey_file : cstring)
    (pubkey : ssh_key_struct) (privkey : option ssh_key_struct)
    : run (turn * ssh_session_struct) :=
  '(rc, s) ← ssh_userauth_try_publickey_body s user (Some pubkey);
  if (rc =? SSH_AUTH_ERROR)%Z then Done (Return rc, s)
  else if negb (rc =? SSH_AUTH_SUCCESS)%Z then Done (Continue, s)
  else
    let sign (key : ssh_key_struct) (s : ssh_session_struct) :=
      '(rc, s) ← ssh_userauth_publickey_body s user (Some key);
      if (rc =? SSH_AUTH_ERROR)%Z then Done (Return rc, s)
      else if (rc =? SSH_AUTH_SUCCESS)%Z then Done (Return rc, s)
      else Done (Continue, s) in
    match privkey with
    | Some key => sign key s
    | None =>
        match ssh_pki_import_privkey_file (world s) privkey_file passphrase with
        | PkiError =>
            Done (Continue,
                  ssh_set_error SSH_FATAL "Failed to read private key: %s" s)
        | PkiEof => Done (Continue, s)
        | PkiKey key => sign key s
        end
    end.

(** The body of the loop of [ssh_userauth_publickey_auto] for one identity
    file.  [ssh_pki_export_pubkey_file] is called for its effect on the
    file system; its result is only logged. *)
Definition auto_identity `{Limits} (s : ssh_session_struct)
    (user passphrase : option cstring) (privkey_file : cstring)
    : run (turn * ssh_session_struct) :=
  let pubkey_file := pubkey_file_of privkey_file in
  match ssh_pki_import_pubkey_file (world s) pubkey_file with
  | PkiError =>
      Done (Return SSH_AUTH_ERROR,
            ssh_set_error SSH_FATAL "Failed to import public key: %s" s)
  | PkiEof =>
      match ssh_pki_import_privkey_file (world s) privkey_file passphrase with
      | PkiError =>
          Done (Continue,
                ssh_set_error SSH_FATAL "Failed to read private key: %s" s)
      | PkiEof => Done (Continue, s)
      | PkiKey privkey =>
          match ssh_pki_export_privkey_to_pubkey (world s) privkey with
          | None => Done (Return SSH_AUTH_ERROR, s)
          | Some pubkey =>
              auto_offer_and_sign s user passphrase privkey_file pubkey
                (Some privkey)
          end
      end
  | PkiKey pubkey =>
      auto_offer_and_sign s user passphrase privkey_file pubkey None
  end.

(** The loop of [ssh_userauth_publickey_auto] over [session->identity]
    and the statement after it. *)
Fixpoint auto_loop `{Limits} (files : list cstring) (s : ssh_session_struct)
    (user passphrase : option cstring) : run (Z * ssh_session_struct) :=
  match files with
  | [] => Done (SSH_AUTH_DENIED, s)
  | privkey_file :: rest =>
      '(t, s) ← auto_identity s user passphrase privkey_file;
      match t with
      | Return rc => Done (rc, s)
      | Continue => auto_loop rest s user passphrase
      end
  end.

(** [ssh_userauth_publickey_auto] on a live session: the agent first,
    then the identity files. *)
Definition ssh_userauth_publickey_auto_body `{Limits}
    (s : ssh_session_struct) (user passphrase : option cstring)
    : run (Z * ssh_session_struct) :=
  '(rc, s) ← ssh_userauth_agent_body s user;
  if (rc =? SSH_AUTH_ERROR)%Z || (rc =? SSH_AUTH_SUCCESS)%Z then Done (rc, s)
  else auto_loop (identity s) s user passphrase.

(** [ssh_userauth_publickey_auto], from its test of the pointer on. *)
Definition ssh_userauth_publickey_auto `{Limits}
    (session : option ssh_session_struct) (user passphrase : option cstring)
    : run (Z * option ssh_session_struct) :=
  match session with
  | None => Done (SSH_AUTH_ERROR, None)
  | Some s => lift_session (ssh_userauth_publickey_auto_body s user passphrase)
  end.

(** [ssh_userauth_password] has no test of [session] against [NULL]
    either.  The marker it tests and sets is the one the source names,
    [SSH_PENDING_CALL_AUTH_OFFER_PUBKEY]. *)
Definition ssh_userauth_password_body `{Limits} (s : ssh_session_struct)
    (user : option cstring) (password : cstring)
    : run (Z * ssh_session_struct) :=
  match pending_call_state s with
  | SSH_PENDING_CALL_NONE =>
      let '(rc, s) := ssh_userauth_request_service s in
      if (rc =? SSH_AGAIN)%Z then Done (SSH_AUTH_AGAIN, s)
      else if (rc =? SSH_ERROR)%Z then Done (SSH_AUTH_ERROR, s)
      else
        let b := add_request_head user "password" s in
        let b := buffer_add_u8 b Ascii.zero in
        let b := buffer_add_ssh_string b (ssh_string_from_char password) in
        send_request SSH_PENDING_CALL_AUTH_OFFER_PUBKEY (set_out_buffer b s)
  | SSH_PENDING_CALL_AUTH_OFFER_PUBKEY => at_pending s
  | _ =>
      Done (SSH_ERROR,
            ssh_set_error SSH_FATAL
              "Bad call during pending SSH call in ssh_userauth_try_pubkey" s)
  end.

(** [ssh_userauth_password] on a session pointer, [None] for [NULL]. *)
Definition ssh_userauth_password `{Limits}
    (session : option ssh_session_struct) (user : option cstring)
    (password : cstring) : run (Z * option ssh_session_struct) :=
  match session with
  | None => Undefined NullDereference
  | Some s => lift_session (ssh_userauth_password_body s user password)
  end.

(** [ssh_userauth_kbdint_init]: the first packet of the method.  It
    neither tests nor sets the pending-call marker. *)
Definition ssh_userauth_kbdint_init `{Limits} (s : ssh_session_struct)
    (user submethods : option cstring) : run (Z * ssh_session_struct) :=
  let '(rc, s) := ssh_userauth_request_service s in
  if negb (rc =? SSH_OK)%Z then Done (SSH_AUTH_ERROR, s)
  else
    let b := add_request_head user "keyboard-interactive" s in
    let b := buffer_add_ssh_string b (ssh_string_from_char (lit "")) in
    let b := buffer_add_ssh_string b
               (ssh_string_from_char
                  (match submethods with Some m => m | None => lit "" end)) in
    let s := set_out_buffer b s in
    let s := set_auth_state SSH_AUTH_STATE_KBDINT_SENT s in
    let '(rc, s) := packet_send s in
    if (rc =? SSH_ERROR)%Z then Done (SSH_AUTH_ERROR, s)
    else ssh_userauth_get_response s.

(** The loop [for (i = 0; i < session->kbdint->nprompts; i++)] of
    [ssh_userauth_kbdint_send]: [remaining] answers from index [i] on are
    appended to the buffer. *)
Fixpoint add_answers (remaining : nat) (i : N) (k : ssh_kbdint_struct)
    (b : bytes) : run bytes :=
  match remaining with
  | O => Done b
  | S r =>
      answer ← match answers k with
               | None => Done (ssh_string_from_char (lit ""))
               | Some a =>
                   x ← array_load i a;
                   Done (match x with
                         | Some p => ssh_string_from_char p
                         | None => ssh_string_from_char (lit "")
                         end)
               end;
      add_answers r (N.succ i) k (buffer_add_ssh_string b answer)
  end.

(** [ssh_userauth_kbdint_send]: the answers, then the release of the
    scratch, then the packet and the wait. *)
Definition ssh_userauth_kbdint_send `{Limits} (s : ssh_session_struct)
    : run (Z * ssh_session_struct) :=
  match kbdint s with
  | None => Undefined NullDereference
  | Some k =>
      let b := buffer_add_u8 (out_buffer s)
                 (ascii_of_N SSH2_MSG_USERAUTH_INFO_RESPONSE) in
      let b := buffer_add_u32 b (htonl (nprompts k)) in
      b ← add_answers (N.to_nat (nprompts k)) 0 k b;
      let s := set_out_buffer b s in
      let s := set_auth_state SSH_AUTH_STATE_KBDINT_SENT s in
      s ← drop_kbdint k s;
      let '(rc, s) := packet_send s in
      if (rc =? SSH_ERROR)%Z then Done (SSH_AUTH_ERROR, s)
      else ssh_userauth_get_response s
  end.

(** [ssh_userauth_kbdint] on a live session: the first packet when there
    is no scratch, the answers when there is one. *)
Definition ssh_userauth_kbdint_body `{Limits} (s : ssh_session_struct)
    (user submethods : option cstring) : run (Z * ssh_session_struct) :=
  match kbdint s with
  | None => ssh_userauth_kbdint_init s user submethods
  | Some _ => ssh_userauth_kbdint_send s
  end.

(** [ssh_userauth_kbdint], from its test of the pointer on. *)
Definition ssh_userauth_kbdint `{Limits}
    (session : option ssh_session_struct) (user submethods : option cstring)
    : run (Z * option ssh_session_struct) :=
  match session with
  | None => Done (SSH_AUTH_ERROR, None)
  | Some s => lift_session (ssh_userauth_kbdint_body s user submethods)
  end.

(** ** Accessors of the scratch *)

(** [ssh_userauth_list]; its [username] argument is unused. *)
Definition ssh_userauth_list (session : option ssh_session_struct) : Z :=
  match session with
  | None => 0
  | Some s => auth_methods s
  end.

(** [ssh_userauth_kbdint_getnprompts]. *)
Definition ssh_userauth_kbdint_getnprompts
    (session : option ssh_session_struct)
    : Z * option ssh_session_struct :=
  match session with
  | None => (SSH_ERROR, None)
  | Some s =>
      match kbdint s with
      | None =>
          (SSH_ERROR,
           Some (ssh_set_error_invalid "ssh_userauth_kbdint_getnprompts" s))
      | Some k => (int_of_uint32 (nprompts k), Some s)
      end
  end.

(** [ssh_userauth_kbdint_getprompt]: the pointer returned ([None] for
    [NULL]), what is written to [*echo] when [echo] is not [NULL]
    ([want_echo]), and the session. *)
Definition ssh_userauth_kbdint_getprompt
    (session : option ssh_session_struct) (i : N) (want_echo : bool)
    : run (option cstring * option ascii * option ssh_session_struct) :=
  match session with
  | None => Done (None, None, None)
  | Some s =>
      let invalid :=
        Done (None, None,
              Some (ssh_set_error_invalid "ssh_userauth_kbdint_getprompt" s)) in
      match kbdint s with
      | None => invalid
      | Some k =>
          if (nprompts k <? i)%N then invalid
          else
            e ← (if want_echo then
                   match echo k with
                   | None => Undefined NullDereference
                   | Some a => x ← array_load i a; Done (Some x)
                   end
                 else Done None);
            p ← match prompts k with
                | None => Undefined NullDereference
                | Some a => array_load i a
                end;
            Done (p, e, Some s)
      end
  end.

(** [ssh_userauth_kbdint_setanswer]: [answer] is [None] for [NULL]. *)
Definition ssh_userauth_kbdint_setanswer
    (session : option ssh_session_struct) (i : N) (answer : option cstring)
    : run (Z * option ssh_session_struct) :=
  match session with
  | None => Done ((-1)%Z, None)
  | Some s =>
      let invalid :=
        Done ((-1)%Z,
              Some (ssh_set_error_invalid "ssh_userauth_kbdint_setanswer" s)) in
      match answer, kbdint s with
      | Some a, Some k =>
          if (nprompts k <? i)%N then invalid
          else
            let arr := match answers k with
                       | Some arr => arr
                       | None => replicate (N.to_nat (nprompts k)) None
                       end in
            old ← array_load i arr;
            let blocks := match old with
                          | Some p => [BURN_STRING p]
                          | None => []
                          end in
            arr' ← array_store i (Some (strdup a)) arr;
            Done (0%Z,
                  Some (set_kbdint (Some (set_answers (Some arr') k))
                          (set_freed (freed s ++ blocks) s)))
      | _, _ => invalid
      end
  end.

(** ** The other accessors of the scratch *)

(** [ssh_userauth_kbdint_getname]: the pointer returned and the session. *)
Definition ssh_userauth_kbdint_getname (session : option ssh_session_struct)
    : option cstring * option ssh_session_struct :=
  match session with
  | None => (None, None)
  | Some s =>
      match kbdint s with
      | None =>
          (None, Some (ssh_set_error_invalid "ssh_userauth_kbdint_getname" s))
      | Some k => (name k, Some s)
      end
  end.

(** [ssh_userauth_kbdint_getinstruction]. *)
Definition ssh_userauth_kbdint_getinstruction
    (session : option ssh_session_struct)
    : option cstring * option ssh_session_struct :=
  match session with
  | None => (None, None)
  | Some s =>
      match kbdint s with
      | None =>
          (None,
           Some (ssh_set_error_invalid "ssh_userauth_kbdint_getinstruction" s))
      | Some k => (instruction k, Some s)
      end
  end.

(** [ssh_userauth_kbdint_getnanswers], compiled under [WITH_SERVER]. *)
Definition ssh_userauth_kbdint_getnanswers
    (session : option ssh_session_struct) : Z :=
  match session with
  | None => SSH_ERROR
  | Some s =>
      match kbdint s with
      | None => SSH_ERROR
      | Some k => int_of_uint32 (nanswers k)
      end
  end.

(** [ssh_userauth_kbdint_getanswer], compiled under [WITH_SERVER]: the
    pointer returned, [None] for [NULL]. *)
Definition ssh_userauth_kbdint_getanswer
    (session : option ssh_session_struct) (i : N) : run (option cstring) :=
  match session with
  | None => Done None
  | Some s =>
      match kbdint s with
      | None => Done None
      | Some k =>
          match answers k with
          | None => Done None
          | Some a =>
              if (nanswers k <? i)%N then Done None else array_load i a
          end
      end
  end.

(* ================================================================== *)
(** * Part II. Notions the properties are stated with                  *)
(* ================================================================== *)

#[global] Instance ascii_eq_decision : EqDecision ascii := ascii_dec.

(** ** Wire formats of the messages, after the message number *)

Definition wire_string (s : bytes) : bytes := buffer_add_ssh_string [] s.

(** [USERAUTH_FAILURE]: "string methods, bool partial". *)
Definition failure_payload (methods : bytes) (partial : ascii) : bytes :=
  wire_string methods ++ [partial].

(** [USERAUTH_INFO_REQUEST]: "string name, string instruction, string lang,
    uint32 n, n x (string prompt, bool echo)". *)
Definition prompt_fields (ps : list (bytes * ascii)) : bytes :=
  concat (map (fun pe => wire_string (fst pe) ++ [snd pe]) ps).

Definition info_request_payload (name instruction lang : bytes) (n : N)
    (ps : list (bytes * ascii)) : bytes :=
  wire_string name ++ wire_string instruction ++ wire_string lang
  ++ htonl n ++ prompt_fields ps.

(** [USERAUTH_INFO_RESPONSE], with its message number: "uint32 n,
    n x string response". *)
Definition info_response_packet (responses : list bytes) : bytes :=
  ascii_of_N SSH2_MSG_USERAUTH_INFO_RESPONSE
  :: htonl (N.of_nat (length responses))
  ++ concat (map wire_string responses).

(** The reader of an [INFO_RESPONSE], as a server would read it: the
    message number, the count, that many strings and nothing more. *)
Fixpoint read_strings (n : nat) (b : bytes) : option (list bytes) :=
  match n with
  | O => match b with [] => Some [] | _ :: _ => None end
  | S m =>
      match buffer_get_ssh_string b with
      | (Some s, rest) => cons s <$> read_strings m rest
      | (None, _) => None
      end
  end.

Definition parse_info_response (packet : bytes) : option (list bytes) :=
  match packet with
  | [] => None
  | t :: rest =>
      if (N_of_ascii t =? SSH2_MSG_USERAUTH_INFO_RESPONSE)%N then
        match buffer_get_u32 rest with
        | (Some w, r) => read_strings (N.to_nat (ntohl w)) r
        | (None, _) => None
        end
      else None
  end.

(** ** The method list of a failure, as the spec reads it *)

(** [name] occurs in [l] as a run of consecutive bytes. *)
Definition occurs (name l : list ascii) : Prop :=
  exists pre post, l = pre ++ name ++ post.

(** The comma-separated names of a list. *)
Fixpoint split_at_commas (l : list ascii) : list (list ascii) :=
  match l with
  | [] => [[]]
  | c :: r =>
      if Ascii.eqb c ","%char then [] :: split_at_commas r
      else match split_at_commas r with
           | t :: ts => (c :: t) :: ts
           | [] => [[c]]
           end
  end.

Definition name_list (methods : cstring) : list (list ascii) :=
  split_at_commas (c_view methods).

Definition flag_if (b : bool) (flag : Z) : Z := if b then flag else 0%Z.

(** "The recognized subset of the server's list": the flags of the four
    recognized names that are tokens of the comma-separated list. *)
Definition recognized_subset (methods : cstring) : Z :=
  let present (name : string) := bool_decide (lit name ∈ name_list methods) in
  Z.lor
    (Z.lor
       (Z.lor (flag_if (present "password"%string) SSH_AUTH_METHOD_PASSWORD)
          (flag_if (present "keyboard-interactive"%string)
             SSH_AUTH_METHOD_INTERACTIVE))
       (flag_if (present "publickey"%string) SSH_AUTH_METHOD_PUBLICKEY))
    (flag_if (present "hostbased"%string) SSH_AUTH_METHOD_HOSTBASED).

Definition recognized_methods : list (string * Z) :=
  [ ("password"%string, SSH_AUTH_METHOD_PASSWORD);
    ("keyboard-interactive"%string, SSH_AUTH_METHOD_INTERACTIVE);
    ("publickey"%string, SSH_AUTH_METHOD_PUBLICKEY);
    ("hostbased"%string, SSH_AUTH_METHOD_HOSTBASED) ].

Definition has_flag (flag methods : Z) : Prop := Z.land methods flag = flag.

Definition all_method_flags : Z :=
  Z.lor (Z.lor (Z.lor SSH_AUTH_METHOD_PASSWORD SSH_AUTH_METHOD_INTERACTIVE)
           SSH_AUTH_METHOD_PUBLICKEY) SSH_AUTH_METHOD_HOSTBASED.

(** ** A scratch as [ssh_packet_userauth_info_request] and
       [ssh_userauth_kbdint_setanswer] leave it *)

(** A block without a zero byte inside: all of it is the C string. *)
Definition c_string (p : cstring) : Prop := c_view p = p.

Record kbdint_wf (k : ssh_kbdint_struct) : Prop := {
  wf_nanswers : nanswers k = nprompts k;
  wf_int : (nprompts k < 2147483648)%N;
  wf_prompts :
    exists ps, prompts k = Some ps /\ length ps = N.to_nat (nprompts k);
  wf_echo :
    exists es, echo k = Some es /\ length es = N.to_nat (nprompts k);
  wf_answers :
    forall a, answers k = Some a ->
      length a = N.to_nat (nprompts k)
      /\ Forall (fun x => forall p, x = Some p -> c_string p) a
}.

(** The string blocks [ssh_kbdint_free] and [ssh_kbdint_clean] release of
    a scratch whose counts fit its arrays: name and instruction as they
    are, the prompts and the answers overwritten first. *)
Definition burned (a : option (list (option cstring))) : list cstring :=
  match a with
  | Some l => omap (fmap BURN_STRING) l
  | None => []
  end.

Definition released_blocks (k : ssh_kbdint_struct) : list cstring :=
  free_block (name k) ++ free_block (instruction k)
  ++ burned (prompts k) ++ burned (answers k).

Definition old_blocks (s : ssh_session_struct) : list cstring :=
  match kbdint s with
  | Some k => released_blocks k
  | None => []
  end.

(** The answer slots of a scratch, one per prompt, and what
    [ssh_userauth_kbdint_send] sends for a slot. *)
Definition answer_slots (k : ssh_kbdint_struct) : list (option cstring) :=
  match answers k with
  | Some a => a
  | None => replicate (N.to_nat (nprompts k)) None
  end.

Definition response_of (slot : option cstring) : bytes :=
  match slot with
  | Some p => c_view p
  | None => []
  end.

Definition all_zero (b : cstring) : Prop := Forall (fun c => c = Ascii.zero) b.

(** ** What the socket brings *)

(** What the transport will answer to the next service request and to the
    next packet handed to it. *)
Definition next_service (s : ssh_session_struct) : service_outcome :=
  hd SvcOk (service_script (link s)).

Definition next_send_accepted (s : ssh_session_struct) : bool :=
  hd true (send_script (link s)).

Definition is_success_packet (e : event) : bool :=
  match e with
  | EvPacket type _ => (type =? SSH2_MSG_USERAUTH_SUCCESS)%N
  | _ => false
  end.

Definition no_success (evs : list event) : Prop :=
  Forall (fun e => is_success_packet e = false) evs.

(** No [USERAUTH_SUCCESS] is among what is still to arrive. *)
Definition quiet (s : ssh_session_struct) : Prop :=
  no_success (inbox (link s)).

(** A call that leaves the negotiated crypto, compression flags included,
    as it found it, whenever no [USERAUTH_SUCCESS] arrives during it. *)
Definition keeps_compression {A}
    (f : ssh_session_struct -> run (A * ssh_session_struct)) : Prop :=
  forall s a s',
    quiet s -> f s = Done (a, s') ->
    current_crypto s' = current_crypto s /\ quiet s'.

(** Delayed compression switched on, per direction. *)
Definition enable_delayed (c : ssh_crypto_struct) : ssh_crypto_struct :=
  {| delayed_compress_in := delayed_compress_in c;
     delayed_compress_out := delayed_compress_out c;
     do_compress_in := do_compress_in c || delayed_compress_in c;
     do_compress_out := do_compress_out c || delayed_compress_out c |}.

(** The fields of the session no packet handler writes. *)
Definition handlers_frame (s s' : ssh_session_struct) : Prop :=
  pending_call_state s' = pending_call_state s
  /\ out_buffer s' = out_buffer s
  /\ link s' = link s
  /\ world s' = world s.

(** ** Calls that return *)

(** The call returns, and its result and the session it leaves satisfy
    [post]. *)
Definition returns {A} (m : run (A * ssh_session_struct))
    (post : A -> ssh_session_struct -> Prop) : Prop :=
  exists a s', m = Done (a, s') /\ post a s'.

(** The session is not waiting for the answer to a keyboard-interactive
    message, so message 60 is read as [USERAUTH_PK_OK]. *)
Definition outside_kbdint (s : ssh_session_struct) : Prop :=
  auth_state s <> SSH_AUTH_STATE_KBDINT_SENT.

(** ** The identities of the agent, tried in vain *)

(** Every identity of the list was tried, one after the other, without a
    SUCCESS and without a fatal error: for each key either the offer was
    answered by something other than SUCCESS and ERROR, or the offer was
    accepted and the signature was answered by something other than
    SUCCESS and ERROR.  [s'] is the session after the last of them. *)
Inductive tried_in_vain `{Limits} (user : option cstring)
    : list (ssh_key_struct * cstring) -> ssh_session_struct
      -> ssh_session_struct -> Prop :=
  | none_left (s : ssh_session_struct) : tried_in_vain user [] s s
  | offer_refused (key : ssh_key_struct) (comment : cstring)
      (rest : list (ssh_key_struct * cstring)) (rc : Z)
      (s s1 s' : ssh_session_struct) :
      ssh_userauth_try_publickey_body s user (Some key) = Done (rc, s1) ->
      rc <> SSH_AUTH_ERROR ->
      rc <> SSH_AUTH_SUCCESS ->
      tried_in_vain user rest s1 s' ->
      tried_in_vain user ((key, comment) :: rest) s s'
  | signature_refused (key : ssh_key_struct) (comment : cstring)
      (rest : list (ssh_key_struct * cstring)) (rc : Z)
      (s s1 s2 s' : ssh_session_struct) :
      ssh_userauth_try_publickey_body s user (Some key)
      = Done (SSH_AUTH_SUCCESS, s1) ->
      ssh_userauth_agent_publickey s1 user key = Done (rc, s2) ->
      rc <> SSH_AUTH_ERROR ->
      rc <> SSH_AUTH_SUCCESS ->
      tried_in_vain user rest s2 s' ->
      tried_in_vain user ((key, comment) :: rest) s s'.

(** ** Packets that end too early *)

(** What is left of a buffer ends inside a string: before the four bytes
    of the length are complete, or with a length that announces more bytes
    than follow it. *)
Definition ends_inside_a_string (b : bytes) : Prop :=
  (length b < 4)%nat
  \/ exists (announced : N) (body : bytes),
       (announced < 4294967296)%N
       /\ (N.of_nat (length body) < announced)%N
       /\ b = htonl announced ++ body.

(** A payload that ends inside its first three strings: fewer than three
    whole strings, then a string that is cut, in its length or in its
    bytes. *)
Definition truncated_head (packet : bytes) : Prop :=
  exists (fields : list bytes) (tail : bytes),
    (length fields < 3)%nat
    /\ Forall (fun f => (N.of_nat (length f) < 4294967296)%N) fields
    /\ ends_inside_a_string tail
    /\ packet = concat (map wire_string fields) ++ tail.

(** ** Results and states *)

(** What a result other than ERROR and AGAIN says about the state the
    session is left in. *)
Definition result_matches_state (rc : Z) (s : ssh_session_struct) : Prop :=
  (rc = SSH_AUTH_SUCCESS ->
   auth_state s = SSH_AUTH_STATE_SUCCESS \/ auth_state s = SSH_AUTH_STATE_PK_OK)
  /\ (rc = SSH_AUTH_DENIED -> auth_state s = SSH_AUTH_STATE_FAILED)
  /\ (rc = SSH_AUTH_PARTIAL -> auth_state s = SSH_AUTH_STATE_PARTIAL)
  /\ (rc = SSH_AUTH_INFO -> auth_state s = SSH_AUTH_STATE_INFO).

(** The six results of the public interface. *)
Definition is_auth_result (rc : Z) : Prop :=
  rc = SSH_AUTH_ERROR \/ rc = SSH_AUTH_SUCCESS \/ rc = SSH_AUTH_DENIED
  \/ rc = SSH_AUTH_PARTIAL \/ rc = SSH_AUTH_INFO \/ rc = SSH_AUTH_AGAIN.

(** ** The application side of keyboard-interactive *)

(** An application that answers the prompts in order, from index [i] on,
    and stops at the first answer that is refused. *)
Fixpoint answer_in_order (i : N) (answers : list cstring)
    (session : option ssh_session_struct)
    : run (Z * option ssh_session_struct) :=
  match answers with
  | [] => Done (0%Z, session)
  | a :: rest =>
      '(rc, session') ← ssh_userauth_kbdint_setanswer session i (Some a);
      if (rc <? 0)%Z then Done (rc, session')
      else answer_in_order (N.succ i) rest session'
  end.

(** ** The requests on the wire *)

(** The user name a request carries: the argument, else the one of the
    session, up to its first zero byte. *)
Definition request_user (user : option cstring) (s : ssh_session_struct)
    : bytes :=
  c_view (match user with Some u => u | None => username s end).

(** ** The scratch as an invariant of the session *)

(** The session has no scratch, or one whose counts fit its arrays. *)
Definition scratch_ok (s : ssh_session_struct) : Prop :=
  forall k, kbdint s = Some k -> kbdint_wf k.

(** A call that either returns a session with a sound scratch or stops at
    the read of a count that was never written. *)
Definition sound_or_unread_count {A} (m : run A)
    (session_of_result : A -> ssh_session_struct) : Prop :=
  match m with
  | Done a => scratch_ok (session_of_result a)
  | Undefined f => f = UninitializedRead
  end.

(** A [USERAUTH_REQUEST] as it goes to the wire: the message number,
    "string user, string service, string method" with the service
    "ssh-connection", then the fields of the method. *)
Definition userauth_request (user : bytes) (method : string)
    (fields : bytes) : bytes :=
  ascii_of_N SSH2_MSG_USERAUTH_REQUEST
  :: wire_string user ++ wire_string (lit "ssh-connection")
  ++ wire_string (lit method) ++ fields.

(** The fields of the method "publickey": "bool has_sig, string algo,
    string pubkey". *)
Definition publickey_fields (has_signature : ascii) (key : ssh_key_struct)
    (blob : bytes) : bytes :=
  has_signature :: wire_string (c_view (type_c key)) ++ wire_string blob.

(** What a driver with a marker leaves when its request went out: the one
    packet on the wire, the marker kept exactly while the answer is
    outstanding, and a result that tells the state. *)
Definition request_outcome (marker : ssh_pending_call_e)
    (s : ssh_session_struct) (packet : bytes)
    (rc : Z) (s' : ssh_session_struct) : Prop :=
  wire (link s') = wire (link s) ++ [packet]
  /\ (rc = SSH_AUTH_AGAIN -> pending_call_state s' = marker)
  /\ (rc <> SSH_AUTH_AGAIN ->
      pending_call_state s' = SSH_PENDING_CALL_NONE)
  /\ result_matches_state rc s'
  /\ is_auth_result rc.

(** What a resumed call leaves: nothing new on the wire, no service
    request made, and the marker as [request_outcome] has it. *)
Definition resumed_outcome (marker : ssh_pending_call_e)
    (s : ssh_session_struct) (rc : Z) (s' : ssh_session_struct) : Prop :=
  wire (link s') = wire (link s)
  /\ service_script (link s') = service_script (link s)
  /\ send_script (link s') = send_script (link s)
  /\ (rc = SSH_AUTH_AGAIN -> pending_call_state s' = marker)
  /\ (rc <> SSH_AUTH_AGAIN ->
      pending_call_state s' = SSH_PENDING_CALL_NONE)
  /\ result_matches_state rc s'
  /\ is_auth_result rc.

(** Where a wait starts after a request went out: the state is NONE, and
    what the request path does not touch is as in [s]. *)
Definition wait_start (marker : ssh_pending_call_e)
    (s w : ssh_session_struct) : Prop :=
  auth_state w = SSH_AUTH_STATE_NONE
  /\ pending_call_state w = marker
  /\ inbox (link w) = inbox (link s)
  /\ session_state w = session_state s
  /\ kbdint w = kbdint s
  /\ auth_methods w = auth_methods s
  /\ freed w = freed s.

(** A call that failed at the label [fail:], before anything reached the
    wire: ERROR, the error of [ssh_set_error_oom], the wire as before, the
    outgoing buffer emptied, no marker. *)
Definition failed_before_send (s : ssh_session_struct)
    (m : run (Z * ssh_session_struct)) : Prop :=
  exists s', m = Done (SSH_AUTH_ERROR, s')
    /\ wire (link s') = wire (link s)
    /\ out_buffer s' = []
    /\ pending_call_state s' = SSH_PENDING_CALL_NONE
    /\ error s' = error (ssh_set_error_oom s).

(** The methods [strstr] finds in a list, as flags. *)
Definition methods_found (methods : cstring) : Z :=
  let found (name : string) :=
    bool_decide (is_Some (strstr methods (lit name))) in
  Z.lor
    (Z.lor
       (Z.lor
          (Z.lor 0 (flag_if (found "password"%string)
                      SSH_AUTH_METHOD_PASSWORD))
          (flag_if (found "keyboard-interactive"%string)
             SSH_AUTH_METHOD_INTERACTIVE))
       (flag_if (found "publickey"%string) SSH_AUTH_METHOD_PUBLICKEY))
    (flag_if (found "hostbased"%string) SSH_AUTH_METHOD_HOSTBASED).

(** ** The cascade *)

(** Neither the public nor the private file of the identity is there. *)
Definition identity_missing (w : collaborators) (passphrase : option cstring)
    (privkey_file : cstring) : Prop :=
  ssh_pki_import_pubkey_file w (pubkey_file_of privkey_file) = PkiEof
  /\ ssh_pki_import_privkey_file w privkey_file passphrase = PkiEof.

(** The three results of the cascades. *)
Definition is_cascade_result (rc : Z) : Prop :=
  rc = SSH_AUTH_ERROR \/ rc = SSH_AUTH_SUCCESS \/ rc = SSH_AUTH_DENIED.

(** A call that stopped at the service request: the result given, nothing
    sent, nothing appended to the outgoing buffer, the state and the marker
    as they were. *)
Definition stopped_at_service (rc : Z) (s : ssh_session_struct)
    (m : run (Z * ssh_session_struct)) : Prop :=
  exists s', m = Done (rc, s')
    /\ wire (link s') = wire (link s)
    /\ out_buffer s' = out_buffer s
    /\ auth_state s' = auth_state s
    /\ pending_call_state s' = pending_call_state s
    /\ service_script (link s') = tail (service_script (link s)).

(** While a driver still waits, the session holds no scratch: a scratch
    is there only once the wait has ended. *)
Definition scratch_only_when_ended (s : ssh_session_struct) : Prop :=
  kbdint s = None \/ ssh_auth_response_termination s = true.

(** The session when the wait starts, for a request built in a session
    whose transport serves and accepts everything. *)
Definition request_sent (marker : ssh_pending_call_e) (packet : bytes)
    (s : ssh_session_struct) : ssh_session_struct :=
  set_out_buffer []
    (set_link {| service_script := []; send_script := [];
                 inbox := inbox (link s);
                 wire := wire (link s) ++ [packet] |}
       (set_pending_call_state marker
          (set_auth_state SSH_AUTH_STATE_NONE s))).

(** ** Concrete sessions and packets the properties are tried on *)

#[global] Instance spec_limits : Limits := {| KBDINT_MAX_PROMPT := 32 |}.

Definition idle_link : transport :=
  {| service_script := []; send_script := []; inbox := []; wire := [] |}.

Definition no_world : collaborators :=
  {| agent_is_running := false;
     agent_identities := [];
     ssh_pki_do_sign := fun _ _ => None;
     ssh_pki_do_sign_agent := fun _ _ => None;
     ssh_pki_import_pubkey_file := fun _ => PkiEof;
     ssh_pki_import_privkey_file := fun _ _ => PkiEof;
     ssh_pki_export_privkey_to_pubkey := fun _ => None;
     ssh_pki_export_pubkey_file := fun _ _ => SSH_OK |}.

(** A session after key exchange, user "alice", nothing pending. *)
Definition session_of (l : transport) (w : collaborators)
    : ssh_session_struct :=
  {| auth_state := SSH_AUTH_STATE_NONE;
     pending_call_state := SSH_PENDING_CALL_NONE;
     auth_methods := 0;
     session_state := SSH_SESSION_STATE_AUTHENTICATING;
     current_crypto := None;
     banner := None;
     kbdint := None;
     out_buffer := [];
     username := lit "alice";
     identity := [];
     error := None;
     link := l;
     world := w;
     freed := [] |}.

Definition fresh_session : ssh_session_struct := session_of idle_link no_world.

(** A method list whose only password-like name is not the name
    "password". *)
Definition odd_methods : cstring :=
  lit "gssapi-with-mic,x-password@example.com".

(** The scratch after an [INFO_REQUEST] with the two prompts "Password:"
    (no echo) and "OTP:" (echo), and a session that holds it. *)
Definition two_prompts : ssh_kbdint_struct :=
  {| nprompts := 2;
     nanswers := 2;
     name := Some (lit "PAM");
     instruction := Some (lit "Please authenticate");
     prompts := Some [Some (lit "Password:"); Some (lit "OTP:")];
     echo := Some [Ascii.zero; Ascii.one];
     answers := None |}.

Definition challenged_session : ssh_session_struct :=
  set_kbdint (Some two_prompts)
    (set_auth_state SSH_AUTH_STATE_INFO fresh_session).

(** The session a call leaves behind ([d] when the call is undefined). *)
Definition session_after {A} (r : run (A * ssh_session_struct))
    (d : ssh_session_struct) : ssh_session_struct :=
  match r with
  | Done (_, s) => s
  | Undefined _ => d
  end.

Definition result_of {A B} (r : run (A * B)) : option A :=
  match r with
  | Done (a, _) => Some a
  | Undefined _ => None
  end.

Definition rsa_public : ssh_key_struct :=
  {| type_c := lit "ssh-rsa"; is_public := true; is_private := false;
     pubkey_blob := Some (lit "blob-of-K") |}.

Definition rsa_private : ssh_key_struct :=
  {| type_c := lit "ssh-rsa"; is_public := true; is_private := true;
     pubkey_blob := Some (lit "blob-of-K") |}.

(** A non-blocking session on which the answer to the first request has
    not arrived yet when the driver first waits, and is [USERAUTH_SUCCESS]
    when it comes. *)
Definition slow_server : ssh_session_struct :=
  session_of
    {| service_script := []; send_script := [];
       inbox := [EvWouldBlock; EvPacket SSH2_MSG_USERAUTH_SUCCESS []];
       wire := [] |}
    no_world.

Definition password_pending : ssh_session_struct :=
  session_after (ssh_userauth_password_body slow_server None (lit "hunter2"))
    slow_server.

(** A session whose transport refuses the next packet. *)
Definition broken_pipe : ssh_session_struct :=
  session_of
    {| service_script := []; send_script := [false]; inbox := [];
       wire := [] |}
    {| agent_is_running := false;
       agent_identities := [];
       ssh_pki_do_sign := fun _ _ => Some (lit "signature");
       ssh_pki_do_sign_agent := fun _ _ => Some (lit "signature");
       ssh_pki_import_pubkey_file := fun _ => PkiEof;
       ssh_pki_import_privkey_file := fun _ _ => PkiEof;
       ssh_pki_export_privkey_to_pubkey := fun _ => None;
       ssh_pki_export_pubkey_file := fun _ _ => SSH_OK |}.

Definition with_identity (files : list cstring) (s : ssh_session_struct)
    : ssh_session_struct :=
  {| auth_state := auth_state s;
     pending_call_state := pending_call_state s;
     auth_methods := auth_methods s;
     session_state := session_state s;
     current_crypto := current_crypto s;
     banner := banner s;
     kbdint := kbdint s;
     out_buffer := out_buffer s;
     username := username s;
     identity := files;
     error := error s;
     link := link s;
     world := world s;
     freed := freed s |}.

(** Key files that are all there and readable, and an agent that is
    running and holds [idents]. *)
Definition keys_on_disk (running : bool)
    (idents : list (ssh_key_struct * cstring)) : collaborators :=
  {| agent_is_running := running;
     agent_identities := idents;
     ssh_pki_do_sign := fun _ _ => Some (lit "signature");
     ssh_pki_do_sign_agent := fun _ _ => Some (lit "signature");
     ssh_pki_import_pubkey_file := fun _ => PkiKey rsa_public;
     ssh_pki_import_privkey_file := fun _ _ => PkiKey rsa_private;
     ssh_pki_export_privkey_to_pubkey := fun _ => Some rsa_public;
     ssh_pki_export_pubkey_file := fun _ _ => SSH_OK |}.

(** A server that accepts the first key offered and its signature. *)
Definition accepting_inbox : list event :=
  [ EvPacket SSH2_MSG_USERAUTH_PK_OK [];
    EvPacket SSH2_MSG_USERAUTH_SUCCESS [] ].

(** The agent runs and holds nothing; the identity file "/k/id_rsa" is
    there and the server would accept it. *)
Definition empty_agent : ssh_session_struct :=
  with_identity [lit "/k/id_rsa"]
    (session_of
       {| service_script := []; send_script := []; inbox := accepting_inbox;
          wire := [] |}
       (keys_on_disk true [])).

(** The agent holds one key, which the server refuses; the identity file
    is there and the server would accept it. *)
Definition refused_agent : ssh_session_struct :=
  with_identity [lit "/k/id_rsa"]
    (session_of
       {| service_script := []; send_script := [];
          inbox := EvPacket SSH2_MSG_USERAUTH_FAILURE
                     (failure_payload (lit "publickey") Ascii.zero)
                   :: accepting_inbox;
          wire := [] |}
       (keys_on_disk true [(rsa_public, lit "agent key")])).

(** No agent; the public file of the first identity is there but cannot
    be read as a key, the second identity is in order and the server
    would accept it. *)
Definition unreadable_pub : collaborators :=
  {| agent_is_running := false;
     agent_identities := [];
     ssh_pki_do_sign := fun _ _ => Some (lit "signature");
     ssh_pki_do_sign_agent := fun _ _ => None;
     ssh_pki_import_pubkey_file := fun f =>
       if decide (f = lit "/k/id_dsa.pub") then PkiError
       else PkiKey rsa_public;
     ssh_pki_import_privkey_file := fun _ _ => PkiKey rsa_private;
     ssh_pki_export_privkey_to_pubkey := fun _ => Some rsa_public;
     ssh_pki_export_pubkey_file := fun _ _ => SSH_OK |}.

Definition two_identities : ssh_session_struct :=
  with_identity [lit "/k/id_dsa"; lit "/k/id_rsa"]
    (session_of
       {| service_script := []; send_script := []; inbox := accepting_inbox;
          wire := [] |}
       unreadable_pub).

(** The two prompts of the challenge "PAM". *)
Definition pam_prompts : list (bytes * ascii) :=
  [ (lit "Password:", Ascii.zero); (lit "OTP:", Ascii.one) ].

(** Scratch with the first of two answers set. *)
Definition one_answer : ssh_kbdint_struct :=
  set_answers (Some [Some (lit "p"); None]) two_prompts.

Definition answering_session : ssh_session_struct :=
  set_kbdint (Some one_answer) challenged_session.

(** A session that negotiated "zlib@openssh.com" in both directions, on
    which the server accepts the next request. *)
Definition delayed_zlib : ssh_crypto_struct :=
  {| delayed_compress_in := true; delayed_compress_out := true;
     do_compress_in := false; do_compress_out := false |}.

Definition zlib_session : ssh_session_struct :=
  set_current_crypto (Some delayed_zlib)
    (session_of
       {| service_script := []; send_script := [];
          inbox := [EvPacket SSH2_MSG_USERAUTH_SUCCESS []]; wire := [] |}
       no_world).

(** ** The end-to-end scenarios of the spec, as scripted servers *)

Definition serving (evs : list event) (w : collaborators)
    : ssh_session_struct :=
  session_of
    {| service_script := []; send_script := []; inbox := evs; wire := [] |} w.

Definition request_head (user method : string) : bytes :=
  ascii_of_N SSH2_MSG_USERAUTH_REQUEST
  :: wire_string (lit user) ++ wire_string (lit "ssh-connection")
  ++ wire_string (lit method).

(** 1. A server that only takes passwords. *)
Definition password_only_server : ssh_session_struct :=
  serving
    [EvPacket SSH2_MSG_USERAUTH_FAILURE
       (failure_payload (lit "password") Ascii.zero)]
    no_world.

(** 3. A server that accepts the offer of the key and refuses its
    signature. *)
Definition fickle_server : ssh_session_struct :=
  serving
    [EvPacket SSH2_MSG_USERAUTH_PK_OK [];
     EvPacket SSH2_MSG_USERAUTH_FAILURE
       (failure_payload (lit "publickey,password") Ascii.zero)]
    (keys_on_disk false []).

(** 4. A server that asks for a password and a one-time code. *)
Definition pam_server : ssh_session_struct :=
  serving
    [EvPacket SSH2_MSG_USERAUTH_PK_OK
       (info_request_payload (lit "PAM") (lit "Please authenticate") []
          2 pam_prompts);
     EvPacket SSH2_MSG_USERAUTH_SUCCESS []]
    no_world.

(** 6. No agent, no public file for "/k/id_rsa", a private key that opens
    with the passphrase "pw", a server that accepts the key. *)
Definition encrypted_key_on_disk : collaborators :=
  {| agent_is_running := false;
     agent_identities := [];
     ssh_pki_do_sign := fun _ _ => Some (lit "signature");
     ssh_pki_do_sign_agent := fun _ _ => None;
     ssh_pki_import_pubkey_file := fun _ => PkiEof;
     ssh_pki_import_privkey_file := fun f passphrase =>
       if decide (f = lit "/k/id_rsa") then
         if decide (passphrase = Some (lit "pw")) then PkiKey rsa_private
         else PkiError
       else PkiEof;
     ssh_pki_export_privkey_to_pubkey := fun _ => Some rsa_public;
     ssh_pki_export_pubkey_file := fun _ _ => SSH_OK |}.

Definition cascade_session : ssh_session_struct :=
  with_identity [lit "/k/id_rsa"]
    (serving accepting_inbox encrypted_key_on_disk).

(** The agent holds two keys.  The server refuses the offer of the first,
    accepts the offer of the second and refuses its signature; the
    identity file is there and the server would accept it. *)
Definition spurned_agent : ssh_session_struct :=
  with_identity [lit "/k/id_rsa"]
    (serving
       (EvPacket SSH2_MSG_USERAUTH_FAILURE
          (failure_payload (lit "publickey") Ascii.zero)
        :: EvPacket SSH2_MSG_USERAUTH_PK_OK []
        :: EvPacket SSH2_MSG_USERAUTH_FAILURE
             (failure_payload (lit "publickey") Ascii.zero)
        :: accepting_inbox)
       (keys_on_disk true
          [(rsa_public, lit "first"); (rsa_private, lit "second")])).

(* ================================================================== *)
(** * Part III. Properties                                             *)
(* ================================================================== *)

(** ** The codec *)

Lemma ntohl_htonl (n : N) : (n < 4294967296)%N -> ntohl (htonl n) = n.
Proof.
  intros Hn. unfold htonl, ntohl.
  rewrite !N_ascii_embedding by (apply N.mod_upper_bound; lia).
  zify. Z.to_euclidean_division_equations. lia.
Qed.

Lemma length_htonl (n : N) : length (htonl n) = 4.
Proof. reflexivity. Qed.

Lemma buffer_get_u32_htonl (n : N) (rest : bytes) :
  buffer_get_u32 (htonl n ++ rest) = (Some (htonl n), rest).
Proof. reflexivity. Qed.

Lemma buffer_get_ssh_string_wire (s rest : bytes) :
  (N.of_nat (length s) < 4294967296)%N ->
  buffer_get_ssh_string (wire_string s ++ rest) = (Some s, rest).
Proof.
  intros Hs. unfold wire_string, buffer_add_ssh_string, buffer_get_ssh_string.
  cbn [app]. rewrite <- app_assoc, buffer_get_u32_htonl.
  cbv zeta. rewrite ntohl_htonl by exact Hs.
  rewrite length_app.
  destruct (N.ltb_spec (N.of_nat (length s + length rest))
              (N.of_nat (length s))) as [Hlt|_]; [lia|].
  rewrite Nat2N.id, take_app_length, drop_app_length. reflexivity.
Qed.

(** ** Searching a C string *)

Lemma starts_with_spec (p s : list ascii) :
  starts_with p s = true <-> exists post, s = p ++ post.
Proof.
  revert s. induction p as [|a p IH]; intros s; cbn [starts_with].
  - split; [intros _; exists s; reflexivity | reflexivity].
  - destruct s as [|b s].
    + split; [discriminate | intros [post H]; discriminate].
    + rewrite andb_true_iff, Ascii.eqb_eq, IH. split.
      * intros [-> [post ->]]. exists post. reflexivity.
      * intros [post H]. injection H as -> ->. split; [reflexivity | eauto].
Qed.

Lemma find_from_spec (needle hay : list ascii) :
  is_Some (find_from needle hay) <-> occurs needle hay.
Proof.
  induction hay as [|c hay IH]; cbn [find_from].
  - destruct (starts_with needle []) eqn:E.
    + split; [intros _ | intros _; eauto].
      apply starts_with_spec in E as [post E]. exists [], post. exact E.
    + split; [intros [x Hx]; discriminate |].
      intros (pre & post & H). exfalso.
      destruct pre; [|discriminate].
      assert (starts_with needle [] = true) as E'
        by (apply starts_with_spec; exists post; exact H).
      congruence.
  - destruct (starts_with needle (c :: hay)) eqn:E.
    + split; [intros _ | intros _; eauto].
      apply starts_with_spec in E as [post E]. exists [], post. exact E.
    + rewrite fmap_is_Some, IH. split.
      * intros (pre & post & ->). exists (c :: pre), post. reflexivity.
      * intros (pre & post & H). destruct pre as [|c' pre].
        -- exfalso.
           assert (starts_with needle (c :: hay) = true) as E'
             by (apply starts_with_spec; exists post; exact H).
           congruence.
        -- injection H as -> ->. exists pre, post. reflexivity.
Qed.

Lemma strstr_spec (haystack needle : cstring) :
  is_Some (strstr haystack needle) <-> occurs (c_view needle) (c_view haystack).
Proof. apply find_from_spec. Qed.

Lemma split_at_commas_head (l : list ascii) :
  exists t ts post, split_at_commas l = t :: ts /\ l = t ++ post.
Proof.
  induction l as [|c l (t & ts & post & E & Hl)]; cbn [split_at_commas].
  - exists [], [], []. split; reflexivity.
  - destruct (Ascii.eqb c ",").
    + exists [], (split_at_commas l), (c :: l). split; reflexivity.
    + rewrite E. exists (c :: t), ts, post. split; [reflexivity|].
      cbn [app]. congruence.
Qed.

Lemma occurs_split_at_commas (t l : list ascii) :
  t ∈ split_at_commas l -> occurs t l.
Proof.
  revert t. induction l as [|c l IH]; intros t; cbn [split_at_commas].
  - intros ->%list_elem_of_singleton. exists [], []. reflexivity.
  - destruct (Ascii.eqb c ",").
    + intros [->|Hin]%elem_of_cons.
      * exists [], (c :: l). reflexivity.
      * destruct (IH _ Hin) as (pre & post & ->).
        exists (c :: pre), post. reflexivity.
    + destruct (split_at_commas_head l) as (t0 & ts & post0 & E & Hl).
      rewrite E in IH |- *.
      intros [->|Hin]%elem_of_cons.
      * exists [], post0. cbn [app]. congruence.
      * destruct (IH t) as (pre & post & ->); [right; exact Hin|].
        exists (c :: pre), post. reflexivity.
Qed.

(** ** The failure handler *)

Lemma auth_methods_add_method (m : cstring) (name : string) (flag : Z)
    (s : ssh_session_struct) :
  auth_methods (add_method_if_found m name flag s)
  = Z.lor (auth_methods s)
      (flag_if (bool_decide (is_Some (strstr m (lit name)))) flag).
Proof.
  unfold add_method_if_found.
  destruct (strstr m (lit name)) eqn:E.
  - rewrite bool_decide_eq_true_2 by eauto. reflexivity.
  - rewrite bool_decide_eq_false_2 by (intros [x Hx]; discriminate).
    cbn [flag_if]. rewrite Z.lor_0_r. reflexivity.
Qed.

Lemma auth_state_add_method (m : cstring) (name : string) (flag : Z)
    (s : ssh_session_struct) :
  auth_state (add_method_if_found m name flag s) = auth_state s.
Proof. unfold add_method_if_found. destruct (strstr _ _); reflexivity. Qed.

Lemma failure_on_payload (s : ssh_session_struct) (methods rest : bytes)
    (partial : ascii) :
  (N.of_nat (length methods) < 4294967296)%N ->
  ssh_packet_userauth_failure (failure_payload methods partial ++ rest) s
  = let s1 :=
      if negb (is_nul partial) then set_auth_state SSH_AUTH_STATE_PARTIAL s
      else set_auth_methods 0
             (ssh_set_error SSH_REQUEST_DENIED
                "Access denied. Authentication that can continue: %s"
                (set_auth_state SSH_AUTH_STATE_FAILED s)) in
    add_method_if_found methods "hostbased" SSH_AUTH_METHOD_HOSTBASED
      (add_method_if_found methods "publickey" SSH_AUTH_METHOD_PUBLICKEY
         (add_method_if_found methods "keyboard-interactive"
            SSH_AUTH_METHOD_INTERACTIVE
            (add_method_if_found methods "password"
               SSH_AUTH_METHOD_PASSWORD s1))).
Proof.
  intros Hlen. unfold ssh_packet_userauth_failure, failure_payload.
  rewrite <- app_assoc, buffer_get_ssh_string_wire by exact Hlen.
  reflexivity.
Qed.

Lemma is_nul_spec (a : ascii) : is_nul a = true <-> a = Ascii.zero.
Proof. apply Ascii.eqb_eq. Qed.

(** C4, as amended.  For a [USERAUTH_FAILURE] that carries a method list
    and the partial byte, the handler looks the four recognized names up
    with [strstr]: a flag is set exactly when its name occurs somewhere in
    the list read as a C string, so every recognized token of the
    comma-separated list sets its flag, and no flag outside the four is
    set.  With [partial == 0] the state becomes FAILED and [auth_methods]
    is cleared first, so it ends as exactly those flags; with
    [partial != 0] the state becomes PARTIAL and the flags are added to
    what [auth_methods] held. *)
Theorem failure_sets_methods_found_by_strstr (s : ssh_session_struct)
    (methods rest : bytes) (partial : ascii) :
  (N.of_nat (length methods) < 4294967296)%N ->
  let s' :=
    ssh_packet_userauth_failure (failure_payload methods partial ++ rest) s in
  exists found : Z,
    (forall name flag, (name, flag) ∈ recognized_methods ->
       has_flag flag found <-> occurs (lit name) (c_view methods))
    /\ has_flag found all_method_flags
    /\ has_flag (recognized_subset methods) found
    /\ (partial = Ascii.zero ->
        auth_state s' = SSH_AUTH_STATE_FAILED /\ auth_methods s' = found)
    /\ (partial <> Ascii.zero ->
        auth_state s' = SSH_AUTH_STATE_PARTIAL
        /\ auth_methods s' = Z.lor (auth_methods s) found).
Proof.
  intros Hlen s'. subst s'. rewrite failure_on_payload by exact Hlen.
  cbv zeta.
  set (b1 := bool_decide (is_Some (strstr methods (lit "password")))).
  set (b2 := bool_decide
               (is_Some (strstr methods (lit "keyboard-interactive")))).
  set (b3 := bool_decide (is_Some (strstr methods (lit "publickey")))).
  set (b4 := bool_decide (is_Some (strstr methods (lit "hostbased")))).
  exists (Z.lor
            (Z.lor
               (Z.lor (flag_if b1 SSH_AUTH_METHOD_PASSWORD)
                  (flag_if b2 SSH_AUTH_METHOD_INTERACTIVE))
               (flag_if b3 SSH_AUTH_METHOD_PUBLICKEY))
            (flag_if b4 SSH_AUTH_METHOD_HOSTBASED)).
  assert (Hocc : forall name : string,
             c_view (lit name) = lit name ->
             bool_decide (is_Some (strstr methods (lit name))) = true
             <-> occurs (lit name) (c_view methods)).
  { intros name Hname. rewrite bool_decide_eq_true, strstr_spec, Hname.
    reflexivity. }
  split; [|split; [|split; [|split]]].
  - intros name flag Hin. unfold recognized_methods in Hin.
    repeat (apply elem_of_cons in Hin as [Hin|Hin]);
      [injection Hin as -> ->..|apply elem_of_nil in Hin; contradiction];
      (rewrite <- Hocc by reflexivity); fold b1 b2 b3 b4; unfold has_flag;
      destruct b1, b2, b3, b4; vm_compute; split; congruence.
  - unfold has_flag. destruct b1, b2, b3, b4; reflexivity.
  - unfold recognized_subset.
    set (p1 := bool_decide (lit "password" ∈ name_list methods)).
    set (p2 := bool_decide (lit "keyboard-interactive" ∈ name_list methods)).
    set (p3 := bool_decide (lit "publickey" ∈ name_list methods)).
    set (p4 := bool_decide (lit "hostbased" ∈ name_list methods)).
    assert (Htok : forall name : string,
               c_view (lit name) = lit name ->
               bool_decide (lit name ∈ name_list methods) = true ->
               bool_decide (is_Some (strstr methods (lit name))) = true).
    { intros name Hname Hp. apply Hocc; [exact Hname|].
      apply bool_decide_eq_true in Hp.
      apply occurs_split_at_commas. exact Hp. }
    pose proof (Htok "password"%string eq_refl) as H1.
    pose proof (Htok "keyboard-interactive"%string eq_refl) as H2.
    pose proof (Htok "publickey"%string eq_refl) as H3.
    pose proof (Htok "hostbased"%string eq_refl) as H4.
    fold p1 b1 in H1. fold p2 b2 in H2. fold p3 b3 in H3. fold p4 b4 in H4.
    unfold has_flag.
    destruct b1, p1; try (specialize (H1 eq_refl); discriminate);
    destruct b2, p2; try (specialize (H2 eq_refl); discriminate);
    destruct b3, p3; try (specialize (H3 eq_refl); discriminate);
    destruct b4, p4; try (specialize (H4 eq_refl); discriminate);
    reflexivity.
  - intros ->. cbn [is_nul negb]. 
    rewrite !auth_state_add_method, !auth_methods_add_method.
    fold b1 b2 b3 b4. split; reflexivity.
  - intros Hp.
    assert (is_nul partial = false) as ->.
    { destruct (is_nul partial) eqn:E; [|reflexivity].
      apply is_nul_spec in E. contradiction. }
    cbn [negb].
    rewrite !auth_state_add_method, !auth_methods_add_method.
    fold b1 b2 b3 b4. split; [reflexivity|].
    cbn [auth_methods set_auth_state]. rewrite !Z.lor_assoc. reflexivity.
Qed.

Lemma failure_sets_methods_found_by_strstr_witness :
  let methods := lit "publickey,password" in
  let s' :=
    ssh_packet_userauth_failure (failure_payload methods Ascii.zero ++ [])
      fresh_session in
  (N.of_nat (length methods) < 4294967296)%N
  /\ exists found : Z,
    (forall name flag, (name, flag) ∈ recognized_methods ->
       has_flag flag found <-> occurs (lit name) (c_view methods))
    /\ has_flag found all_method_flags
    /\ has_flag (recognized_subset methods) found
    /\ (Ascii.zero = Ascii.zero ->
        auth_state s' = SSH_AUTH_STATE_FAILED /\ auth_methods s' = found)
    /\ (Ascii.zero <> Ascii.zero ->
        auth_state s' = SSH_AUTH_STATE_PARTIAL
        /\ auth_methods s' = Z.lor (auth_methods fresh_session) found).
Proof.
  assert (Hlen : (N.of_nat (length (lit "publickey,password"))
                  < 4294967296)%N) by (vm_compute; reflexivity).
  split; [exact Hlen|].
  exact (failure_sets_methods_found_by_strstr fresh_session
           (lit "publickey,password") [] Ascii.zero Hlen).
Defined.

(** C4, counterexample.  The list "gssapi-with-mic,x-password@example.com"
    has no token "password", so its recognized subset is empty; the
    handler sets the PASSWORD flag all the same. *)
Lemma failure_sets_flag_of_absent_token :
  let s' :=
    ssh_packet_userauth_failure (failure_payload odd_methods Ascii.zero)
      fresh_session in
  (lit "password" ∉ name_list odd_methods)
  /\ recognized_subset odd_methods = 0%Z
  /\ auth_state s' = SSH_AUTH_STATE_FAILED
  /\ auth_methods s' = SSH_AUTH_METHOD_PASSWORD
  /\ auth_methods s' <> recognized_subset odd_methods.
Proof.
  cbv zeta. split; [|split; [|split; [|split]]].
  - apply (bool_decide_eq_false_1 (lit "password" ∈ name_list odd_methods)).
    vm_compute. reflexivity.
  - vm_compute. reflexivity.
  - vm_compute. reflexivity.
  - vm_compute. reflexivity.
  - vm_compute. discriminate.
Qed.

(** ** Entry points on a null session *)

(** C9.  The five entry points that test [session == NULL] return ERROR
    on a null session and touch nothing; [ssh_userauth_none] and
    [ssh_userauth_password] have no such test and dereference the null
    pointer in their first statement. *)
Theorem null_session_entry_points `{Limits} (user passphrase submethods
    : option cstring) (key : option ssh_key_struct) (password : cstring) :
  ssh_userauth_try_publickey None user key = Done (SSH_AUTH_ERROR, None)
  /\ ssh_userauth_publickey None user key = Done (SSH_AUTH_ERROR, None)
  /\ ssh_userauth_agent None user = Done (SSH_AUTH_ERROR, None)
  /\ ssh_userauth_publickey_auto None user passphrase
     = Done (SSH_AUTH_ERROR, None)
  /\ ssh_userauth_kbdint None user submethods = Done (SSH_AUTH_ERROR, None)
  /\ ssh_userauth_none None user = Undefined NullDereference
  /\ ssh_userauth_password None user password = Undefined NullDereference.
Proof. repeat split. Qed.

(** ** Indices of the scratch *)

Lemma array_load_end {A} (a : list A) :
  array_load (N.of_nat (length a)) a = Undefined OutOfBounds.
Proof. unfold array_load. rewrite N.ltb_irrefl. reflexivity. Qed.

Lemma array_load_lt {A} (i : N) (a : list A) :
  (i < N.of_nat (length a))%N -> exists x, array_load i a = Done x
                                            /\ a !! N.to_nat i = Some x.
Proof.
  intros Hi. unfold array_load.
  destruct (N.ltb_spec i (N.of_nat (length a))) as [_|Hge]; [|lia].
  destruct (lookup_lt_is_Some_2 a (N.to_nat i)) as [x Hx]; [lia|].
  rewrite Hx. eauto.
Qed.

Lemma array_store_lt {A} (i : N) (x : A) (a : list A) :
  (i < N.of_nat (length a))%N ->
  array_store i x a = Done (<[N.to_nat i := x]> a).
Proof.
  intros Hi. unfold array_store.
  destruct (N.ltb_spec i (N.of_nat (length a))) as [_|Hge]; [reflexivity|lia].
Qed.

Lemma length_answer_slots (k : ssh_kbdint_struct) :
  kbdint_wf k -> length (answer_slots k) = N.to_nat (nprompts k).
Proof.
  intros Hwf. unfold answer_slots. destruct (answers k) as [a|] eqn:E.
  - apply (wf_answers k Hwf a E).
  - apply length_replicate.
Qed.

(** C1.  On a live scratch with [nprompts] prompts the bounds test of the
    two accessors is [i > nprompts]: an index beyond [nprompts] is
    rejected and an index below it is served, but the index [nprompts]
    itself passes the test and the accessors go on to [answers[nprompts]],
    [echo[nprompts]] and [prompts[nprompts]], one element past the end of
    arrays of [nprompts] elements, instead of returning the error. *)
Theorem kbdint_index_nprompts_passes_the_bounds_test
    (s : ssh_session_struct) (k : ssh_kbdint_struct) (answer : cstring) :
  kbdint s = Some k ->
  kbdint_wf k ->
  ssh_userauth_kbdint_setanswer (Some s) (nprompts k) (Some answer)
  = Undefined OutOfBounds
  /\ (forall want_echo,
        ssh_userauth_kbdint_getprompt (Some s) (nprompts k) want_echo
        = Undefined OutOfBounds)
  /\ (forall i, (nprompts k < i)%N ->
        ssh_userauth_kbdint_setanswer (Some s) i (Some answer)
        = Done ((-1)%Z,
                Some (ssh_set_error_invalid "ssh_userauth_kbdint_setanswer" s))
        /\ forall want_echo,
             ssh_userauth_kbdint_getprompt (Some s) i want_echo
             = Done (None, None,
                     Some (ssh_set_error_invalid
                             "ssh_userauth_kbdint_getprompt" s)))
  /\ (forall i, (i < nprompts k)%N ->
        exists k',
          ssh_userauth_kbdint_setanswer (Some s) i (Some answer)
          = Done (0%Z,
                  Some (set_kbdint (Some k')
                          (set_freed
                             (freed s
                              ++ match answer_slots k !! N.to_nat i with
                                 | Some (Some old) => [BURN_STRING old]
                                 | _ => []
                                 end) s)))
          /\ answers k' = Some (<[N.to_nat i := Some (c_view answer)]>
                                  (answer_slots k))
          /\ nprompts k' = nprompts k).
Proof.
  intros Hk Hwf.
  pose proof (length_answer_slots k Hwf) as Hslots.
  destruct (wf_prompts k Hwf) as (ps & Hps & Hlps).
  destruct (wf_echo k Hwf) as (es & Hes & Hles).
  assert (Hn : forall {A} (l : list A),
             length l = N.to_nat (nprompts k) ->
             nprompts k = N.of_nat (length l)) by (intros; lia).
  split; [|split; [|split]].
  - unfold ssh_userauth_kbdint_setanswer. rewrite Hk, N.ltb_irrefl.
    fold (answer_slots k).
    rewrite (Hn _ (answer_slots k) Hslots) at 1.
    rewrite array_load_end. reflexivity.
  - intros want_echo. unfold ssh_userauth_kbdint_getprompt.
    rewrite Hk, N.ltb_irrefl, Hps, Hes.
    destruct want_echo.
    + rewrite (Hn _ es Hles) at 1. rewrite array_load_end. reflexivity.
    + cbn [mbind run_bind]. rewrite (Hn _ ps Hlps) at 1.
      rewrite array_load_end. reflexivity.
  - intros i Hi.
    assert ((nprompts k <? i)%N = true) as Hlt by (apply N.ltb_lt; exact Hi).
    split.
    + unfold ssh_userauth_kbdint_setanswer. rewrite Hk, Hlt. reflexivity.
    + intros want_echo. unfold ssh_userauth_kbdint_getprompt.
      rewrite Hk, Hlt. reflexivity.
  - intros i Hi.
    assert ((nprompts k <? i)%N = false) as Hge by (apply N.ltb_ge; lia).
    assert (Hin : (i < N.of_nat (length (answer_slots k)))%N) by lia.
    destruct (array_load_lt i (answer_slots k) Hin) as (old & Hload & Hlook).
    exists (set_answers
              (Some (<[N.to_nat i := Some (strdup answer)]> (answer_slots k)))
              k).
    split; [|split; reflexivity].
    unfold ssh_userauth_kbdint_setanswer. rewrite Hk, Hge.
    fold (answer_slots k). rewrite Hload. cbn [mbind run_bind].
    rewrite array_store_lt by exact Hin. cbn [mbind run_bind].
    rewrite Hlook. destruct old; reflexivity.
Qed.

Lemma two_prompts_wf : kbdint_wf two_prompts.
Proof.
  split.
  - reflexivity.
  - reflexivity.
  - eexists. split; reflexivity.
  - eexists. split; reflexivity.
  - intros a Ha. discriminate.
Qed.

Lemma kbdint_index_nprompts_passes_the_bounds_test_witness :
  kbdint challenged_session = Some two_prompts
  /\ kbdint_wf two_prompts
  /\ ssh_userauth_kbdint_setanswer (Some challenged_session) 2
       (Some (lit "123456"))
     = Undefined OutOfBounds
  /\ ssh_userauth_kbdint_getprompt (Some challenged_session) 2 true
     = Undefined OutOfBounds.
Proof.
  split; [reflexivity|]. split; [exact two_prompts_wf|].
  pose proof (kbdint_index_nprompts_passes_the_bounds_test
                challenged_session two_prompts (lit "123456")
                eq_refl two_prompts_wf) as (H1 & H2 & _).
  split; [exact H1 | exact (H2 true)].
Defined.

(** ** The pending-call marker *)

Lemma service_request_ok (s : ssh_session_struct) :
  next_service s = SvcOk ->
  exists s', ssh_userauth_request_service s = (SSH_OK, s')
    /\ pending_call_state s' = pending_call_state s
    /\ out_buffer s' = out_buffer s
    /\ username s' = username s
    /\ world s' = world s
    /\ send_script (link s') = send_script (link s)
    /\ wire (link s') = wire (link s)
    /\ inbox (link s') = inbox (link s).
Proof.
  unfold next_service, ssh_userauth_request_service, ssh_service_request.
  destruct (service_script (link s)) as [|o rest]; cbn [hd].
  - intros _. exists s. repeat split.
  - intros ->. eexists. split; [reflexivity|]. repeat split.
Qed.

Lemma send_request_refused `{Limits} (marker : ssh_pending_call_e)
    (s : ssh_session_struct) :
  next_send_accepted s = false ->
  exists s', send_request marker s = Done (SSH_AUTH_ERROR, s')
    /\ pending_call_state s' = marker
    /\ wire (link s') = wire (link s).
Proof.
  unfold next_send_accepted, send_request, packet_send.
  destruct s as [? ? ? ? ? ? ? ? ? ? ? [? sends ? ?] ? ?]; cbn.
  destruct sends as [|b rest]; cbn; [discriminate|].
  intros ->. eexists. split; [reflexivity|]. split; reflexivity.
Qed.

(** A return through the label [pending:] with a result other than AGAIN
    has cleared the marker. *)
Lemma at_pending_clears_marker `{Limits} (s s' : ssh_session_struct) (rc : Z) :
  at_pending s = Done (rc, s') ->
  rc <> SSH_AUTH_AGAIN ->
  pending_call_state s' = SSH_PENDING_CALL_NONE.
Proof.
  unfold at_pending. destruct (ssh_userauth_get_response s) as [[rc1 s1]|f];
    cbn [mbind run_bind]; [|discriminate].
  intros [= <- <-] Hrc.
  destruct (Z.eqb_spec rc1 SSH_AUTH_AGAIN) as [->|_]; [contradiction|].
  reflexivity.
Qed.

(** C3.  A driver that has set its marker and whose packet the transport
    then refuses returns ERROR at once, by the [return SSH_AUTH_ERROR]
    that follows [packet_send], and the marker stays set: this holds for
    the none, password, publickey-offer, publickey-sign and agent-sign
    drivers alike, and it is not the re-entrancy error. *)
Theorem refused_send_leaves_the_marker_set `{Limits}
    (s : ssh_session_struct) (user : option cstring) (password : cstring)
    (key : ssh_key_struct) (blob sig : bytes) :
  pending_call_state s = SSH_PENDING_CALL_NONE ->
  next_service s = SvcOk ->
  next_send_accepted s = false ->
  is_public key = true ->
  is_private key = true ->
  pubkey_blob key = Some blob ->
  (forall b, ssh_pki_do_sign (world s) b key = Some sig) ->
  (forall b, ssh_pki_do_sign_agent (world s) b key = Some sig) ->
  (exists s', ssh_userauth_none_body s user = Done (SSH_AUTH_ERROR, s')
     /\ pending_call_state s' = SSH_PENDING_CALL_AUTH_NONE)
  /\ (exists s', ssh_userauth_password_body s user password
                 = Done (SSH_AUTH_ERROR, s')
     /\ pending_call_state s' = SSH_PENDING_CALL_AUTH_OFFER_PUBKEY)
  /\ (exists s', ssh_userauth_try_publickey_body s user (Some key)
                 = Done (SSH_AUTH_ERROR, s')
     /\ pending_call_state s' = SSH_PENDING_CALL_AUTH_OFFER_PUBKEY)
  /\ (exists s', ssh_userauth_publickey_body s user (Some key)
                 = Done (SSH_AUTH_ERROR, s')
     /\ pending_call_state s' = SSH_PENDING_CALL_AUTH_PUBKEY)
  /\ (exists s', ssh_userauth_agent_publickey s user key
                 = Done (SSH_AUTH_ERROR, s')
     /\ pending_call_state s' = SSH_PENDING_CALL_AUTH_AGENT).
Proof.
  intros Hp Hsvc Hsend Hpub Hpriv Hblob Hsign Hagent.
  destruct (service_request_ok s Hsvc)
    as (s1 & Hreq & _ & _ & _ & Hw & Hss & _).
  assert (Hrefuse : forall marker b,
             exists s', send_request marker (set_out_buffer b s1)
                        = Done (SSH_AUTH_ERROR, s')
                        /\ pending_call_state s' = marker).
  { intros marker b.
    destruct (send_request_refused marker (set_out_buffer b s1))
      as (s' & Hs' & Hm & _).
    - unfold next_send_accepted in *. cbn [link set_out_buffer].
      rewrite Hss. exact Hsend.
    - eauto. }
  repeat split.
  - unfold ssh_userauth_none_body. rewrite Hp, Hreq. cbn [Z.eqb SSH_OK].
    apply Hrefuse.
  - unfold ssh_userauth_password_body. rewrite Hp, Hreq. cbn [Z.eqb SSH_OK].
    apply Hrefuse.
  - unfold ssh_userauth_try_publickey_body.
    rewrite Hpub, Hp, Hreq, Hblob. cbn [negb Z.eqb SSH_OK].
    apply Hrefuse.
  - unfold ssh_userauth_publickey_body.
    rewrite Hpriv, Hp, Hreq, Hblob. cbn [negb Z.eqb SSH_OK].
    rewrite Hw, Hsign. apply Hrefuse.
  - unfold ssh_userauth_agent_publickey.
    rewrite Hp, Hreq, Hblob. cbn [Z.eqb SSH_OK].
    rewrite Hw, Hagent. apply Hrefuse.
Qed.

Lemma refused_send_leaves_the_marker_set_witness :
  (pending_call_state broken_pipe = SSH_PENDING_CALL_NONE
   /\ next_service broken_pipe = SvcOk
   /\ next_send_accepted broken_pipe = false)
  /\ (exists s', ssh_userauth_none_body broken_pipe None
                 = Done (SSH_AUTH_ERROR, s')
      /\ pending_call_state s' = SSH_PENDING_CALL_AUTH_NONE)
  /\ (exists s', ssh_userauth_publickey_body broken_pipe None
                   (Some rsa_private)
                 = Done (SSH_AUTH_ERROR, s')
      /\ pending_call_state s' = SSH_PENDING_CALL_AUTH_PUBKEY).
Proof.
  split; [repeat split|].
  pose proof (refused_send_leaves_the_marker_set broken_pipe None
                (lit "hunter2") rsa_private (lit "blob-of-K")
                (lit "signature")
                eq_refl eq_refl eq_refl eq_refl eq_refl eq_refl
                (fun _ => eq_refl) (fun _ => eq_refl))
    as (Hnone & _ & _ & Hsign & _).
  split; [exact Hnone | exact Hsign].
Defined.

(** C2.  The password driver tests and sets the marker of the
    publickey-offer driver.  With that marker set, whichever of the two
    drivers left it, both drivers take their branch to [pending:] and
    wait for the answer of the call in flight: neither raises the
    re-entrancy error for the other. *)
Theorem password_and_offer_share_one_marker `{Limits}
    (s : ssh_session_struct) (user : option cstring) (password : cstring)
    (key : ssh_key_struct) :
  pending_call_state s = SSH_PENDING_CALL_AUTH_OFFER_PUBKEY ->
  is_public key = true ->
  ssh_userauth_try_publickey_body s user (Some key) = at_pending s
  /\ ssh_userauth_password_body s user password = at_pending s.
Proof.
  intros Hp Hpub. split.
  - unfold ssh_userauth_try_publickey_body. rewrite Hpub, Hp. reflexivity.
  - unfold ssh_userauth_password_body. rewrite Hp. reflexivity.
Qed.

(** The scenario of C2: a password call returns AGAIN; the offer driver,
    called next, is not refused: it takes the SUCCESS that answers the
    password and returns it, with no error set and nothing sent. *)
Lemma password_and_offer_share_one_marker_witness :
  result_of (ssh_userauth_password_body slow_server None (lit "hunter2"))
  = Some SSH_AUTH_AGAIN
  /\ pending_call_state password_pending = SSH_PENDING_CALL_AUTH_OFFER_PUBKEY
  /\ is_public rsa_public = true
  /\ ssh_userauth_try_publickey_body password_pending None (Some rsa_public)
     = at_pending password_pending
  /\ exists s',
       ssh_userauth_try_publickey_body password_pending None (Some rsa_public)
       = Done (SSH_AUTH_SUCCESS, s')
       /\ error s' = None
       /\ wire (link s') = wire (link password_pending).
Proof.
  split; [vm_compute; reflexivity|].
  assert (Hp : pending_call_state password_pending
               = SSH_PENDING_CALL_AUTH_OFFER_PUBKEY)
    by (vm_compute; reflexivity).
  split; [exact Hp|]. split; [reflexivity|].
  pose proof (password_and_offer_share_one_marker password_pending None
                (lit "hunter2") rsa_public Hp eq_refl) as [Hoffer _].
  split; [exact Hoffer|].
  eexists. split; [vm_compute; reflexivity|]. split; reflexivity.
Defined.

(** ** Calls outside a keyboard-interactive exchange return *)

Lemma returns_bind {A B} (m : run (A * ssh_session_struct))
    (k : A * ssh_session_struct -> run (B * ssh_session_struct))
    (P : A -> ssh_session_struct -> Prop)
    (Q : B -> ssh_session_struct -> Prop) :
  returns m P ->
  (forall a s, P a s -> returns (k (a, s)) Q) ->
  returns (m ≫= k) Q.
Proof.
  intros (a & s & -> & HP) Hk. cbn [mbind run_bind]. apply Hk, HP.
Qed.

Lemma returns_done {A} (a : A) (s : ssh_session_struct)
    (P : A -> ssh_session_struct -> Prop) :
  P a s -> returns (Done (a, s)) P.
Proof. intros HP. exists a, s. split; [reflexivity | exact HP]. Qed.

Lemma returns_weaken {A} (m : run (A * ssh_session_struct))
    (P Q : A -> ssh_session_struct -> Prop) :
  returns m P -> (forall a s, P a s -> Q a s) -> returns m Q.
Proof. intros (a & s & E & HP) HPQ. exists a, s. eauto. Qed.

Lemma auth_state_failure (packet : bytes) (s : ssh_session_struct) :
  auth_state (ssh_packet_userauth_failure packet s) = SSH_AUTH_STATE_ERROR
  \/ auth_state (ssh_packet_userauth_failure packet s) = SSH_AUTH_STATE_PARTIAL
  \/ auth_state (ssh_packet_userauth_failure packet s) = SSH_AUTH_STATE_FAILED.
Proof.
  unfold ssh_packet_userauth_failure.
  destruct (buffer_get_ssh_string packet) as [[auth|] p1]; [|left; reflexivity].
  destruct (buffer_get_u8 p1) as [[partial|] p2]; [|left; reflexivity].
  rewrite !auth_state_add_method.
  destruct (is_nul partial); cbn; auto.
Qed.

Lemma auth_state_success (packet : bytes) (s : ssh_session_struct) :
  auth_state (ssh_packet_userauth_success packet s) = SSH_AUTH_STATE_SUCCESS.
Proof.
  unfold ssh_packet_userauth_success. cbn.
  destruct (current_crypto s) as [c|] eqn:E; cbn; rewrite ?E;
    [|reflexivity].
  destruct (delayed_compress_out c); cbn; rewrite ?E;
    destruct (delayed_compress_in c); reflexivity.
Qed.

Lemma auth_state_banner (packet : bytes) (s : ssh_session_struct) :
  auth_state (ssh_packet_userauth_banner packet s) = auth_state s.
Proof.
  unfold ssh_packet_userauth_banner.
  destruct (buffer_get_ssh_string packet) as [[b|] ?]; reflexivity.
Qed.

Lemma dispatch_outside_kbdint `{Limits} (type : N) (payload : bytes)
    (s : ssh_session_struct) :
  outside_kbdint s ->
  exists s', ssh_packet_dispatch type payload s = Done s'
             /\ outside_kbdint s'.
Proof.
  intros Hs. unfold ssh_packet_dispatch, outside_kbdint in *.
  repeat match goal with
         | |- context [if ?c then _ else _] => destruct c
         end.
  - eexists. split; [reflexivity|].
    destruct (auth_state_failure payload s) as [E|[E|E]]; rewrite E;
      discriminate.
  - eexists. split; [reflexivity|]. rewrite auth_state_success. discriminate.
  - eexists. split; [reflexivity|]. rewrite auth_state_banner. exact Hs.
  - unfold ssh_packet_userauth_pk_ok.
    destruct (decide (auth_state s = SSH_AUTH_STATE_KBDINT_SENT));
      [contradiction|].
    eexists. split; [reflexivity|]. discriminate.
  - eexists. split; [reflexivity | exact Hs].
Qed.

Lemma handle_packets_outside_kbdint `{Limits}
    (fct : ssh_session_struct -> bool) (evs : list event)
    (s : ssh_session_struct) :
  outside_kbdint s ->
  returns (handle_packets fct evs s) (fun _ s' => outside_kbdint s').
Proof.
  revert s. induction evs as [|e evs IH]; intros s Hs; cbn [handle_packets].
  - destruct (fct s); apply returns_done; exact Hs.
  - destruct (fct s); [apply returns_done; exact Hs|].
    destruct e as [type payload| |]; try (apply returns_done; exact Hs).
    destruct (dispatch_outside_kbdint type payload s Hs) as (s' & -> & Hs').
    cbn [mbind run_bind]. apply IH, Hs'.
Qed.

Lemma get_response_outside_kbdint `{Limits} (s : ssh_session_struct) :
  outside_kbdint s ->
  returns (ssh_userauth_get_response s) (fun _ s' => outside_kbdint s').
Proof.
  intros Hs. unfold ssh_userauth_get_response, ssh_handle_packets_termination.
  eapply returns_bind; [apply handle_packets_outside_kbdint, Hs|].
  intros rc s1 Hs1. cbv beta iota.
  destruct (rc =? SSH_ERROR)%Z; [apply returns_done, Hs1|].
  destruct (negb _); apply returns_done, Hs1.
Qed.

Lemma at_pending_outside_kbdint `{Limits} (s : ssh_session_struct) :
  outside_kbdint s ->
  returns (at_pending s) (fun _ s' => outside_kbdint s').
Proof.
  intros Hs. unfold at_pending.
  eapply returns_bind; [apply get_response_outside_kbdint, Hs|].
  intros rc s1 Hs1. cbv beta iota. apply returns_done.
  destruct (rc =? SSH_AUTH_AGAIN)%Z; exact Hs1.
Qed.

Lemma send_request_returns `{Limits} (marker : ssh_pending_call_e)
    (s : ssh_session_struct) :
  returns (send_request marker s) (fun _ s' => outside_kbdint s').
Proof.
  unfold send_request.
  destruct (packet_send _) as [rc s1] eqn:E.
  assert (Hs1 : outside_kbdint s1).
  { unfold packet_send in E. unfold outside_kbdint.
    destruct (match send_script _ with [] => true | b :: _ => b end);
      injection E as <- <-; cbn; discriminate. }
  destruct (rc =? SSH_ERROR)%Z; [apply returns_done, Hs1|].
  apply at_pending_outside_kbdint, Hs1.
Qed.

Lemma auth_state_request_service (s : ssh_session_struct) :
  auth_state (snd (ssh_userauth_request_service s)) = auth_state s.
Proof.
  unfold ssh_userauth_request_service, ssh_service_request.
  destruct (service_script (link s)); reflexivity.
Qed.

(** Closes a goal [returns d (fun _ s' => outside_kbdint s')] for a driver
    [d] unfolded to its branches. *)
Ltac driver_returns Hs :=
  repeat match goal with
         | |- returns (Done _) _ => apply returns_done; cbn; try exact Hs
         | |- returns (at_pending _) _ =>
             apply at_pending_outside_kbdint; try exact Hs
         | |- returns (send_request _ _) _ => apply send_request_returns
         | |- returns (let '(_, _) := ?p in _) _ =>
             let E := fresh "E" in
             let rc := fresh "rc" in
             let s1 := fresh "s1" in
             destruct p as [rc s1] eqn:E
         | |- returns (if ?c then _ else _) _ => destruct c
         | |- returns (match ?x with _ => _ end) _ => destruct x eqn:?
         | |- outside_kbdint _ => unfold outside_kbdint in *; cbn; try congruence
         end.

Lemma try_publickey_outside_kbdint `{Limits} (s : ssh_session_struct)
    (user : option cstring) (pubkey : option ssh_key_struct) :
  outside_kbdint s ->
  returns (ssh_userauth_try_publickey_body s user pubkey)
    (fun _ s' => outside_kbdint s').
Proof.
  intros Hs. unfold ssh_userauth_try_publickey_body.
  pose proof (auth_state_request_service s) as Hsvc.
  driver_returns Hs; cbn in Hsvc; congruence.
Qed.

Lemma publickey_outside_kbdint `{Limits} (s : ssh_session_struct)
    (user : option cstring) (privkey : option ssh_key_struct) :
  outside_kbdint s ->
  returns (ssh_userauth_publickey_body s user privkey)
    (fun _ s' => outside_kbdint s').
Proof.
  intros Hs. unfold ssh_userauth_publickey_body.
  pose proof (auth_state_request_service s) as Hsvc.
  driver_returns Hs; cbn in Hsvc; congruence.
Qed.

Lemma agent_publickey_outside_kbdint `{Limits} (s : ssh_session_struct)
    (user : option cstring) (pubkey : ssh_key_struct) :
  outside_kbdint s ->
  returns (ssh_userauth_agent_publickey s user pubkey)
    (fun _ s' => outside_kbdint s').
Proof.
  intros Hs. unfold ssh_userauth_agent_publickey.
  pose proof (auth_state_request_service s) as Hsvc.
  driver_returns Hs; cbn in Hsvc; congruence.
Qed.

(** ** The agent driver *)

Lemma agent_identity_returns `{Limits} (s : ssh_session_struct)
    (user : option cstring) (pubkey : ssh_key_struct) :
  outside_kbdint s ->
  returns (agent_identity s user pubkey)
    (fun t s' =>
       outside_kbdint s'
       /\ (t = Continue \/ t = Return SSH_AUTH_ERROR
           \/ t = Return SSH_AUTH_SUCCESS)).
Proof.
  intros Hs. unfold agent_identity.
  eapply returns_bind; [apply try_publickey_outside_kbdint, Hs|].
  intros rc s1 Hs1. cbv beta iota.
  destruct (Z.eqb_spec rc SSH_AUTH_ERROR) as [->|_];
    [apply returns_done; auto|].
  destruct (negb _); [apply returns_done; auto|].
  eapply returns_bind; [apply agent_publickey_outside_kbdint, Hs1|].
  intros rc2 s2 Hs2. cbv beta iota.
  destruct (Z.eqb_spec rc2 SSH_AUTH_ERROR) as [->|_];
    [apply returns_done; auto|].
  destruct (negb _); apply returns_done; auto.
Qed.

Lemma agent_loop_returns `{Limits} (idents : list (ssh_key_struct * cstring))
    (s : ssh_session_struct) (user : option cstring) :
  outside_kbdint s ->
  returns (agent_loop idents s user)
    (fun rc s' =>
       outside_kbdint s'
       /\ (rc = SSH_AUTH_ERROR \/ rc = SSH_AUTH_SUCCESS)).
Proof.
  revert s. induction idents as [|[pubkey comment] rest IH]; intros s Hs;
    cbn [agent_loop].
  - apply returns_done. auto.
  - eapply returns_bind; [apply agent_identity_returns, Hs|].
    intros t s1 [Hs1 Ht]. cbv beta iota.
    destruct Ht as [->|[->| ->]].
    + apply IH, Hs1.
    + apply returns_done. auto.
    + apply returns_done. auto.
Qed.

(** An agent whose identities were all tried in vain: the loop falls
    through to [return SSH_AUTH_ERROR]. *)
Lemma agent_loop_in_vain `{Limits} (user : option cstring)
    (idents : list (ssh_key_struct * cstring)) (s s' : ssh_session_struct) :
  tried_in_vain user idents s s' ->
  agent_loop idents s user = Done (SSH_AUTH_ERROR, s').
Proof.
  induction 1 as [s
                 | key comment rest rc s s1 s' Htry Herr Hok _ IH
                 | key comment rest rc s s1 s2 s' Htry Hsign Herr Hok _ IH].
  - reflexivity.
  - cbn [agent_loop]. unfold agent_identity. rewrite Htry.
    cbn [mbind run_bind].
    destruct (Z.eqb_spec rc SSH_AUTH_ERROR) as [|_]; [contradiction|].
    destruct (Z.eqb_spec rc SSH_AUTH_SUCCESS) as [|_]; [contradiction|].
    cbn [negb]. cbv iota. exact IH.
  - cbn [agent_loop]. unfold agent_identity. rewrite Htry.
    cbn [mbind run_bind].
    change (SSH_AUTH_SUCCESS =? SSH_AUTH_ERROR)%Z with false.
    change (SSH_AUTH_SUCCESS =? SSH_AUTH_SUCCESS)%Z with true.
    cbn [negb]. cbv iota. rewrite Hsign. cbn [mbind run_bind].
    destruct (Z.eqb_spec rc SSH_AUTH_ERROR) as [|_]; [contradiction|].
    destruct (Z.eqb_spec rc SSH_AUTH_SUCCESS) as [|_]; [contradiction|].
    cbn [negb]. cbv iota. exact IH.
Qed.

(** The loop returns SUCCESS only for an identity whose signature the
    server accepted. *)
Lemma agent_loop_success `{Limits} (user : option cstring)
    (idents : list (ssh_key_struct * cstring)) :
  forall s s' : ssh_session_struct,
    agent_loop idents s user = Done (SSH_AUTH_SUCCESS, s') ->
    exists key comment s0 s1,
      In (key, comment) idents
      /\ ssh_userauth_try_publickey_body s0 user (Some key)
         = Done (SSH_AUTH_SUCCESS, s1)
      /\ ssh_userauth_agent_publickey s1 user key
         = Done (SSH_AUTH_SUCCESS, s').
Proof.
  induction idents as [|[key comment] rest IH]; intros s s' Hloop.
  - cbn [agent_loop] in Hloop. discriminate Hloop.
  - assert (Hrest : forall s1, agent_loop rest s1 user
                               = Done (SSH_AUTH_SUCCESS, s') ->
                    exists key' comment' s0 s2,
                      In (key', comment') ((key, comment) :: rest)
                      /\ ssh_userauth_try_publickey_body s0 user (Some key')
                         = Done (SSH_AUTH_SUCCESS, s2)
                      /\ ssh_userauth_agent_publickey s2 user key'
                         = Done (SSH_AUTH_SUCCESS, s')).
    { intros s1 H1.
      destruct (IH s1 s' H1) as (k & c & s0 & s2 & Hin & Ht & Hs).
      exists k, c, s0, s2. split; [right; exact Hin|]. split; assumption. }
    cbn [agent_loop] in Hloop. unfold agent_identity in Hloop.
    destruct (ssh_userauth_try_publickey_body s user (Some key))
      as [[rc s1]|f] eqn:Htry; cbn [mbind run_bind] in Hloop;
      [|discriminate Hloop].
    destruct (Z.eqb_spec rc SSH_AUTH_ERROR) as [->|_].
    { cbn [mbind run_bind] in Hloop. discriminate Hloop. }
    destruct (Z.eqb_spec rc SSH_AUTH_SUCCESS) as [->|_];
      cbn [negb] in Hloop; cbv iota in Hloop.
    2:{ cbn [mbind run_bind] in Hloop. exact (Hrest s1 Hloop). }
    destruct (ssh_userauth_agent_publickey s1 user key)
      as [[rc2 s2]|f] eqn:Hsign; cbn [mbind run_bind] in Hloop;
      [|discriminate Hloop].
    destruct (Z.eqb_spec rc2 SSH_AUTH_ERROR) as [->|_].
    { cbn [mbind run_bind] in Hloop. discriminate Hloop. }
    destruct (Z.eqb_spec rc2 SSH_AUTH_SUCCESS) as [->|_];
      cbn [negb] in Hloop; cbv iota in Hloop.
    2:{ cbn [mbind run_bind] in Hloop. exact (Hrest s2 Hloop). }
    cbn [mbind run_bind] in Hloop. injection Hloop as <-.
    exists key, comment, s, s1. split; [left; reflexivity|].
    split; assumption.
Qed.

(** C10.  With a running agent, [ssh_userauth_agent] ends in ERROR or in
    SUCCESS and never in DENIED.  An agent without identities gives ERROR
    at once.  An agent all of whose identities were tried without a
    SUCCESS and without a fatal error (each offer refused, or accepted and
    the signature refused) falls out of the loop into
    [return SSH_AUTH_ERROR], with the session the last attempt left.
    SUCCESS is returned only for an identity whose offer and signature the
    server both accepted.  In each case [ssh_userauth_publickey_auto]
    returns that very result and session: it stops at the agent step and
    the identity files of the session are never tried. *)
Theorem agent_exhausted_is_error_and_stops_auto `{Limits}
    (s : ssh_session_struct) (user passphrase : option cstring) :
  agent_is_running (world s) = true ->
  outside_kbdint s ->
  (exists rc s',
     ssh_userauth_agent_body s user = Done (rc, s')
     /\ (rc = SSH_AUTH_ERROR \/ rc = SSH_AUTH_SUCCESS)
     /\ rc <> SSH_AUTH_DENIED
     /\ ssh_userauth_publickey_auto_body s user passphrase = Done (rc, s'))
  /\ (agent_identities (world s) = [] ->
      ssh_userauth_agent_body s user = Done (SSH_AUTH_ERROR, s)
      /\ ssh_userauth_publickey_auto_body s user passphrase
         = Done (SSH_AUTH_ERROR, s))
  /\ (forall s',
        tried_in_vain user (agent_identities (world s)) s s' ->
        ssh_userauth_agent_body s user = Done (SSH_AUTH_ERROR, s')
        /\ ssh_userauth_publickey_auto_body s user passphrase
           = Done (SSH_AUTH_ERROR, s'))
  /\ (forall s',
        ssh_userauth_agent_body s user = Done (SSH_AUTH_SUCCESS, s') ->
        exists key comment s0 s1,
          In (key, comment) (agent_identities (world s))
          /\ ssh_userauth_try_publickey_body s0 user (Some key)
             = Done (SSH_AUTH_SUCCESS, s1)
          /\ ssh_userauth_agent_publickey s1 user key
             = Done (SSH_AUTH_SUCCESS, s')).
Proof.
  intros Hrun Hs.
  assert (Hbody : ssh_userauth_agent_body s user
                  = agent_loop (agent_identities (world s)) s user).
  { unfold ssh_userauth_agent_body. rewrite Hrun. reflexivity. }
  assert (Hauto : forall s',
            ssh_userauth_agent_body s user = Done (SSH_AUTH_ERROR, s') ->
            ssh_userauth_publickey_auto_body s user passphrase
            = Done (SSH_AUTH_ERROR, s')).
  { intros s' Hagent. unfold ssh_userauth_publickey_auto_body.
    rewrite Hagent. reflexivity. }
  split; [|split; [|split]].
  - destruct (agent_loop_returns (agent_identities (world s)) s user Hs)
      as (rc & s' & Hloop & _ & Hrc).
    assert (Hagent : ssh_userauth_agent_body s user = Done (rc, s'))
      by (rewrite Hbody; exact Hloop).
    exists rc, s'. split; [exact Hagent|]. split; [exact Hrc|].
    split; [destruct Hrc as [->| ->]; discriminate|].
    unfold ssh_userauth_publickey_auto_body. rewrite Hagent.
    cbn [mbind run_bind]. destruct Hrc as [->| ->]; reflexivity.
  - intros Hnone.
    assert (Hagent : ssh_userauth_agent_body s user
                     = Done (SSH_AUTH_ERROR, s))
      by (rewrite Hbody, Hnone; reflexivity).
    split; [exact Hagent | exact (Hauto s Hagent)].
  - intros s' Hvain.
    assert (Hagent : ssh_userauth_agent_body s user
                     = Done (SSH_AUTH_ERROR, s'))
      by (rewrite Hbody; apply agent_loop_in_vain; exact Hvain).
    split; [exact Hagent | exact (Hauto s' Hagent)].
  - intros s' Hagent. rewrite Hbody in Hagent.
    exact (agent_loop_success user _ s s' Hagent).
Qed.

Lemma agent_exhausted_is_error_and_stops_auto_witness :
  (agent_is_running (world refused_agent) = true
   /\ outside_kbdint refused_agent
   /\ identity refused_agent = [lit "/k/id_rsa"])
  /\ (exists rc s',
        ssh_userauth_agent_body refused_agent None = Done (rc, s')
        /\ (rc = SSH_AUTH_ERROR \/ rc = SSH_AUTH_SUCCESS)
        /\ rc <> SSH_AUTH_DENIED
        /\ ssh_userauth_publickey_auto_body refused_agent None None
           = Done (rc, s'))
  /\ result_of (ssh_userauth_publickey_auto_body refused_agent None None)
     = Some SSH_AUTH_ERROR
  /\ length (wire (link (session_after
                           (ssh_userauth_publickey_auto_body refused_agent
                              None None) refused_agent))) = 1
  /\ (agent_is_running (world spurned_agent) = true
      /\ outside_kbdint spurned_agent
      /\ identity spurned_agent = [lit "/k/id_rsa"])
  /\ (exists s',
        tried_in_vain None (agent_identities (world spurned_agent))
          spurned_agent s'
        /\ ssh_userauth_agent_body spurned_agent None
           = Done (SSH_AUTH_ERROR, s')
        /\ ssh_userauth_publickey_auto_body spurned_agent None None
           = Done (SSH_AUTH_ERROR, s')
        /\ length (wire (link s')) = 3
        /\ inbox (link s') = accepting_inbox).
Proof.
  assert (Hout : outside_kbdint refused_agent)
    by (unfold outside_kbdint; vm_compute; discriminate).
  assert (Hout' : outside_kbdint spurned_agent)
    by (unfold outside_kbdint; vm_compute; discriminate).
  split; [split; [reflexivity | split; [exact Hout | reflexivity]]|].
  split.
  { exact (proj1 (agent_exhausted_is_error_and_stops_auto refused_agent
                    None None eq_refl Hout)). }
  split; [vm_compute; reflexivity|].
  split; [vm_compute; reflexivity|].
  split; [split; [reflexivity | split; [exact Hout' | reflexivity]]|].
  assert (Hvain : tried_in_vain None (agent_identities (world spurned_agent))
                    spurned_agent
                    (session_after
                       (ssh_userauth_agent_body spurned_agent None)
                       spurned_agent)).
  { change (agent_identities (world spurned_agent))
      with [(rsa_public, lit "first"); (rsa_private, lit "second")].
    eapply (offer_refused None rsa_public (lit "first") _ SSH_AUTH_DENIED);
      [vm_compute; reflexivity | discriminate | discriminate |].
    eapply (signature_refused None rsa_private (lit "second") []
              SSH_AUTH_DENIED);
      [vm_compute; reflexivity | vm_compute; reflexivity
      | discriminate | discriminate |].
    vm_compute. apply none_left. }
  destruct (proj1 (proj2 (proj2
              (agent_exhausted_is_error_and_stops_auto spurned_agent
                 None None eq_refl Hout'))) _ Hvain) as [Hagent Hauto].
  eexists. split; [exact Hvain|]. split; [exact Hagent|].
  split; [exact Hauto|]. split; vm_compute; reflexivity.
Defined.

(** ** The automatic public-key driver *)

Lemma auto_loop_step `{Limits} (p : cstring) (rest : list cstring)
    (s : ssh_session_struct) (user passphrase : option cstring)
    (t : turn) (s1 : ssh_session_struct) :
  auto_identity s user passphrase p = Done (t, s1) ->
  auto_loop (p :: rest) s user passphrase
  = match t with
    | Return rc => Done (rc, s1)
    | Continue => auto_loop rest s1 user passphrase
    end.
Proof. intros E. cbn [auto_loop]. rewrite E. reflexivity. Qed.

(** C8, as amended.  In the loop of [ssh_userauth_publickey_auto] over the
    identity files, for the file [p]:
    - an import of [p + ".pub"] that fails otherwise than by EOF sets a
      fatal error and ends the cascade with ERROR;
    - when [p + ".pub"] is missing, a private key [p] that cannot be
      read, or is missing too, passes the turn to the next file, and a
      public key that cannot be derived from it ends the cascade with
      ERROR;
    - the public key, read or derived, is offered: an ERROR of the offer
      ends the cascade, any other refusal passes the turn to the next
      file;
    - after an accepted offer the private key is read if it was not yet,
      and a failure to read it passes the turn; an ERROR or a SUCCESS of
      the signature step is returned, any other result passes the turn;
    and an exhausted list returns DENIED. *)
Theorem auto_identity_file_outcomes `{Limits} (s : ssh_session_struct)
    (user passphrase : option cstring) (p : cstring) (rest : list cstring) :
  let w := world s in
  let pub := ssh_pki_import_pubkey_file w (pubkey_file_of p) in
  let priv := ssh_pki_import_privkey_file w p passphrase in
  let go := fun files s => auto_loop files s user passphrase in
  let offered := fun pubkey (loaded : option ssh_key_struct) =>
    (pub = PkiKey pubkey /\ loaded = None)
    \/ (pub = PkiEof
        /\ exists key, priv = PkiKey key
             /\ ssh_pki_export_privkey_to_pubkey w key = Some pubkey
             /\ loaded = Some key) in
  (pub = PkiError ->
   go (p :: rest) s
   = Done (SSH_AUTH_ERROR,
           ssh_set_error SSH_FATAL "Failed to import public key: %s" s))
  /\ (pub = PkiEof -> priv = PkiError ->
      go (p :: rest) s
      = go rest (ssh_set_error SSH_FATAL "Failed to read private key: %s" s))
  /\ (pub = PkiEof -> priv = PkiEof -> go (p :: rest) s = go rest s)
  /\ (forall key, pub = PkiEof -> priv = PkiKey key ->
        ssh_pki_export_privkey_to_pubkey w key = None ->
        go (p :: rest) s = Done (SSH_AUTH_ERROR, s))
  /\ (forall pubkey loaded rc s1,
        offered pubkey loaded ->
        ssh_userauth_try_publickey_body s user (Some pubkey) = Done (rc, s1) ->
        let reread := ssh_pki_import_privkey_file (world s1) p passphrase in
        (rc = SSH_AUTH_ERROR -> go (p :: rest) s = Done (rc, s1))
        /\ (rc <> SSH_AUTH_ERROR -> rc <> SSH_AUTH_SUCCESS ->
            go (p :: rest) s = go rest s1)
        /\ (rc = SSH_AUTH_SUCCESS -> loaded = None -> reread = PkiError ->
            go (p :: rest) s
            = go rest
                (ssh_set_error SSH_FATAL "Failed to read private key: %s" s1))
        /\ (rc = SSH_AUTH_SUCCESS -> loaded = None -> reread = PkiEof ->
            go (p :: rest) s = go rest s1)
        /\ (forall key rc2 s2,
              rc = SSH_AUTH_SUCCESS ->
              loaded = Some key \/ (loaded = None /\ reread = PkiKey key) ->
              ssh_userauth_publickey_body s1 user (Some key)
              = Done (rc2, s2) ->
              go (p :: rest) s
              = if (rc2 =? SSH_AUTH_ERROR)%Z || (rc2 =? SSH_AUTH_SUCCESS)%Z
                then Done (rc2, s2) else go rest s2))
  /\ go [] s = Done (SSH_AUTH_DENIED, s).
Proof.
  cbv zeta. repeat apply conj.
  - intros Hpub. apply (auto_loop_step p rest s user passphrase
                          (Return SSH_AUTH_ERROR)).
    unfold auto_identity. rewrite Hpub. reflexivity.
  - intros Hpub Hpriv.
    apply (auto_loop_step p rest s user passphrase Continue).
    unfold auto_identity. rewrite Hpub, Hpriv. reflexivity.
  - intros Hpub Hpriv.
    apply (auto_loop_step p rest s user passphrase Continue).
    unfold auto_identity. rewrite Hpub, Hpriv. reflexivity.
  - intros key Hpub Hpriv Hexp.
    apply (auto_loop_step p rest s user passphrase (Return SSH_AUTH_ERROR)).
    unfold auto_identity. rewrite Hpub, Hpriv, Hexp. reflexivity.
  - intros pubkey loaded rc s1 Hoffered Hoffer.
    assert (Hturn : auto_identity s user passphrase p
                    = auto_offer_and_sign s user passphrase p pubkey loaded).
    { unfold auto_identity.
      destruct Hoffered as [[Hpub ->]|(Hpub & key & Hpriv & Hexp & ->)].
      - rewrite Hpub. reflexivity.
      - rewrite Hpub, Hpriv, Hexp. reflexivity. }
    assert (Hstep : forall t s2,
               auto_offer_and_sign s user passphrase p pubkey loaded
               = Done (t, s2) ->
               auto_loop (p :: rest) s user passphrase
               = match t with
                 | Return rc => Done (rc, s2)
                 | Continue => auto_loop rest s2 user passphrase
                 end).
    { intros t s2 E. apply auto_loop_step. rewrite Hturn. exact E. }
    clear Hturn Hoffered. unfold auto_offer_and_sign in Hstep.
    rewrite Hoffer in Hstep. cbn [mbind run_bind] in Hstep.
    repeat apply conj.
    + intros ->. apply (Hstep (Return SSH_AUTH_ERROR) s1). reflexivity.
    + intros Herr Hsucc. apply (Hstep Continue s1).
      destruct (Z.eqb_spec rc SSH_AUTH_ERROR) as [?|_]; [contradiction|].
      destruct (Z.eqb_spec rc SSH_AUTH_SUCCESS) as [?|_]; [contradiction|].
      reflexivity.
    + intros -> -> Hre. apply (Hstep Continue). rewrite Hre. reflexivity.
    + intros -> -> Hre. apply (Hstep Continue). rewrite Hre. reflexivity.
    + intros key rc2 s2 -> Hkey Hsign.
      rewrite (Hstep (if (rc2 =? SSH_AUTH_ERROR)%Z
                         || (rc2 =? SSH_AUTH_SUCCESS)%Z
                      then Return rc2 else Continue) s2).
      * destruct (_ || _); reflexivity.
      * cbn [Z.eqb SSH_AUTH_SUCCESS SSH_AUTH_ERROR negb].
        destruct Hkey as [->|[-> Hre]]; rewrite ?Hre, Hsign;
          cbn [mbind run_bind];
          fold SSH_AUTH_ERROR SSH_AUTH_SUCCESS;
          destruct (rc2 =? SSH_AUTH_ERROR)%Z; try reflexivity;
          destruct (rc2 =? SSH_AUTH_SUCCESS)%Z; reflexivity.
  - reflexivity.
Qed.

Lemma auto_identity_file_outcomes_witness :
  ssh_pki_import_pubkey_file (world two_identities)
    (pubkey_file_of (lit "/k/id_dsa")) = PkiError
  /\ ssh_userauth_publickey_auto_body two_identities None None
     = Done (SSH_AUTH_ERROR,
             ssh_set_error SSH_FATAL "Failed to import public key: %s"
               two_identities).
Proof.
  assert (Hpub : ssh_pki_import_pubkey_file (world two_identities)
                   (pubkey_file_of (lit "/k/id_dsa")) = PkiError)
    by (vm_compute; reflexivity).
  split; [exact Hpub|].
  pose proof (proj1 (auto_identity_file_outcomes two_identities None None
                       (lit "/k/id_dsa") [lit "/k/id_rsa"]) Hpub) as Hgo.
  unfold ssh_userauth_publickey_auto_body.
  change (ssh_userauth_agent_body two_identities None)
    with (Done (SSH_AUTH_DENIED, two_identities)).
  exact Hgo.
Defined.

(** C8, counterexample.  Two identity files, no agent: the public file of
    the first cannot be read as a key, the second is in order and the
    server accepts it.  The cascade does not go on to the second file: it
    returns ERROR with nothing sent, whereas the second file alone leads
    to SUCCESS. *)
Lemma auto_stops_at_unreadable_public_key :
  identity two_identities = [lit "/k/id_dsa"; lit "/k/id_rsa"]
  /\ ssh_pki_import_pubkey_file (world two_identities)
       (pubkey_file_of (lit "/k/id_dsa")) = PkiError
  /\ result_of (ssh_userauth_publickey_auto (Some two_identities) None None)
     = Some SSH_AUTH_ERROR
  /\ wire (link (session_after
                   (ssh_userauth_publickey_auto_body two_identities None None)
                   two_identities)) = []
  /\ result_of (auto_loop [lit "/k/id_rsa"] two_identities None None)
     = Some SSH_AUTH_SUCCESS.
Proof. repeat split; vm_compute; reflexivity. Qed.

(** ** Releasing the scratch *)

Lemma burn_strings_all (a : list (option cstring)) :
  burn_strings (length a) a = Done (omap (fmap BURN_STRING) a).
Proof.
  induction a as [|x a IH]; cbn [burn_strings length]; [reflexivity|].
  rewrite IH. cbn [mbind run_bind]. destruct x; reflexivity.
Qed.

Lemma int_of_uint32_small (n : N) :
  (n < 2147483648)%N -> Z.to_nat (int_of_uint32 n) = N.to_nat n.
Proof.
  intros Hn. unfold int_of_uint32.
  destruct (N.ltb_spec n 2147483648); lia.
Qed.

Lemma burn_array_fit (n : N) (a : option (list (option cstring))) :
  (n < 2147483648)%N ->
  (forall l, a = Some l -> length l = N.to_nat n) ->
  burn_array (int_of_uint32 n) a = Done (burned a).
Proof.
  intros Hn Hfit. destruct a as [l|]; [|reflexivity].
  cbn [burn_array burned]. rewrite int_of_uint32_small by exact Hn.
  rewrite <- (Hfit l eq_refl). apply burn_strings_all.
Qed.

Lemma kbdint_free_wf (k : ssh_kbdint_struct) :
  kbdint_wf k -> ssh_kbdint_free (Some k) = Done (released_blocks k).
Proof.
  intros Hwf. unfold ssh_kbdint_free.
  destruct (wf_prompts k Hwf) as (ps & Hps & Hlps).
  rewrite (burn_array_fit (nprompts k) (prompts k)).
  - rewrite (wf_nanswers k Hwf).
    rewrite (burn_array_fit (nprompts k) (answers k)).
    + reflexivity.
    + apply (wf_int k Hwf).
    + intros l Hl. apply (wf_answers k Hwf l Hl).
  - apply (wf_int k Hwf).
  - intros l Hl. congruence.
Qed.

Lemma kbdint_clean_wf (k : ssh_kbdint_struct) :
  kbdint_wf k ->
  ssh_kbdint_clean k = Done (ssh_kbdint_new, released_blocks k).
Proof.
  intros Hwf. pose proof (kbdint_free_wf k Hwf) as Hfree.
  unfold ssh_kbdint_free in Hfree. unfold ssh_kbdint_clean.
  destruct (burn_array _ (prompts k)) as [ps|f]; [|discriminate].
  cbn [mbind run_bind] in *.
  destruct (burn_array _ (answers k)) as [ans|f]; [|discriminate].
  cbn [mbind run_bind] in *. congruence.
Qed.

(** ** The information request *)

Lemma prompt_fields_cons (p : bytes) (e : ascii) (ps : list (bytes * ascii))
    (rest : bytes) :
  prompt_fields ((p, e) :: ps) ++ rest
  = wire_string p ++ e :: (prompt_fields ps ++ rest).
Proof.
  unfold prompt_fields. cbn [map concat fst snd].
  rewrite <- !app_assoc. reflexivity.
Qed.

Lemma read_prompts_all (s : ssh_session_struct) (rest : bytes)
    (ps : list (bytes * ascii)) :
  forall (i : nat) (k : ssh_kbdint_struct) (pa : list (option cstring))
         (ea : list ascii),
    prompts k = Some pa ->
    echo k = Some ea ->
    length pa = i + length ps ->
    length ea = i + length ps ->
    Forall (fun pe => (N.of_nat (length (fst pe)) < 4294967296)%N) ps ->
    exists k',
      read_prompts (length ps) (N.of_nat i) (prompt_fields ps ++ rest) k s
      = Done (set_auth_state SSH_AUTH_STATE_INFO (set_kbdint (Some k') s))
      /\ prompts k' = Some (take i pa ++ map (fun pe => Some (fst pe)) ps)
      /\ echo k' = Some (take i ea ++ map snd ps)
      /\ nprompts k' = nprompts k /\ nanswers k' = nanswers k
      /\ name k' = name k /\ instruction k' = instruction k
      /\ answers k' = answers k.
Proof.
  induction ps as [|[p e] ps IH]; intros i k pa ea Hpa Hea Hlp Hle Hb.
  - exists k. cbn [read_prompts length map]. rewrite !app_nil_r.
    cbn [length] in Hlp, Hle. rewrite Nat.add_0_r in Hlp, Hle.
    rewrite <- Hlp at 1. rewrite <- Hle at 1. rewrite !firstn_all.
    repeat split; assumption.
  - cbn [length] in *. apply Forall_cons in Hb as [Hp Hb]. cbn [fst] in Hp.
    cbn [read_prompts]. rewrite prompt_fields_cons.
    rewrite buffer_get_ssh_string_wire by exact Hp.
    cbn [buffer_get_u8]. rewrite Hea.
    rewrite array_store_lt by lia. cbn [mbind run_bind].
    cbn [prompts set_echo]. rewrite Hpa.
    rewrite array_store_lt by lia. cbn [mbind run_bind].
    rewrite Nat2N.id.
    replace (N.succ (N.of_nat i)) with (N.of_nat (S i)) by lia.
    destruct (IH (S i)
                (set_prompts (Some (<[i := Some (ssh_string_to_char p)]> pa))
                   (set_echo (Some (<[i := e]> ea)) k))
                (<[i := Some (ssh_string_to_char p)]> pa) (<[i := e]> ea))
      as (k' & Hrun & Hps' & Hes' & Hn & Hna & Hname & Hins & Hans);
      [reflexivity | reflexivity | rewrite length_insert; lia
      | rewrite length_insert; lia | exact Hb |].
    exists k'. split; [exact Hrun|].
    rewrite Hps', Hes'.
    rewrite (take_S_r _ i (Some (ssh_string_to_char p)))
      by (apply list_lookup_insert_eq; lia).
    rewrite (take_S_r _ i e) by (apply list_lookup_insert_eq; lia).
    rewrite !take_insert_ge by lia.
    cbn [map fst snd]. rewrite <- !app_assoc.
    repeat split; assumption.
Qed.

Lemma info_request_header `{Limits} (s : ssh_session_struct)
    (name instruction lang tail : bytes) (n : N) :
  (N.of_nat (length name) < 4294967296)%N ->
  (N.of_nat (length instruction) < 4294967296)%N ->
  (N.of_nat (length lang) < 4294967296)%N ->
  (n < 4294967296)%N ->
  (forall k, kbdint s = Some k -> kbdint_wf k) ->
  let s1 := set_freed (freed s ++ old_blocks s) s in
  let k1 := set_name_instruction name instruction ssh_kbdint_new in
  ssh_packet_userauth_info_request
    (wire_string name ++ wire_string instruction ++ wire_string lang
     ++ htonl n ++ tail) s
  = if (n =? 0)%N || (KBDINT_MAX_PROMPT <? n)%N then
      drop_kbdint k1
        (ssh_set_error SSH_FATAL
           "Wrong number of prompts requested by the server: %u (0x%.4x)" s1)
    else read_prompts (N.to_nat n) 0 tail (with_prompts n k1) s1.
Proof.
  intros Hname Hins Hlang Hn Hwf. cbv zeta.
  unfold ssh_packet_userauth_info_request.
  rewrite !buffer_get_ssh_string_wire by assumption.
  rewrite buffer_get_u32_htonl, ntohl_htonl by exact Hn.
  unfold old_blocks.
  destruct (kbdint s) as [k|] eqn:Hk.
  - rewrite (kbdint_clean_wf k (Hwf k eq_refl)). reflexivity.
  - reflexivity.
Qed.

(** C7.  For an [INFO_REQUEST] with a well-formed head (name, instruction,
    language tag, prompt count [n]), received by a session whose scratch,
    if it has one, is well formed:
    - when [n == 0] or [n > KBDINT_MAX_PROMPT] the handler sets a fatal
      error, releases the scratch, leaves [session->kbdint] null and does
      not touch [auth_state];
    - when [1 <= n <= KBDINT_MAX_PROMPT] and [n] well-formed prompts
      follow, it stores the [n] prompts and the [n] echo flags in index
      order in a scratch with [nprompts = nanswers = n] and no answers,
      and sets [auth_state] to INFO. *)
Theorem info_request_checks_the_prompt_count `{Limits}
    (s : ssh_session_struct) (name instruction lang rest : bytes) (n : N)
    (ps : list (bytes * ascii)) :
  (N.of_nat (length name) < 4294967296)%N ->
  (N.of_nat (length instruction) < 4294967296)%N ->
  (N.of_nat (length lang) < 4294967296)%N ->
  (n < 4294967296)%N ->
  (forall k, kbdint s = Some k -> kbdint_wf k) ->
  let packet := info_request_payload name instruction lang n ps ++ rest in
  (n = 0%N \/ (KBDINT_MAX_PROMPT < n)%N ->
   exists s',
     ssh_packet_userauth_info_request packet s = Done s'
     /\ error s'
        = Some (SSH_FATAL,
                "Wrong number of prompts requested by the server: %u (0x%.4x)"%string)
     /\ kbdint s' = None
     /\ freed s' = freed s ++ old_blocks s ++ [name; instruction]
     /\ auth_state s' = auth_state s)
  /\ ((1 <= n)%N -> (n <= KBDINT_MAX_PROMPT)%N ->
      N.of_nat (length ps) = n ->
      Forall (fun pe => (N.of_nat (length (fst pe)) < 4294967296)%N) ps ->
      exists s',
        ssh_packet_userauth_info_request packet s = Done s'
        /\ auth_state s' = SSH_AUTH_STATE_INFO
        /\ kbdint s'
           = Some {| nprompts := n; nanswers := n;
                     name := Some name; instruction := Some instruction;
                     prompts := Some (map (fun pe => Some (fst pe)) ps);
                     echo := Some (map snd ps);
                     answers := None |}
        /\ error s' = error s).
Proof.
  intros Hname Hins Hlang Hn Hwf packet. subst packet.
  unfold info_request_payload. rewrite <- !app_assoc.
  rewrite info_request_header by assumption. cbv zeta. split.
  - intros Hbad.
    assert ((n =? 0)%N || (KBDINT_MAX_PROMPT <? n)%N = true) as ->.
    { apply orb_true_iff. destruct Hbad as [->|Hbig].
      - left. reflexivity.
      - right. apply N.ltb_lt. exact Hbig. }
    eexists. split; [reflexivity|].
    split; [reflexivity|]. split; [reflexivity|]. split; [|reflexivity].
    cbn. rewrite <- app_assoc. reflexivity.
  - intros Hlo Hhi Hlen Hb.
    assert ((n =? 0)%N || (KBDINT_MAX_PROMPT <? n)%N = false) as ->.
    { apply orb_false_iff. split; [apply N.eqb_neq; lia|apply N.ltb_ge; lia]. }
    assert (Hnat : N.to_nat n = length ps) by lia.
    rewrite Hnat.
    destruct (read_prompts_all
                (set_freed (freed s ++ old_blocks s) s) rest ps 0
                (with_prompts n
                   (set_name_instruction name instruction ssh_kbdint_new))
                (replicate (N.to_nat n) None)
                (replicate (N.to_nat n) Ascii.zero))
      as (k' & Hrun & Hps & Hes & Hnp & Hna & Hnm & Hin & Han);
      [reflexivity | reflexivity
      | rewrite length_replicate; lia | rewrite length_replicate; lia
      | exact Hb |].
    change (N.of_nat 0) with 0%N in Hrun. rewrite Hrun.
    eexists. split; [reflexivity|]. split; [reflexivity|].
    split; [|reflexivity].
    cbn [kbdint set_auth_state set_kbdint]. f_equal.
    destruct k' as [np na nm ins pr ec an]. cbn in *. subst. reflexivity.
Qed.

Lemma info_request_checks_the_prompt_count_witness :
  (exists s',
     ssh_packet_userauth_info_request
       (info_request_payload (lit "PAM") (lit "Please authenticate") []
          2 pam_prompts ++ []) fresh_session = Done s'
     /\ auth_state s' = SSH_AUTH_STATE_INFO
     /\ kbdint s' = Some two_prompts)
  /\ (exists s',
        ssh_packet_userauth_info_request
          (info_request_payload (lit "PAM") (lit "Please authenticate") []
             33 pam_prompts ++ []) fresh_session = Done s'
        /\ kbdint s' = None
        /\ auth_state s' = SSH_AUTH_STATE_NONE).
Proof.
  assert (H1 : (N.of_nat (length (lit "PAM")) < 4294967296)%N)
    by (vm_compute; reflexivity).
  assert (H2 : (N.of_nat (length (lit "Please authenticate"))
                < 4294967296)%N) by (vm_compute; reflexivity).
  assert (H3 : (N.of_nat (length (@nil ascii)) < 4294967296)%N)
    by (vm_compute; reflexivity).
  assert (Hwf : forall k, kbdint fresh_session = Some k -> kbdint_wf k)
    by (intros k Hk; discriminate Hk).
  split.
  - destruct (proj2 (info_request_checks_the_prompt_count fresh_session
                       (lit "PAM") (lit "Please authenticate") [] [] 2
                       pam_prompts H1 H2 H3 ltac:(lia) Hwf))
      as (s' & Hrun & Hstate & Hk & _).
    + lia.
    + vm_compute. discriminate.
    + reflexivity.
    + repeat constructor.
    + exists s'. split; [exact Hrun|]. split; [exact Hstate | exact Hk].
  - destruct (proj1 (info_request_checks_the_prompt_count fresh_session
                       (lit "PAM") (lit "Please authenticate") [] [] 33
                       pam_prompts H1 H2 H3 ltac:(lia) Hwf))
      as (s' & Hrun & _ & Hk & _ & Hstate).
    + right. vm_compute. reflexivity.
    + exists s'. split; [exact Hrun|]. split; [exact Hk | exact Hstate].
Defined.

(** ** Sending the answers *)

Lemma buffer_add_wire_string (b s : bytes) :
  buffer_add_ssh_string b s = b ++ wire_string s.
Proof. reflexivity. Qed.

Lemma add_answers_all (k : ssh_kbdint_struct) :
  (forall a, answers k = Some a -> length a = N.to_nat (nprompts k)) ->
  forall (remaining i : nat) (b : bytes),
    i + remaining = length (answer_slots k) ->
    add_answers remaining (N.of_nat i) k b
    = Done (b ++ concat (map wire_string
                           (map response_of (drop i (answer_slots k))))).
Proof.
  intros Hfit remaining.
  induction remaining as [|r IH]; intros i b Hlen.
  - rewrite drop_ge by lia. cbn [add_answers map concat].
    rewrite app_nil_r. reflexivity.
  - destruct (lookup_lt_is_Some_2 (answer_slots k) i) as [x Hx]; [lia|].
    rewrite (drop_S _ _ _ Hx). cbn [add_answers map concat].
    assert (Hanswer :
              match answers k with
              | None => Done (ssh_string_from_char (lit ""))
              | Some a =>
                  x0 ← array_load (N.of_nat i) a;
                  Done (match x0 with
                        | Some p => ssh_string_from_char p
                        | None => ssh_string_from_char (lit "")
                        end)
              end = Done (response_of x)).
    { unfold answer_slots in Hx, Hlen.
      destruct (answers k) as [a|] eqn:Ha.
      - destruct (array_load_lt (N.of_nat i) a) as (y & Hload & Hy); [lia|].
        rewrite Nat2N.id in Hy. rewrite Hload. cbn [mbind run_bind].
        assert (y = x) as -> by congruence.
        destruct x; reflexivity.
      - apply lookup_replicate in Hx as [-> _]. reflexivity. }
    rewrite Hanswer. cbn [mbind run_bind].
    replace (N.succ (N.of_nat i)) with (N.of_nat (S i)) by lia.
    rewrite IH by lia. rewrite buffer_add_wire_string, <- app_assoc.
    reflexivity.
Qed.

Lemma BURN_STRING_c_string (p : cstring) :
  c_string p -> all_zero (BURN_STRING p).
Proof.
  intros Hp. unfold BURN_STRING, strlen, all_zero. rewrite Hp.
  rewrite drop_all, app_nil_r. apply Forall_replicate. reflexivity.
Qed.

Lemma burned_answers_zero (k : ssh_kbdint_struct) :
  kbdint_wf k -> Forall all_zero (burned (answers k)).
Proof.
  intros Hwf. unfold burned. destruct (answers k) as [a|] eqn:Ha;
    [|constructor].
  destruct (wf_answers k Hwf a Ha) as [_ Hc]. clear Ha.
  induction Hc as [|x a Hx Hc IH]; [constructor|].
  change (omap (fmap BURN_STRING) (x :: a))
    with (match BURN_STRING <$> x with
          | Some y => y :: omap (fmap BURN_STRING) a
          | None => omap (fmap BURN_STRING) a
          end).
  destruct x as [p|]; cbn [fmap option_fmap option_map].
  - constructor; [apply BURN_STRING_c_string, Hx; reflexivity | exact IH].
  - exact IH.
Qed.

(** C6.  On a session whose live scratch [k] is well formed,
    [ssh_userauth_kbdint_send] appends to the outgoing buffer the message
    number 61, the count [nprompts] and one string per answer slot in
    index order, the empty string for a slot never set.  Before the
    packet is handed to the transport the scratch is released, every
    answer overwritten with zero bytes first, and [session->kbdint] is
    null: the call goes on from that state with [packet_send].  If the
    transport refuses the packet the driver returns ERROR with the pointer
    still null; if it accepts it, the packet is on the wire when the wait
    for the answer begins. *)
Theorem kbdint_send_answers_every_prompt `{Limits}
    (s : ssh_session_struct) (k : ssh_kbdint_struct) :
  kbdint s = Some k ->
  kbdint_wf k ->
  let responses := map response_of (answer_slots k) in
  let packet := out_buffer s ++ info_response_packet responses in
  let s1 :=
    set_kbdint None
      (set_freed (freed s ++ released_blocks k)
         (set_auth_state SSH_AUTH_STATE_KBDINT_SENT
            (set_out_buffer packet s))) in
  N.of_nat (length responses) = nprompts k
  /\ ssh_userauth_kbdint_send s
     = (let '(rc, s2) := packet_send s1 in
        if (rc =? SSH_ERROR)%Z then Done (SSH_AUTH_ERROR, s2)
        else ssh_userauth_get_response s2)
  /\ Forall all_zero (burned (answers k))
  /\ (next_send_accepted s = false ->
      exists s2,
        ssh_userauth_kbdint_send s = Done (SSH_AUTH_ERROR, s2)
        /\ kbdint s2 = None
        /\ freed s2 = freed s ++ released_blocks k
        /\ wire (link s2) = wire (link s))
  /\ (next_send_accepted s = true ->
      exists s2,
        ssh_userauth_kbdint_send s = ssh_userauth_get_response s2
        /\ kbdint s2 = None
        /\ auth_state s2 = SSH_AUTH_STATE_KBDINT_SENT
        /\ freed s2 = freed s ++ released_blocks k
        /\ wire (link s2) = wire (link s) ++ [packet]).
Proof.
  intros Hk Hwf responses packet s1.
  pose proof (length_answer_slots k Hwf) as Hslots.
  assert (Hcount : N.of_nat (length responses) = nprompts k).
  { subst responses. rewrite length_map, Hslots. lia. }
  assert (Hrun : ssh_userauth_kbdint_send s
                 = (let '(rc, s2) := packet_send s1 in
                    if (rc =? SSH_ERROR)%Z then Done (SSH_AUTH_ERROR, s2)
                    else ssh_userauth_get_response s2)).
  { unfold ssh_userauth_kbdint_send. rewrite Hk.
    change 0%N with (N.of_nat 0).
    rewrite (add_answers_all k) by
      (first [ intros a Ha; apply (wf_answers k Hwf a Ha) | lia ]).
    cbn [mbind run_bind]. unfold drop_kbdint.
    rewrite (kbdint_free_wf k Hwf). cbn [mbind run_bind].
    subst s1 packet responses. unfold info_response_packet.
    rewrite length_map, Hslots, N2Nat.id. cbn [drop].
    unfold buffer_add_u8, buffer_add_u32.
    rewrite <- !app_assoc. reflexivity. }
  split; [exact Hcount|]. split; [exact Hrun|].
  split; [apply burned_answers_zero, Hwf|].
  split.
  - intros Hsend. rewrite Hrun. clear Hrun.
    unfold next_send_accepted in Hsend. unfold packet_send.
    subst s1. cbn [link set_kbdint set_freed set_auth_state set_out_buffer].
    destruct (send_script (link s)) as [|b rest]; cbn [hd] in Hsend;
      [discriminate|]. subst b.
    eexists. split; [reflexivity|]. repeat split.
  - intros Hsend. rewrite Hrun. clear Hrun.
    unfold next_send_accepted in Hsend. unfold packet_send.
    subst s1. cbn [link set_kbdint set_freed set_auth_state set_out_buffer].
    assert (match send_script (link s) with
            | [] => true
            | b :: _ => b
            end = true) as ->
      by (destruct (send_script (link s)); exact Hsend).
    eexists. split; [reflexivity|]. repeat split.
Qed.

Lemma one_answer_wf : kbdint_wf one_answer.
Proof.
  split.
  - reflexivity.
  - reflexivity.
  - eexists. split; reflexivity.
  - eexists. split; reflexivity.
  - intros a [= <-]. split; [reflexivity|].
    repeat constructor; intros p [= <-]; reflexivity.
Qed.

Lemma kbdint_send_answers_every_prompt_witness :
  kbdint answering_session = Some one_answer
  /\ kbdint_wf one_answer
  /\ next_send_accepted answering_session = true
  /\ exists s2,
       ssh_userauth_kbdint_send answering_session
       = ssh_userauth_get_response s2
       /\ kbdint s2 = None
       /\ wire (link s2) = [info_response_packet [lit "p"; []]]
       /\ Forall all_zero (burned (answers one_answer)).
Proof.
  split; [reflexivity|]. split; [exact one_answer_wf|].
  split; [reflexivity|].
  pose proof (kbdint_send_answers_every_prompt answering_session one_answer
                eq_refl one_answer_wf) as (_ & _ & Hzero & _ & Hsent).
  destruct (Hsent eq_refl) as (s2 & Hrun & Hk & _ & _ & Hwire).
  exists s2. split; [exact Hrun|]. split; [exact Hk|].
  split; [exact Hwire | exact Hzero].
Defined.

(** ** Compression *)

Lemma success_enables_delayed (packet : bytes) (s : ssh_session_struct) :
  current_crypto (ssh_packet_userauth_success packet s)
  = enable_delayed <$> current_crypto s.
Proof.
  unfold ssh_packet_userauth_success.
  destruct s as [st pd am ss cc bn kb ob un idn er lk wd fr]; cbn.
  destruct cc as [[di do ci co]|]; cbn; [|reflexivity].
  destruct do, di, ci, co; reflexivity.
Qed.

Lemma crypto_add_method (m : cstring) (name : string) (flag : Z)
    (s : ssh_session_struct) :
  current_crypto (add_method_if_found m name flag s) = current_crypto s.
Proof. unfold add_method_if_found. destruct (strstr _ _); reflexivity. Qed.

Lemma crypto_failure (packet : bytes) (s : ssh_session_struct) :
  current_crypto (ssh_packet_userauth_failure packet s) = current_crypto s.
Proof.
  unfold ssh_packet_userauth_failure.
  destruct (buffer_get_ssh_string packet) as [[auth|] p1]; [|reflexivity].
  destruct (buffer_get_u8 p1) as [[partial|] p2]; [|reflexivity].
  rewrite !crypto_add_method. destruct (is_nul partial); reflexivity.
Qed.

Lemma crypto_banner (packet : bytes) (s : ssh_session_struct) :
  current_crypto (ssh_packet_userauth_banner packet s) = current_crypto s.
Proof.
  unfold ssh_packet_userauth_banner.
  destruct (buffer_get_ssh_string packet) as [[b|] ?]; reflexivity.
Qed.

Lemma crypto_drop_kbdint (k : ssh_kbdint_struct) (s s' : ssh_session_struct) :
  drop_kbdint k s = Done s' -> current_crypto s' = current_crypto s.
Proof.
  unfold drop_kbdint. destruct (ssh_kbdint_free (Some k)) as [blocks|f];
    cbn [mbind run_bind]; [|discriminate].
  intros [= <-]. reflexivity.
Qed.

Lemma crypto_read_prompts (remaining : nat) :
  forall (i : N) (packet : bytes) (k : ssh_kbdint_struct)
         (s s' : ssh_session_struct),
    read_prompts remaining i packet k s = Done s' ->
    current_crypto s' = current_crypto s.
Proof.
  induction remaining as [|r IH]; intros i packet k s s' Hrun;
    cbn [read_prompts] in Hrun.
  - injection Hrun as <-. reflexivity.
  - destruct (buffer_get_ssh_string packet) as [tmp p1].
    destruct (buffer_get_u8 p1) as [e p2].
    match type of Hrun with
    | mbind _ ?m = _ => destruct m as [k1|f]
    end; cbn [mbind run_bind] in Hrun; [|discriminate].
    destruct tmp as [t|].
    + destruct (prompts k1) as [a|]; [|discriminate].
      destruct (array_store i (Some (ssh_string_to_char t)) a) as [a'|f];
        cbn [mbind run_bind] in Hrun; [|discriminate].
      apply IH in Hrun. exact Hrun.
    + apply crypto_drop_kbdint in Hrun. exact Hrun.
Qed.

Lemma crypto_info_request `{Limits} (packet : bytes)
    (s s' : ssh_session_struct) :
  ssh_packet_userauth_info_request packet s = Done s' ->
  current_crypto s' = current_crypto s.
Proof.
  unfold ssh_packet_userauth_info_request.
  destruct (buffer_get_ssh_string packet) as [name p1].
  destruct (buffer_get_ssh_string p1) as [instruction p2].
  destruct (buffer_get_ssh_string p2) as [tmp p3].
  destruct (buffer_get_u32 p3) as [nprompts_read p4].
  destruct name as [name|]; [|intros [= <-]; reflexivity].
  destruct instruction as [instruction|]; [|intros [= <-]; reflexivity].
  destruct tmp as [tmp|]; [|intros [= <-]; reflexivity].
  match goal with
  | |- mbind _ ?m = _ -> _ => destruct m as [[k blocks]|f]
  end; cbn [mbind run_bind]; [|discriminate].
  destruct nprompts_read as [w|]; [|discriminate].
  destruct (_ || _).
  - intros Hrun. apply crypto_drop_kbdint in Hrun. exact Hrun.
  - intros Hrun. apply crypto_read_prompts in Hrun. exact Hrun.
Qed.

Lemma crypto_pk_ok `{Limits} (packet : bytes) (s s' : ssh_session_struct) :
  ssh_packet_userauth_pk_ok packet s = Done s' ->
  current_crypto s' = current_crypto s.
Proof.
  unfold ssh_packet_userauth_pk_ok.
  destruct (decide _); [apply crypto_info_request|].
  intros [= <-]. reflexivity.
Qed.

Lemma crypto_dispatch `{Limits} (type : N) (payload : bytes)
    (s s' : ssh_session_struct) :
  is_success_packet (EvPacket type payload) = false ->
  ssh_packet_dispatch type payload s = Done s' ->
  current_crypto s' = current_crypto s.
Proof.
  cbn [is_success_packet]. intros Htype. unfold ssh_packet_dispatch.
  rewrite Htype.
  destruct (type =? SSH2_MSG_USERAUTH_FAILURE)%N;
    [intros [= <-]; apply crypto_failure|].
  destruct (type =? SSH2_MSG_USERAUTH_BANNER)%N;
    [intros [= <-]; apply crypto_banner|].
  destruct (type =? SSH2_MSG_USERAUTH_PK_OK)%N; [apply crypto_pk_ok|].
  intros [= <-]. reflexivity.
Qed.

Lemma crypto_handle_packets `{Limits} (fct : ssh_session_struct -> bool)
    (evs : list event) :
  forall (s s' : ssh_session_struct) (rc : Z),
    no_success evs ->
    handle_packets fct evs s = Done (rc, s') ->
    current_crypto s' = current_crypto s /\ quiet s'.
Proof.
  induction evs as [|e evs IH]; intros s s' rc Hevs; cbn [handle_packets].
  - destruct (fct s); intros [= <- <-]; split; try reflexivity; constructor.
  - apply Forall_cons in Hevs as [He Hevs].
    destruct (fct s).
    { intros [= <- <-]. split; [reflexivity|].
      unfold quiet. cbn. constructor; assumption. }
    destruct e as [type payload| |].
    + destruct (ssh_packet_dispatch type payload s) as [s1|f] eqn:Hd;
        cbn [mbind run_bind]; [|discriminate].
      intros Hrun. apply (crypto_dispatch _ _ _ _ He) in Hd.
      destruct (IH _ _ _ Hevs Hrun) as [Hc Hq]. split; [congruence|exact Hq].
    + intros [= <- <-]. split; [reflexivity | exact Hevs].
    + intros [= <- <-]. split; [reflexivity | exact Hevs].
Qed.

Lemma keeps_get_response `{Limits} :
  keeps_compression ssh_userauth_get_response.
Proof.
  intros s rc s' Hq. unfold ssh_userauth_get_response,
    ssh_handle_packets_termination.
  destruct (handle_packets _ _ s) as [[rc1 s1]|f] eqn:Hh;
    cbn [mbind run_bind]; [|discriminate].
  apply (crypto_handle_packets _ _ _ _ _ Hq) in Hh.
  destruct (rc1 =? SSH_ERROR)%Z; [intros [= <- <-]; exact Hh|].
  destruct (negb _); intros [= <- <-]; exact Hh.
Qed.

Lemma keeps_at_pending `{Limits} : keeps_compression at_pending.
Proof.
  intros s rc s' Hq. unfold at_pending.
  destruct (ssh_userauth_get_response s) as [[rc1 s1]|f] eqn:Hr;
    cbn [mbind run_bind]; [|discriminate].
  apply (keeps_get_response _ _ _ Hq) in Hr.
  intros [= <- <-]. destruct (rc1 =? SSH_AUTH_AGAIN)%Z; exact Hr.
Qed.

Lemma calm_request_service (s s1 : ssh_session_struct) (rc : Z) :
  ssh_userauth_request_service s = (rc, s1) ->
  current_crypto s1 = current_crypto s
  /\ inbox (link s1) = inbox (link s).
Proof.
  unfold ssh_userauth_request_service, ssh_service_request.
  destruct (service_script (link s)); intros [= <- <-]; split; reflexivity.
Qed.

Lemma calm_packet_send (s s1 : ssh_session_struct) (rc : Z) :
  packet_send s = (rc, s1) ->
  current_crypto s1 = current_crypto s
  /\ inbox (link s1) = inbox (link s).
Proof.
  unfold packet_send.
  destruct (match send_script (link s) with [] => true | b :: _ => b end);
    intros [= <- <-]; split; reflexivity.
Qed.

Lemma keeps_send_request `{Limits} (marker : ssh_pending_call_e) :
  keeps_compression (send_request marker).
Proof.
  intros s rc s' Hq. unfold send_request.
  destruct (packet_send _) as [rc1 s1] eqn:Hsend.
  apply calm_packet_send in Hsend as [Hc1 Hi1]. cbn in Hc1, Hi1.
  assert (Hq1 : quiet s1) by (unfold quiet in *; rewrite Hi1; exact Hq).
  destruct (rc1 =? SSH_ERROR)%Z.
  - intros [= <- <-]. split; assumption.
  - intros Hrun. apply (keeps_at_pending _ _ _ Hq1) in Hrun as [Hc Hq'].
    split; [congruence | exact Hq'].
Qed.

(** Closes [keeps_compression d] for a driver [d] unfolded to its
    branches, once the service request has been named. *)
Ltac keeps_leaf Hq :=
  unfold at_fail;
  first
    [ intros [= <- <-]; split; [reflexivity | exact Hq]
    | let Hrun := fresh "Hrun" in
      intros Hrun;
      first [ apply keeps_send_request in Hrun
            | apply keeps_at_pending in Hrun ];
      [ exact Hrun | exact Hq ] ].

Ltac keeps_after_service Hq :=
  let rc1 := fresh "rc" in
  let s1 := fresh "s" in
  let Hsvc := fresh "Hsvc" in
  let Hc1 := fresh "Hc" in
  let Hi1 := fresh "Hi" in
  destruct (ssh_userauth_request_service _) as [rc1 s1] eqn:Hsvc;
  apply calm_request_service in Hsvc as [Hc1 Hi1];
  cbv beta iota zeta;
  repeat match goal with
         | |- (if ?c then _ else _) = _ -> _ => destruct c
         | |- match ?x with _ => _ end = _ -> _ => destruct x
         end;
  unfold at_fail;
  first
    [ intros [= <- <-]; split;
      [ cbn; exact Hc1 | unfold quiet in *; cbn; rewrite Hi1; exact Hq ]
    | let Hrun := fresh "Hrun" in
      intros Hrun; apply keeps_send_request in Hrun;
      [ let Hc2 := fresh "Hcrypto" in
        let Hq2 := fresh "Hquiet" in
        destruct Hrun as [Hc2 Hq2]; split;
        [cbn in Hc2; congruence | exact Hq2]
      | unfold quiet in *; cbn; rewrite Hi1; exact Hq ] ].

Lemma keeps_none `{Limits} (user : option cstring) :
  keeps_compression (fun s => ssh_userauth_none_body s user).
Proof.
  intros s rc s' Hq. unfold ssh_userauth_none_body.
  destruct (pending_call_state s); try keeps_leaf Hq.
  keeps_after_service Hq.
Qed.

Lemma keeps_password `{Limits} (user : option cstring) (password : cstring) :
  keeps_compression (fun s => ssh_userauth_password_body s user password).
Proof.
  intros s rc s' Hq. unfold ssh_userauth_password_body.
  destruct (pending_call_state s); try keeps_leaf Hq.
  keeps_after_service Hq.
Qed.

Lemma keeps_try_publickey `{Limits} (user : option cstring)
    (pubkey : option ssh_key_struct) :
  keeps_compression (fun s => ssh_userauth_try_publickey_body s user pubkey).
Proof.
  intros s rc s' Hq. unfold ssh_userauth_try_publickey_body.
  destruct pubkey as [key|]; [|keeps_leaf Hq].
  destruct (negb (is_public key)); [keeps_leaf Hq|].
  destruct (pending_call_state s); try keeps_leaf Hq.
  keeps_after_service Hq.
Qed.

Lemma keeps_publickey `{Limits} (user : option cstring)
    (privkey : option ssh_key_struct) :
  keeps_compression (fun s => ssh_userauth_publickey_body s user privkey).
Proof.
  intros s rc s' Hq. unfold ssh_userauth_publickey_body.
  destruct privkey as [key|]; [|keeps_leaf Hq].
  destruct (negb (is_private key)); [keeps_leaf Hq|].
  destruct (pending_call_state s); try keeps_leaf Hq.
  keeps_after_service Hq.
Qed.

Lemma keeps_agent_publickey `{Limits} (user : option cstring)
    (pubkey : ssh_key_struct) :
  keeps_compression (fun s => ssh_userauth_agent_publickey s user pubkey).
Proof.
  intros s rc s' Hq. unfold ssh_userauth_agent_publickey.
  destruct (pending_call_state s); try keeps_leaf Hq.
  keeps_after_service Hq.
Qed.

Lemma keeps_agent_identity `{Limits} (user : option cstring)
    (pubkey : ssh_key_struct) :
  keeps_compression (fun s => agent_identity s user pubkey).
Proof.
  intros s t s' Hq. unfold agent_identity.
  destruct (ssh_userauth_try_publickey_body s user (Some pubkey))
    as [[rc1 s1]|f] eqn:E1; cbn [mbind run_bind]; [|discriminate].
  apply (keeps_try_publickey user (Some pubkey) _ _ _ Hq) in E1
    as [Hc1 Hq1].
  destruct (rc1 =? SSH_AUTH_ERROR)%Z;
    [intros [= <- <-]; split; assumption|].
  destruct (negb _); [intros [= <- <-]; split; assumption|].
  destruct (ssh_userauth_agent_publickey s1 user pubkey)
    as [[rc2 s2]|f] eqn:E2; cbn [mbind run_bind]; [|discriminate].
  apply (keeps_agent_publickey user pubkey _ _ _ Hq1) in E2 as [Hc2 Hq2].
  destruct (rc2 =? SSH_AUTH_ERROR)%Z;
    [intros [= <- <-]; split; [congruence | assumption]|].
  destruct (negb _); intros [= <- <-]; split; congruence || assumption.
Qed.

Lemma keeps_agent_loop `{Limits} (idents : list (ssh_key_struct * cstring))
    (user : option cstring) :
  keeps_compression (fun s => agent_loop idents s user).
Proof.
  induction idents as [|[pubkey comment] rest IH]; intros s rc s' Hq;
    cbn [agent_loop].
  - intros [= <- <-]. split; [reflexivity | exact Hq].
  - destruct (agent_identity s user pubkey) as [[t s1]|f] eqn:E1;
      cbn [mbind run_bind]; [|discriminate].
    apply (keeps_agent_identity user pubkey _ _ _ Hq) in E1 as [Hc1 Hq1].
    destruct t as [|rc1].
    + intros Hrun. apply (IH _ _ _ Hq1) in Hrun as [Hc2 Hq2].
      split; [congruence | exact Hq2].
    + intros [= <- <-]. split; assumption.
Qed.

Lemma keeps_agent `{Limits} (user : option cstring) :
  keeps_compression (fun s => ssh_userauth_agent_body s user).
Proof.
  intros s rc s' Hq. unfold ssh_userauth_agent_body.
  destruct (negb _).
  - intros [= <- <-]. split; [reflexivity | exact Hq].
  - apply (keeps_agent_loop _ user _ _ _ Hq).
Qed.

Lemma keeps_auto_offer_and_sign `{Limits} (user passphrase : option cstring)
    (privkey_file : cstring) (pubkey : ssh_key_struct)
    (privkey : option ssh_key_struct) :
  keeps_compression
    (fun s => auto_offer_and_sign s user passphrase privkey_file pubkey
                privkey).
Proof.
  intros s t s' Hq. unfold auto_offer_and_sign.
  destruct (ssh_userauth_try_publickey_body s user (Some pubkey))
    as [[rc1 s1]|f] eqn:E1; cbn [mbind run_bind]; [|discriminate].
  apply (keeps_try_publickey user (Some pubkey) _ _ _ Hq) in E1
    as [Hc1 Hq1].
  destruct (rc1 =? SSH_AUTH_ERROR)%Z;
    [intros [= <- <-]; split; assumption|].
  destruct (negb _); [intros [= <- <-]; split; assumption|].
  assert (Hsign : forall key,
             (rc ← ssh_userauth_publickey_body s1 user (Some key);
              (let '(rc, s) := rc in
               if (rc =? SSH_AUTH_ERROR)%Z then Done (Return rc, s)
               else if (rc =? SSH_AUTH_SUCCESS)%Z then Done (Return rc, s)
                    else Done (Continue, s))) = Done (t, s') ->
             current_crypto s' = current_crypto s /\ quiet s').
  { intros key.
    destruct (ssh_userauth_publickey_body s1 user (Some key))
      as [[rc2 s2]|f] eqn:E2; cbn [mbind run_bind]; [|discriminate].
    apply (keeps_publickey user (Some key) _ _ _ Hq1) in E2 as [Hc2 Hq2].
    destruct (rc2 =? SSH_AUTH_ERROR)%Z;
      [intros [= <- <-]; split; [congruence | assumption]|].
    destruct (rc2 =? SSH_AUTH_SUCCESS)%Z;
      intros [= <- <-]; split; congruence || assumption. }
  destruct privkey as [key|]; [apply Hsign|].
  destruct (ssh_pki_import_privkey_file _ _ _) as [key| |].
  - apply Hsign.
  - intros [= <- <-]. split; assumption.
  - intros [= <- <-]. split; assumption.
Qed.

Lemma keeps_auto_identity `{Limits} (user passphrase : option cstring)
    (privkey_file : cstring) :
  keeps_compression
    (fun s => auto_identity s user passphrase privkey_file).
Proof.
  intros s t s' Hq. unfold auto_identity.
  destruct (ssh_pki_import_pubkey_file _ _) as [pubkey| |].
  - apply (keeps_auto_offer_and_sign _ _ _ _ _ _ _ _ Hq).
  - destruct (ssh_pki_import_privkey_file _ _ _) as [privkey| |].
    + destruct (ssh_pki_export_privkey_to_pubkey _ _) as [pubkey|].
      * apply (keeps_auto_offer_and_sign _ _ _ _ _ _ _ _ Hq).
      * intros [= <- <-]. split; [reflexivity | exact Hq].
    + intros [= <- <-]. split; [reflexivity | exact Hq].
    + intros [= <- <-]. split; [reflexivity | exact Hq].
  - intros [= <- <-]. split; [reflexivity | exact Hq].
Qed.

Lemma keeps_auto_loop `{Limits} (files : list cstring)
    (user passphrase : option cstring) :
  keeps_compression (fun s => auto_loop files s user passphrase).
Proof.
  induction files as [|p rest IH]; intros s rc s' Hq; cbn [auto_loop].
  - intros [= <- <-]. split; [reflexivity | exact Hq].
  - destruct (auto_identity s user passphrase p) as [[t s1]|f] eqn:E1;
      cbn [mbind run_bind]; [|discriminate].
    apply (keeps_auto_identity user passphrase p _ _ _ Hq) in E1
      as [Hc1 Hq1].
    destruct t as [|rc1].
    + intros Hrun. apply (IH _ _ _ Hq1) in Hrun as [Hc2 Hq2].
      split; [congruence | exact Hq2].
    + intros [= <- <-]. split; assumption.
Qed.

Lemma keeps_auto `{Limits} (user passphrase : option cstring) :
  keeps_compression
    (fun s => ssh_userauth_publickey_auto_body s user passphrase).
Proof.
  intros s rc s' Hq. unfold ssh_userauth_publickey_auto_body.
  destruct (ssh_userauth_agent_body s user) as [[rc1 s1]|f] eqn:E1;
    cbn [mbind run_bind]; [|discriminate].
  apply (keeps_agent user _ _ _ Hq) in E1 as [Hc1 Hq1].
  destruct (_ || _).
  - intros [= <- <-]. split; assumption.
  - intros Hrun.
    assert (Hloop : current_crypto s' = current_crypto s1 /\ quiet s').
    { revert Hrun. generalize (identity s1). intros files Hrun.
      apply (keeps_auto_loop files user passphrase _ _ _ Hq1 Hrun). }
    destruct Hloop as [Hc2 Hq2]. split; [congruence | exact Hq2].
Qed.

Lemma keeps_kbdint `{Limits} (user submethods : option cstring) :
  keeps_compression (fun s => ssh_userauth_kbdint_body s user submethods).
Proof.
  intros s rc s' Hq. unfold ssh_userauth_kbdint_body.
  destruct (kbdint s) as [k|] eqn:Hk.
  - unfold ssh_userauth_kbdint_send. rewrite Hk.
    destruct (add_answers _ _ _ _) as [b|f]; cbn [mbind run_bind];
      [|discriminate].
    destruct (drop_kbdint _ _) as [s1|f] eqn:Hdrop; cbn [mbind run_bind];
      [|discriminate].
    assert (Hc1 : current_crypto s1 = current_crypto s)
      by (apply crypto_drop_kbdint in Hdrop; exact Hdrop).
    assert (Hi1 : inbox (link s1) = inbox (link s)).
    { unfold drop_kbdint in Hdrop.
      destruct (ssh_kbdint_free _); cbn [mbind run_bind] in Hdrop;
        [|discriminate]. injection Hdrop as <-. reflexivity. }
    destruct (packet_send s1) as [rc2 s2] eqn:Hsend.
    apply calm_packet_send in Hsend as [Hc2 Hi2].
    assert (Hq2 : quiet s2)
      by (unfold quiet in *; rewrite Hi2, Hi1; exact Hq).
    destruct (rc2 =? SSH_ERROR)%Z.
    + intros [= <- <-]. split; [congruence | exact Hq2].
    + intros Hrun. apply (keeps_get_response _ _ _ Hq2) in Hrun as [Hc3 Hq3].
      split; [congruence | exact Hq3].
  - unfold ssh_userauth_kbdint_init.
    destruct (ssh_userauth_request_service s) as [rc1 s1] eqn:Hsvc.
    apply calm_request_service in Hsvc as [Hc1 Hi1].
    assert (Hq1 : quiet s1) by (unfold quiet in *; rewrite Hi1; exact Hq).
    destruct (negb _); [intros [= <- <-]; split; assumption|].
    cbv zeta.
    destruct (packet_send _) as [rc2 s2] eqn:Hsend.
    apply calm_packet_send in Hsend as [Hc2 Hi2]. cbn in Hc2, Hi2.
    assert (Hq2 : quiet s2) by (unfold quiet in *; rewrite Hi2; exact Hq1).
    destruct (rc2 =? SSH_ERROR)%Z.
    + intros [= <- <-]. split; [congruence | exact Hq2].
    + intros Hrun. apply (keeps_get_response _ _ _ Hq2) in Hrun as [Hc3 Hq3].
      split; [congruence | exact Hq3].
Qed.

Lemma session_state_success (packet : bytes) (s : ssh_session_struct) :
  session_state (ssh_packet_userauth_success packet s)
  = SSH_SESSION_STATE_AUTHENTICATED.
Proof.
  unfold ssh_packet_userauth_success.
  destruct s as [st pd am ss cc bn kb ob un idn er lk wd fr]; cbn.
  destruct cc as [[di do ci co]|]; cbn; [|reflexivity].
  destruct do, di; reflexivity.
Qed.

Lemma crypto_setanswer (s s' : ssh_session_struct) (i : N)
    (answer : option cstring) (rc : Z) :
  ssh_userauth_kbdint_setanswer (Some s) i answer = Done (rc, Some s') ->
  current_crypto s' = current_crypto s.
Proof.
  unfold ssh_userauth_kbdint_setanswer.
  destruct answer as [a|]; [|intros [= <- <-]; reflexivity].
  destruct (kbdint s) as [k|]; [|intros [= <- <-]; reflexivity].
  destruct (nprompts k <? i)%N; [intros [= <- <-]; reflexivity|].
  destruct (array_load i _) as [old|f]; cbn [mbind run_bind]; [|discriminate].
  destruct (array_store i _ _) as [arr|f]; cbn [mbind run_bind];
    [|discriminate].
  intros [= <- <-]. reflexivity.
Qed.

(** C5.  The handler of [USERAUTH_SUCCESS] sets [auth_state] to SUCCESS
    and the session state to authenticated, and switches compression on
    for each direction for which the negotiated crypto asked for delayed
    compression, for that direction only, leaving a flag that was set as
    it is.  It is the only place of the module that writes the crypto:
    the other handlers leave it as it is, and so does every driver, from
    the method drivers to the agent and automatic cascades and the
    answer setter, as long as no [USERAUTH_SUCCESS] arrives during the
    call. *)
Theorem success_is_the_one_compression_switch `{Limits} :
  (forall packet s,
     let s' := ssh_packet_userauth_success packet s in
     auth_state s' = SSH_AUTH_STATE_SUCCESS
     /\ session_state s' = SSH_SESSION_STATE_AUTHENTICATED
     /\ current_crypto s' = enable_delayed <$> current_crypto s)
  /\ (forall packet s,
        current_crypto (ssh_packet_userauth_failure packet s)
        = current_crypto s
        /\ current_crypto (ssh_packet_userauth_banner packet s)
           = current_crypto s)
  /\ (forall packet s s',
        ssh_packet_userauth_pk_ok packet s = Done s'
        \/ ssh_packet_userauth_info_request packet s = Done s' ->
        current_crypto s' = current_crypto s)
  /\ (forall user password key,
        keeps_compression (fun s => ssh_userauth_none_body s user)
        /\ keeps_compression
             (fun s => ssh_userauth_password_body s user password)
        /\ keeps_compression
             (fun s => ssh_userauth_try_publickey_body s user key)
        /\ keeps_compression
             (fun s => ssh_userauth_publickey_body s user key))
  /\ (forall user passphrase submethods,
        keeps_compression (fun s => ssh_userauth_agent_body s user)
        /\ keeps_compression
             (fun s => ssh_userauth_publickey_auto_body s user passphrase)
        /\ keeps_compression
             (fun s => ssh_userauth_kbdint_body s user submethods))
  /\ (forall s s' i answer rc,
        ssh_userauth_kbdint_setanswer (Some s) i answer = Done (rc, Some s') ->
        current_crypto s' = current_crypto s).
Proof.
  repeat apply conj.
  - intros packet s. cbv zeta.
    split; [apply auth_state_success|].
    split; [apply session_state_success | apply success_enables_delayed].
  - intros packet s. split; [apply crypto_failure | apply crypto_banner].
  - intros packet s s' [Hrun|Hrun];
      [apply (crypto_pk_ok _ _ _ Hrun) | apply (crypto_info_request _ _ _ Hrun)].
  - intros user password key.
    split; [apply keeps_none|]. split; [apply keeps_password|].
    split; [apply keeps_try_publickey | apply keeps_publickey].
  - intros user passphrase submethods.
    split; [apply keeps_agent|]. split; [apply keeps_auto | apply keeps_kbdint].
  - intros s s' i answer rc. apply crypto_setanswer.
Qed.

(** The password of "alice" is accepted on a session that negotiated
    delayed compression in both directions: both flags are set when the
    driver returns, and the session is authenticated. *)
Lemma success_is_the_one_compression_switch_witness :
  current_crypto (ssh_packet_userauth_success [] zlib_session)
  = enable_delayed <$> current_crypto zlib_session
  /\ exists s',
       ssh_userauth_password_body zlib_session None (lit "hunter2")
       = Done (SSH_AUTH_SUCCESS, s')
       /\ session_state s' = SSH_SESSION_STATE_AUTHENTICATED
       /\ current_crypto s'
          = Some {| delayed_compress_in := true; delayed_compress_out := true;
                    do_compress_in := true; do_compress_out := true |}.
Proof.
  split.
  - exact (proj2 (proj2 (proj1 success_is_the_one_compression_switch
                           [] zlib_session))).
  - eexists. split; [vm_compute; reflexivity|]. split; reflexivity.
Defined.

(** ** What the handlers leave alone *)

Lemma handlers_frame_refl (s : ssh_session_struct) : handlers_frame s s.
Proof. repeat split. Qed.

Lemma handlers_frame_trans (s1 s2 s3 : ssh_session_struct) :
  handlers_frame s1 s2 -> handlers_frame s2 s3 -> handlers_frame s1 s3.
Proof.
  unfold handlers_frame. intros (? & ? & ? & ?) (? & ? & ? & ?).
  repeat split; congruence.
Qed.

Lemma frame_add_method (m : cstring) (name : string) (flag : Z)
    (s : ssh_session_struct) :
  handlers_frame s (add_method_if_found m name flag s).
Proof.
  unfold add_method_if_found. destruct (strstr _ _); repeat split.
Qed.

Lemma frame_failure (packet : bytes) (s : ssh_session_struct) :
  handlers_frame s (ssh_packet_userauth_failure packet s).
Proof.
  unfold ssh_packet_userauth_failure.
  destruct (buffer_get_ssh_string packet) as [[auth|] p1]; [|repeat split].
  destruct (buffer_get_u8 p1) as [[partial|] p2]; [|repeat split].
  repeat (eapply handlers_frame_trans; [|apply frame_add_method]).
  destruct (is_nul partial); repeat split.
Qed.

Lemma frame_success (packet : bytes) (s : ssh_session_struct) :
  handlers_frame s (ssh_packet_userauth_success packet s).
Proof.
  unfold ssh_packet_userauth_success.
  destruct s as [st pd am ss cc bn kb ob un idn er lk wd fr]; cbn.
  destruct cc as [[di do ci co]|]; cbn; [|repeat split].
  destruct do, di; repeat split.
Qed.

Lemma frame_banner (packet : bytes) (s : ssh_session_struct) :
  handlers_frame s (ssh_packet_userauth_banner packet s).
Proof.
  unfold ssh_packet_userauth_banner.
  destruct (buffer_get_ssh_string packet) as [[b|] ?]; repeat split.
Qed.

Lemma frame_drop_kbdint (k : ssh_kbdint_struct) (s s' : ssh_session_struct) :
  drop_kbdint k s = Done s' -> handlers_frame s s'.
Proof.
  unfold drop_kbdint. destruct (ssh_kbdint_free (Some k)) as [blocks|f];
    cbn [mbind run_bind]; [|discriminate].
  intros [= <-]. repeat split.
Qed.

Lemma frame_read_prompts (remaining : nat) :
  forall (i : N) (packet : bytes) (k : ssh_kbdint_struct)
         (s s' : ssh_session_struct),
    read_prompts remaining i packet k s = Done s' -> handlers_frame s s'.
Proof.
  induction remaining as [|r IH]; intros i packet k s s' Hrun;
    cbn [read_prompts] in Hrun.
  - injection Hrun as <-. repeat split.
  - destruct (buffer_get_ssh_string packet) as [tmp p1].
    destruct (buffer_get_u8 p1) as [e p2].
    match type of Hrun with
    | mbind _ ?m = _ => destruct m as [k1|f]
    end; cbn [mbind run_bind] in Hrun; [|discriminate].
    destruct tmp as [t|].
    + destruct (prompts k1) as [a|]; [|discriminate].
      destruct (array_store i (Some (ssh_string_to_char t)) a) as [a'|f];
        cbn [mbind run_bind] in Hrun; [|discriminate].
      apply IH in Hrun. exact Hrun.
    + apply frame_drop_kbdint in Hrun. exact Hrun.
Qed.

Lemma frame_info_request `{Limits} (packet : bytes)
    (s s' : ssh_session_struct) :
  ssh_packet_userauth_info_request packet s = Done s' -> handlers_frame s s'.
Proof.
  unfold ssh_packet_userauth_info_request.
  destruct (buffer_get_ssh_string packet) as [name p1].
  destruct (buffer_get_ssh_string p1) as [instruction p2].
  destruct (buffer_get_ssh_string p2) as [tmp p3].
  destruct (buffer_get_u32 p3) as [nprompts_read p4].
  destruct name as [name|]; [|intros [= <-]; repeat split].
  destruct instruction as [instruction|]; [|intros [= <-]; repeat split].
  destruct tmp as [tmp|]; [|intros [= <-]; repeat split].
  match goal with
  | |- mbind _ ?m = _ -> _ => destruct m as [[k blocks]|f]
  end; cbn [mbind run_bind]; [|discriminate].
  destruct nprompts_read as [w|]; [|discriminate].
  destruct (_ || _).
  - intros Hrun. apply frame_drop_kbdint in Hrun. exact Hrun.
  - intros Hrun. apply frame_read_prompts in Hrun. exact Hrun.
Qed.

Lemma frame_dispatch `{Limits} (type : N) (payload : bytes)
    (s s' : ssh_session_struct) :
  ssh_packet_dispatch type payload s = Done s' -> handlers_frame s s'.
Proof.
  unfold ssh_packet_dispatch.
  destruct (type =? SSH2_MSG_USERAUTH_FAILURE)%N;
    [intros [= <-]; apply frame_failure|].
  destruct (type =? SSH2_MSG_USERAUTH_SUCCESS)%N;
    [intros [= <-]; apply frame_success|].
  destruct (type =? SSH2_MSG_USERAUTH_BANNER)%N;
    [intros [= <-]; apply frame_banner|].
  destruct (type =? SSH2_MSG_USERAUTH_PK_OK)%N.
  - unfold ssh_packet_userauth_pk_ok.
    destruct (decide _); [apply frame_info_request|].
    intros [= <-]. repeat split.
  - intros [= <-]. apply handlers_frame_refl.
Qed.

(** The wait for an answer sends nothing and leaves the marker, the
    outgoing buffer and the scripts of the transport as they are; it
    consumes a part of what was to arrive. *)
Lemma handle_packets_frame `{Limits} (fct : ssh_session_struct -> bool)
    (evs : list event) :
  forall (s s' : ssh_session_struct) (rc : Z),
    handle_packets fct evs s = Done (rc, s') ->
    pending_call_state s' = pending_call_state s
    /\ out_buffer s' = out_buffer s
    /\ wire (link s') = wire (link s)
    /\ send_script (link s') = send_script (link s)
    /\ service_script (link s') = service_script (link s)
    /\ world s' = world s.
Proof.
  induction evs as [|e evs IH]; intros s s' rc; cbn [handle_packets].
  - destruct (fct s); intros [= <- <-]; repeat split.
  - destruct (fct s); [intros [= <- <-]; repeat split|].
    destruct e as [type payload| |]; try (intros [= <- <-]; repeat split).
    destruct (ssh_packet_dispatch type payload s) as [s1|f] eqn:Hd;
      cbn [mbind run_bind]; [|discriminate].
    intros Hrun. apply frame_dispatch in Hd as (Hp & Ho & Hl & Hw).
    apply IH in Hrun as (Hp' & Ho' & Hw' & Hs' & Hv' & Hwd').
    repeat split; congruence.
Qed.

Lemma get_response_frame `{Limits} (s s' : ssh_session_struct) (rc : Z) :
  ssh_userauth_get_response s = Done (rc, s') ->
  pending_call_state s' = pending_call_state s
  /\ out_buffer s' = out_buffer s
  /\ wire (link s') = wire (link s)
  /\ send_script (link s') = send_script (link s)
  /\ service_script (link s') = service_script (link s)
  /\ world s' = world s.
Proof.
  unfold ssh_userauth_get_response, ssh_handle_packets_termination.
  destruct (handle_packets _ _ s) as [[rc1 s1]|f] eqn:Hh;
    cbn [mbind run_bind]; [|discriminate].
  apply handle_packets_frame in Hh.
  destruct (rc1 =? SSH_ERROR)%Z; [intros [= <- <-]; exact Hh|].
  destruct (negb _); intros [= <- <-]; exact Hh.
Qed.

(** A return through [pending:] with AGAIN leaves the marker as it is. *)
Lemma at_pending_again_keeps_marker `{Limits} (s s' : ssh_session_struct) :
  at_pending s = Done (SSH_AUTH_AGAIN, s') ->
  pending_call_state s' = pending_call_state s
  /\ wire (link s') = wire (link s).
Proof.
  unfold at_pending.
  destruct (ssh_userauth_get_response s) as [[rc1 s1]|f] eqn:Hr;
    cbn [mbind run_bind]; [|discriminate].
  apply get_response_frame in Hr as (Hp & _ & Hw & _).
  intros [= -> <-]. cbn. split; assumption.
Qed.

(** The keyboard-interactive driver never reads or writes the marker. *)
Lemma kbdint_keeps_marker `{Limits} (s s' : ssh_session_struct)
    (user submethods : option cstring) (rc : Z) :
  ssh_userauth_kbdint_body s user submethods = Done (rc, s') ->
  pending_call_state s' = pending_call_state s.
Proof.
  unfold ssh_userauth_kbdint_body.
  destruct (kbdint s) as [k|] eqn:Hk.
  - unfold ssh_userauth_kbdint_send. rewrite Hk.
    destruct (add_answers _ _ _ _) as [b|f]; cbn [mbind run_bind];
      [|discriminate].
    destruct (drop_kbdint _ _) as [s1|f] eqn:Hdrop; cbn [mbind run_bind];
      [|discriminate].
    apply frame_drop_kbdint in Hdrop as (Hp1 & _). cbn in Hp1.
    destruct (packet_send s1) as [rc2 s2] eqn:Hsend.
    assert (Hp2 : pending_call_state s2 = pending_call_state s1).
    { unfold packet_send in Hsend.
      destruct (match send_script _ with [] => true | b :: _ => b end);
        injection Hsend as <- <-; reflexivity. }
    destruct (rc2 =? SSH_ERROR)%Z; [intros [= <- <-]; congruence|].
    intros Hrun. apply get_response_frame in Hrun as (Hp3 & _). congruence.
  - unfold ssh_userauth_kbdint_init.
    destruct (ssh_userauth_request_service s) as [rc1 s1] eqn:Hsvc.
    assert (Hp1 : pending_call_state s1 = pending_call_state s).
    { unfold ssh_userauth_request_service, ssh_service_request in Hsvc.
      destruct (service_script (link s)); injection Hsvc as <- <-;
        reflexivity. }
    destruct (negb _); [intros [= <- <-]; exact Hp1|].
    cbv zeta.
    destruct (packet_send _) as [rc2 s2] eqn:Hsend.
    assert (Hp2 : pending_call_state s2 = pending_call_state s1).
    { unfold packet_send in Hsend.
      destruct (match send_script _ with [] => true | b :: _ => b end);
        injection Hsend as <- <-; reflexivity. }
    destruct (rc2 =? SSH_ERROR)%Z; [intros [= <- <-]; congruence|].
    intros Hrun. apply get_response_frame in Hrun as (Hp3 & _). congruence.
Qed.

(** ** Re-entrancy *)

(** A driver called while the call of another driver is pending, and
    whose marker differs from the pending one, sets a fatal error and
    returns ERROR; nothing else of the session changes, so nothing is
    sent and the marker stays. *)
Lemma foreign_marker_is_refused `{Limits} (s : ssh_session_struct)
    (user : option cstring) (password : cstring) (key : ssh_key_struct) :
  pending_call_state s <> SSH_PENDING_CALL_NONE ->
  is_public key = true ->
  is_private key = true ->
  (pending_call_state s <> SSH_PENDING_CALL_AUTH_NONE ->
   ssh_userauth_none_body s user
   = Done (SSH_AUTH_ERROR,
           ssh_set_error SSH_FATAL
             "Bad call during pending SSH call in ssh_userauth_none" s))
  /\ (pending_call_state s <> SSH_PENDING_CALL_AUTH_OFFER_PUBKEY ->
      let refused :=
        Done (SSH_ERROR,
              ssh_set_error SSH_FATAL
                "Bad call during pending SSH call in ssh_userauth_try_pubkey"
                s) in
      ssh_userauth_try_publickey_body s user (Some key) = refused
      /\ ssh_userauth_password_body s user password = refused)
  /\ (pending_call_state s <> SSH_PENDING_CALL_AUTH_PUBKEY ->
      ssh_userauth_publickey_body s user (Some key)
      = Done (SSH_AUTH_ERROR,
              ssh_set_error SSH_FATAL
                "Bad call during pending SSH call in ssh_userauth_try_pubkey"
                s))
  /\ (pending_call_state s <> SSH_PENDING_CALL_AUTH_AGENT ->
      ssh_userauth_agent_publickey s user key
      = Done (SSH_ERROR,
              ssh_set_error SSH_FATAL
                "Bad call during pending SSH call in ssh_userauth_try_pubkey"
                s)).
Proof.
  intros Hnone Hpub Hpriv.
  unfold ssh_userauth_none_body, ssh_userauth_try_publickey_body,
    ssh_userauth_password_body, ssh_userauth_publickey_body,
    ssh_userauth_agent_publickey.
  rewrite Hpub, Hpriv. cbn [negb].
  destruct (pending_call_state s); repeat split; intros; congruence.
Qed.

(** The marker a password call leaves when it has sent its request and
    the answer has not arrived: the one of the publickey-offer driver. *)
Lemma password_again_leaves_offer_marker `{Limits}
    (s s' : ssh_session_struct) (user : option cstring)
    (password : cstring) :
  pending_call_state s = SSH_PENDING_CALL_NONE ->
  next_service s = SvcOk ->
  ssh_userauth_password_body s user password = Done (SSH_AUTH_AGAIN, s') ->
  pending_call_state s' = SSH_PENDING_CALL_AUTH_OFFER_PUBKEY.
Proof.
  intros Hp Hsvc. unfold ssh_userauth_password_body. rewrite Hp.
  destruct (service_request_ok s Hsvc) as (s1 & -> & _).
  cbn [Z.eqb SSH_OK]. unfold send_request.
  destruct (packet_send _) as [rc2 s2] eqn:Hsend.
  assert (Hp2 : pending_call_state s2 = SSH_PENDING_CALL_AUTH_OFFER_PUBKEY).
  { unfold packet_send in Hsend.
    destruct (match send_script _ with [] => true | b :: _ => b end);
      injection Hsend as <- <-; reflexivity. }
  destruct (rc2 =? SSH_ERROR)%Z; [discriminate|].
  intros Hrun. apply at_pending_again_keeps_marker in Hrun as [Hp3 _].
  congruence.
Qed.

(** ** Well-formed scratches are what the code makes *)

Lemma c_view_idem (s : cstring) : c_view (c_view s) = c_view s.
Proof.
  induction s as [|a s IH]; cbn [c_view]; [reflexivity|].
  destruct (is_nul a) eqn:E; [reflexivity|].
  cbn [c_view]. rewrite E, IH. reflexivity.
Qed.

(** The scratch [ssh_packet_userauth_info_request] stores. *)
Lemma stored_scratch_wf (name instruction : bytes) (n : N)
    (ps : list (bytes * ascii)) :
  N.of_nat (length ps) = n ->
  (n < 2147483648)%N ->
  kbdint_wf
    {| nprompts := n; nanswers := n;
       name := Some name; instruction := Some instruction;
       prompts := Some (map (fun pe => Some (fst pe)) ps);
       echo := Some (map snd ps);
       answers := None |}.
Proof.
  intros Hlen Hn. split; cbn.
  - reflexivity.
  - exact Hn.
  - eexists. split; [reflexivity|]. rewrite length_map. lia.
  - eexists. split; [reflexivity|]. rewrite length_map. lia.
  - intros a Ha. discriminate.
Qed.

(** The scratch after [ssh_userauth_kbdint_setanswer] at an index below
    [nprompts]. *)
Lemma answered_scratch_wf (k : ssh_kbdint_struct) (i : N)
    (answer : cstring) :
  kbdint_wf k ->
  (i < nprompts k)%N ->
  kbdint_wf
    (set_answers
       (Some (<[N.to_nat i := Some (strdup answer)]> (answer_slots k))) k).
Proof.
  intros Hwf Hi. split; cbn.
  - apply (wf_nanswers k Hwf).
  - apply (wf_int k Hwf).
  - apply (wf_prompts k Hwf).
  - apply (wf_echo k Hwf).
  - intros a [= <-]. split.
    + rewrite length_insert. apply length_answer_slots, Hwf.
    + apply Forall_insert.
      * unfold answer_slots. destruct (answers k) as [a|] eqn:Ha.
        -- apply (wf_answers k Hwf a Ha).
        -- apply Forall_replicate. intros p Hp. discriminate.
      * intros p [= <-]. apply c_view_idem.
Qed.

(** ** The end-to-end scenarios of the spec, run on the model *)

(** Runs the calls of a scenario in order. *)
Ltac run_scenario :=
  repeat lazymatch goal with
         | |- _ /\ _ => split; [vm_compute; reflexivity|]
         end;
  vm_compute; reflexivity.

(** 1. The none probe on a password-only server is denied and leaves
    PASSWORD as the only method. *)
Example scenario_none_probe :
  exists s',
    ssh_userauth_none (Some password_only_server) None
    = Done (SSH_AUTH_DENIED, Some s')
    /\ ssh_userauth_list (Some s') = SSH_AUTH_METHOD_PASSWORD
    /\ wire (link s') = [request_head "alice" "none"]
    /\ pending_call_state s' = SSH_PENDING_CALL_NONE.
Proof. eexists. run_scenario. Qed.

(** 3. A key offered and accepted, then signed and denied. *)
Example scenario_offer_then_sign :
  exists s1 s2,
    ssh_userauth_try_publickey (Some fickle_server) None (Some rsa_public)
    = Done (SSH_AUTH_SUCCESS, Some s1)
    /\ ssh_userauth_publickey (Some s1) None (Some rsa_private)
       = Done (SSH_AUTH_DENIED, Some s2)
    /\ ssh_userauth_list (Some s2)
       = Z.lor SSH_AUTH_METHOD_PUBLICKEY SSH_AUTH_METHOD_PASSWORD
    /\ length (wire (link s2)) = 2.
Proof. do 2 eexists. run_scenario. Qed.

(** 4. Keyboard-interactive with two prompts. *)
Example scenario_keyboard_interactive :
  exists s1 s2 s3 s4,
    ssh_userauth_kbdint (Some pam_server) None None
    = Done (SSH_AUTH_INFO, Some s1)
    /\ ssh_userauth_kbdint_getnprompts (Some s1) = (2%Z, Some s1)
    /\ ssh_userauth_kbdint_getprompt (Some s1) 0 true
       = Done (Some (lit "Password:"), Some Ascii.zero, Some s1)
    /\ ssh_userauth_kbdint_setanswer (Some s1) 0 (Some (lit "p"))
       = Done (0%Z, Some s2)
    /\ ssh_userauth_kbdint_setanswer (Some s2) 1 (Some (lit "123456"))
       = Done (0%Z, Some s3)
    /\ ssh_userauth_kbdint (Some s3) None None
       = Done (SSH_AUTH_SUCCESS, Some s4)
    /\ wire (link s4)
       = [ request_head "alice" "keyboard-interactive"
           ++ wire_string [] ++ wire_string [];
           info_response_packet [lit "p"; lit "123456"] ]
    /\ kbdint s4 = None.
Proof. do 4 eexists. run_scenario. Qed.

(** 5. A call that would block is resumed by the same driver. *)
Example scenario_resumption :
  exists s1 s2,
    ssh_userauth_none (Some slow_server) None
    = Done (SSH_AUTH_AGAIN, Some s1)
    /\ pending_call_state s1 = SSH_PENDING_CALL_AUTH_NONE
    /\ ssh_userauth_none (Some s1) None = Done (SSH_AUTH_SUCCESS, Some s2)
    /\ pending_call_state s2 = SSH_PENDING_CALL_NONE
    /\ wire (link s2) = [request_head "alice" "none"].
Proof. do 2 eexists. run_scenario. Qed.

(** 6. The automatic cascade without an agent: the private key is read
    with the passphrase, the key is offered and signed, the server
    accepts. *)
Example scenario_cascade :
  exists s',
    ssh_userauth_publickey_auto (Some cascade_session) None
      (Some (lit "pw"))
    = Done (SSH_AUTH_SUCCESS, Some s')
    /\ length (wire (link s')) = 2
    /\ session_state s' = SSH_SESSION_STATE_AUTHENTICATED.
Proof. eexists. run_scenario. Qed.

(** ** Reading back what was sent *)

Lemma read_strings_wire (rs : list bytes) :
  Forall (fun s => (N.of_nat (length s) < 4294967296)%N) rs ->
  read_strings (length rs) (concat (map wire_string rs)) = Some rs.
Proof.
  induction 1 as [|s rs Hs _ IH]; [reflexivity|].
  cbn [length read_strings map concat].
  rewrite buffer_get_ssh_string_wire by exact Hs.
  rewrite IH. reflexivity.
Qed.

(** An [INFO_RESPONSE] as [ssh_userauth_kbdint_send] builds it reads back
    as the answers it was built from, byte for byte. *)
Lemma info_response_round_trip (rs : list bytes) :
  (N.of_nat (length rs) < 4294967296)%N ->
  Forall (fun s => (N.of_nat (length s) < 4294967296)%N) rs ->
  parse_info_response (info_response_packet rs) = Some rs.
Proof.
  intros Hn Hrs. unfold parse_info_response, info_response_packet.
  rewrite N_ascii_embedding by (vm_compute; reflexivity).
  rewrite N.eqb_refl, buffer_get_u32_htonl, ntohl_htonl by exact Hn.
  rewrite Nat2N.id. apply read_strings_wire, Hrs.
Qed.

Example scenario_answers_read_back :
  parse_info_response (info_response_packet [lit "p"; lit "123456"])
  = Some [lit "p"; lit "123456"].
Proof. vm_compute. reflexivity. Qed.

(* ================================================================== *)
(** * Part IV. Further properties of the handlers and the drivers      *)
(* ================================================================== *)

(** ** Packets that end too early *)

Lemma buffer_get_u32_short (b : bytes) :
  (length b < 4)%nat -> buffer_get_u32 b = (None, b).
Proof.
  intros Hb. unfold buffer_get_u32.
  destruct (Nat.ltb_spec (length b) 4); [reflexivity | lia].
Qed.

Lemma buffer_get_ssh_string_short (b : bytes) :
  (length b < 4)%nat -> buffer_get_ssh_string b = (None, b).
Proof.
  intros Hb. unfold buffer_get_ssh_string.
  rewrite buffer_get_u32_short by exact Hb. reflexivity.
Qed.

(** A read of a string that is cut fails and leaves the position where
    it was. *)
Lemma buffer_get_ssh_string_cut (b : bytes) :
  ends_inside_a_string b -> buffer_get_ssh_string b = (None, b).
Proof.
  intros [Hshort | (n & body & Hn & Hbody & ->)].
  - apply buffer_get_ssh_string_short, Hshort.
  - unfold buffer_get_ssh_string. rewrite buffer_get_u32_htonl. cbv zeta.
    rewrite ntohl_htonl by exact Hn.
    destruct (N.ltb_spec (N.of_nat (length body)) n); [reflexivity | lia].
Qed.

(** X1. A [USERAUTH_FAILURE] that ends before its method list is
    complete (inside the four bytes of the length, or with fewer bytes
    than the length announces), or has the list and no "partial" byte,
    puts the session in the ERROR state with a fatal error and leaves the
    method bitset as it was; the wait for the answer ends. *)
Theorem malformed_failure_is_fatal (s : ssh_session_struct)
    (packet : bytes) :
  ends_inside_a_string packet
  \/ (exists methods, (N.of_nat (length methods) < 4294967296)%N
                      /\ packet = wire_string methods) ->
  let s' := ssh_packet_userauth_failure packet s in
  auth_state s' = SSH_AUTH_STATE_ERROR
  /\ error s'
     = Some (SSH_FATAL, "Invalid SSH_MSG_USERAUTH_FAILURE message"%string)
  /\ auth_methods s' = auth_methods s
  /\ kbdint s' = kbdint s
  /\ ssh_auth_response_termination s' = true.
Proof.
  intros Hpacket s'. subst s'. unfold ssh_packet_userauth_failure.
  destruct Hpacket as [Hcut | (methods & Hlen & ->)].
  - rewrite buffer_get_ssh_string_cut by exact Hcut.
    repeat split; reflexivity.
  - rewrite <- (app_nil_r (wire_string methods)).
    rewrite buffer_get_ssh_string_wire by exact Hlen.
    cbn [buffer_get_u8]. repeat split; reflexivity.
Qed.

Lemma malformed_failure_is_fatal_witness :
  Forall
    (fun packet =>
       let s' := ssh_packet_userauth_failure packet fresh_session in
       auth_state s' = SSH_AUTH_STATE_ERROR
       /\ error s'
          = Some (SSH_FATAL,
                  "Invalid SSH_MSG_USERAUTH_FAILURE message"%string)
       /\ auth_methods s' = auth_methods fresh_session
       /\ kbdint s' = kbdint fresh_session
       /\ ssh_auth_response_termination s' = true)
    [ [Ascii.zero; Ascii.zero];
      htonl 10 ++ lit "pas";
      wire_string (lit "password") ].
Proof.
  constructor; [|constructor; [|constructor; [|constructor]]].
  - apply (malformed_failure_is_fatal fresh_session [Ascii.zero; Ascii.zero]).
    left. left. cbn. lia.
  - apply (malformed_failure_is_fatal fresh_session (htonl 10 ++ lit "pas")).
    left. right. exists 10%N, (lit "pas").
    split; [reflexivity|]. split; [vm_compute; reflexivity | reflexivity].
  - apply (malformed_failure_is_fatal fresh_session
             (wire_string (lit "password"))).
    right. exists (lit "password"). split; [vm_compute; reflexivity|].
    reflexivity.
Defined.


(** X3. A [USERAUTH_INFO_REQUEST] that ends inside its first three
    strings (inside the four bytes of a length, or inside the bytes a
    length announces) records a fatal error and nothing else: the scratch
    of an earlier request stays in place, nothing is released, and the
    authentication state is not moved, so a driver waiting for the answer
    keeps waiting. *)
Theorem truncated_info_request_keeps_the_scratch `{Limits}
    (s : ssh_session_struct) (packet : bytes) :
  truncated_head packet ->
  ssh_packet_userauth_info_request packet s
  = Done (ssh_set_error SSH_FATAL "Invalid USERAUTH_INFO_REQUEST msg" s)
  /\ forall s', ssh_packet_userauth_info_request packet s = Done s' ->
       kbdint s' = kbdint s
       /\ freed s' = freed s
       /\ auth_state s' = auth_state s
       /\ ssh_auth_response_termination s' = ssh_auth_response_termination s.
Proof.
  intros (fields & tail & Hn & Hb & Ht & ->).
  pose proof (buffer_get_ssh_string_cut tail Ht) as Hcut.
  assert (Hrun : ssh_packet_userauth_info_request
                   (concat (map wire_string fields) ++ tail) s
                 = Done (ssh_set_error SSH_FATAL
                           "Invalid USERAUTH_INFO_REQUEST msg" s)).
  { unfold ssh_packet_userauth_info_request.
    destruct fields as [|f1 [|f2 [|f3 fields]]]; cbn [map concat app].
    - rewrite !Hcut.
      destruct (buffer_get_u32 tail) as [[w|] r]; reflexivity.
    - apply Forall_cons in Hb as [H1 _]. rewrite app_nil_r.
      rewrite buffer_get_ssh_string_wire by exact H1.
      rewrite !Hcut.
      destruct (buffer_get_u32 tail) as [[w|] r]; reflexivity.
    - apply Forall_cons in Hb as [H1 Hb]. apply Forall_cons in Hb as [H2 _].
      rewrite app_nil_r, <- app_assoc.
      rewrite buffer_get_ssh_string_wire by exact H1.
      rewrite buffer_get_ssh_string_wire by exact H2.
      rewrite !Hcut.
      destruct (buffer_get_u32 tail) as [[w|] r]; reflexivity.
    - cbn [length] in Hn. lia. }
  split; [exact Hrun|].
  intros s' Hs'. rewrite Hrun in Hs'. injection Hs' as <-.
  repeat split; reflexivity.
Qed.

Lemma truncated_info_request_keeps_the_scratch_witness :
  Forall
    (fun packet =>
       truncated_head packet
       /\ ssh_packet_userauth_info_request packet challenged_session
          = Done (ssh_set_error SSH_FATAL "Invalid USERAUTH_INFO_REQUEST msg"
                    challenged_session))
    [ htonl 3 ++ lit "PA";
      wire_string (lit "PAM") ++ [Ascii.zero; Ascii.zero];
      wire_string (lit "PAM") ++ wire_string [] ++ htonl 2 ++ lit "e" ].
Proof.
  assert (H1 : truncated_head (htonl 3 ++ lit "PA")).
  { exists [], (htonl 3 ++ lit "PA").
    split; [cbn; lia|]. split; [constructor|]. split; [|reflexivity].
    right. exists 3%N, (lit "PA").
    split; [reflexivity|]. split; [vm_compute; reflexivity | reflexivity]. }
  assert (H2 : truncated_head
                 (wire_string (lit "PAM") ++ [Ascii.zero; Ascii.zero])).
  { exists [lit "PAM"], [Ascii.zero; Ascii.zero].
    split; [cbn; lia|]. split; [|split; [left; cbn; lia | reflexivity]].
    constructor; [vm_compute; reflexivity | constructor]. }
  assert (H3 : truncated_head
                 (wire_string (lit "PAM") ++ wire_string []
                  ++ htonl 2 ++ lit "e")).
  { exists [lit "PAM"; []], (htonl 2 ++ lit "e").
    split; [cbn; lia|]. split; [|split; [|reflexivity]].
    - constructor; [vm_compute; reflexivity|].
      constructor; [vm_compute; reflexivity | constructor].
    - right. exists 2%N, (lit "e").
      split; [reflexivity|].
      split; [vm_compute; reflexivity | reflexivity]. }
  constructor; [|constructor; [|constructor; [|constructor]]].
  - split; [exact H1|].
    apply (truncated_info_request_keeps_the_scratch challenged_session _ H1).
  - split; [exact H2|].
    apply (truncated_info_request_keeps_the_scratch challenged_session _ H2).
  - split; [exact H3|].
    apply (truncated_info_request_keeps_the_scratch challenged_session _ H3).
Defined.

(** X4. A [USERAUTH_INFO_REQUEST] whose three strings are whole and that
    ends before the four bytes of the prompt count: the result of the
    read of the count is not tested, and the count is used without having
    been written. *)
Theorem info_request_without_count_reads_indeterminate `{Limits}
    (s : ssh_session_struct) (name instruction lang tail : bytes) :
  (N.of_nat (length name) < 4294967296)%N ->
  (N.of_nat (length instruction) < 4294967296)%N ->
  (N.of_nat (length lang) < 4294967296)%N ->
  (length tail < 4)%nat ->
  (forall k, kbdint s = Some k -> kbdint_wf k) ->
  ssh_packet_userauth_info_request
    (wire_string name ++ wire_string instruction ++ wire_string lang ++ tail)
    s
  = Undefined UninitializedRead.
Proof.
  intros Hname Hins Hlang Ht Hwf.
  unfold ssh_packet_userauth_info_request.
  rewrite !buffer_get_ssh_string_wire by assumption.
  rewrite buffer_get_u32_short by exact Ht.
  destruct (kbdint s) as [k|] eqn:Hk.
  - rewrite (kbdint_clean_wf k (Hwf k eq_refl)). reflexivity.
  - reflexivity.
Qed.

Lemma info_request_without_count_reads_indeterminate_witness :
  ssh_packet_userauth_info_request
    (wire_string (lit "PAM") ++ wire_string [] ++ wire_string [] ++ [])
    challenged_session
  = Undefined UninitializedRead.
Proof.
  apply (info_request_without_count_reads_indeterminate challenged_session
           (lit "PAM") [] [] []);
    try (vm_compute; reflexivity); try (cbn; lia).
  intros k [= <-]. exact two_prompts_wf.
Defined.

(** ** Requests with fewer prompts than they announce *)


(** The loop over the prompts that are whole: it stores them and goes on
    with the rest of the packet. *)
Lemma read_prompts_prefix (s : ssh_session_struct) (rest : bytes)
    (ps : list (bytes * ascii)) (m : nat) :
  forall (i : nat) (k : ssh_kbdint_struct) (pa : list (option cstring))
         (ea : list ascii),
    prompts k = Some pa ->
    echo k = Some ea ->
    length pa = i + length ps + m ->
    length ea = i + length ps + m ->
    Forall (fun pe => (N.of_nat (length (fst pe)) < 4294967296)%N) ps ->
    exists k',
      read_prompts (length ps + m) (N.of_nat i) (prompt_fields ps ++ rest) k s
      = read_prompts m (N.of_nat (i + length ps)) rest k' s
      /\ prompts k'
         = Some (take i pa ++ map (fun pe => Some (fst pe)) ps
                 ++ drop (i + length ps) pa)
      /\ echo k' = Some (take i ea ++ map snd ps ++ drop (i + length ps) ea)
      /\ nprompts k' = nprompts k /\ nanswers k' = nanswers k
      /\ name k' = name k /\ instruction k' = instruction k
      /\ answers k' = answers k.
Proof.
  induction ps as [|[p e] ps IH]; intros i k pa ea Hpa Hea Hlp Hle Hb.
  - exists k. cbn [length map app prompt_fields concat].
    rewrite Nat.add_0_r, !take_drop. repeat split; assumption.
  - cbn [length] in *. apply Forall_cons in Hb as [Hp Hb]. cbn [fst] in Hp.
    cbn [read_prompts Nat.add]. rewrite prompt_fields_cons.
    rewrite buffer_get_ssh_string_wire by exact Hp.
    cbn [buffer_get_u8]. rewrite Hea.
    rewrite array_store_lt by lia. cbn [mbind run_bind].
    cbn [prompts set_echo]. rewrite Hpa.
    rewrite array_store_lt by lia. cbn [mbind run_bind].
    rewrite Nat2N.id.
    replace (N.succ (N.of_nat i)) with (N.of_nat (S i)) by lia.
    destruct (IH (S i)
                (set_prompts (Some (<[i := Some (ssh_string_to_char p)]> pa))
                   (set_echo (Some (<[i := e]> ea)) k))
                (<[i := Some (ssh_string_to_char p)]> pa) (<[i := e]> ea))
      as (k' & Hrun & Hps' & Hes' & Hn & Hna & Hname & Hins & Hans);
      [reflexivity | reflexivity | rewrite length_insert; lia
      | rewrite length_insert; lia | exact Hb |].
    exists k'. split.
    { rewrite Hrun. f_equal. lia. }
    rewrite Hps', Hes'.
    rewrite (take_S_r _ i (Some (ssh_string_to_char p)))
      by (apply list_lookup_insert_eq; lia).
    rewrite (take_S_r _ i e) by (apply list_lookup_insert_eq; lia).
    rewrite !take_insert_ge by lia.
    rewrite !drop_insert_lt by lia.
    cbn [map fst snd]. rewrite <- !app_assoc.
    replace (S i + length ps) with (i + S (length ps)) by lia.
    repeat split; assumption.
Qed.




(** ** What a well-formed request leaves in the session *)

(** The session after a well-formed [USERAUTH_INFO_REQUEST]. *)
Lemma info_request_stores `{Limits} (s : ssh_session_struct)
    (name instruction lang rest : bytes) (n : N)
    (ps : list (bytes * ascii)) :
  (N.of_nat (length name) < 4294967296)%N ->
  (N.of_nat (length instruction) < 4294967296)%N ->
  (N.of_nat (length lang) < 4294967296)%N ->
  (n < 4294967296)%N ->
  (forall k, kbdint s = Some k -> kbdint_wf k) ->
  (1 <= n)%N -> (n <= KBDINT_MAX_PROMPT)%N ->
  N.of_nat (length ps) = n ->
  Forall (fun pe => (N.of_nat (length (fst pe)) < 4294967296)%N) ps ->
  ssh_packet_userauth_info_request
    (info_request_payload name instruction lang n ps ++ rest) s
  = Done (set_auth_state SSH_AUTH_STATE_INFO
            (set_kbdint
               (Some {| nprompts := n; nanswers := n;
                        name := Some name; instruction := Some instruction;
                        prompts := Some (map (fun pe => Some (fst pe)) ps);
                        echo := Some (map snd ps);
                        answers := None |})
               (set_freed (freed s ++ old_blocks s) s))).
Proof.
  intros Hname Hins Hlang Hn Hwf Hlo Hhi Hlen Hb.
  unfold info_request_payload. rewrite <- !app_assoc.
  rewrite info_request_header by assumption. cbv zeta.
  assert ((n =? 0)%N || (KBDINT_MAX_PROMPT <? n)%N = false) as ->.
  { apply orb_false_iff. split; [apply N.eqb_neq; lia|apply N.ltb_ge; lia]. }
  assert (Hnat : N.to_nat n = length ps) by lia.
  rewrite Hnat.
  destruct (read_prompts_all
              (set_freed (freed s ++ old_blocks s) s) rest ps 0
              (with_prompts n
                 (set_name_instruction name instruction ssh_kbdint_new))
              (replicate (N.to_nat n) None)
              (replicate (N.to_nat n) Ascii.zero))
    as (k' & Hrun & Hps & Hes & Hnp & Hna & Hnm & Hin & Han);
    [reflexivity | reflexivity
    | rewrite length_replicate; lia | rewrite length_replicate; lia
    | exact Hb |].
  change (N.of_nat 0) with 0%N in Hrun. rewrite Hrun.
  do 3 f_equal.
  destruct k' as [np na nm ins pr ec an]. cbn in *. subst. reflexivity.
Qed.

(** X6. A second [USERAUTH_INFO_REQUEST] replaces the scratch of the
    first: every string of the old scratch is released, the old prompts
    and answers overwritten first (an answer is all zero bytes when it is
    released), and the new scratch starts without answers. *)
Theorem new_request_scrubs_the_old_scratch `{Limits}
    (s : ssh_session_struct) (old : ssh_kbdint_struct)
    (name instruction lang rest : bytes) (n : N)
    (ps : list (bytes * ascii)) :
  kbdint s = Some old ->
  kbdint_wf old ->
  (N.of_nat (length name) < 4294967296)%N ->
  (N.of_nat (length instruction) < 4294967296)%N ->
  (N.of_nat (length lang) < 4294967296)%N ->
  (1 <= n)%N -> (n <= KBDINT_MAX_PROMPT)%N -> (n < 4294967296)%N ->
  N.of_nat (length ps) = n ->
  Forall (fun pe => (N.of_nat (length (fst pe)) < 4294967296)%N) ps ->
  exists s' k',
    ssh_packet_userauth_info_request
      (info_request_payload name instruction lang n ps ++ rest) s = Done s'
    /\ kbdint s' = Some k'
    /\ answers k' = None
    /\ answer_slots k' = replicate (length ps) None
    /\ prompts k' = Some (map (fun pe => Some (fst pe)) ps)
    /\ freed s'
       = freed s ++ released_blocks old
    /\ Forall all_zero (burned (answers old)).
Proof.
  intros Hk Hwf Hname Hins Hlang Hlo Hhi Hn Hlen Hb.
  eexists. eexists. split.
  { apply info_request_stores; try assumption.
    intros k Hk'. rewrite Hk in Hk'. injection Hk' as <-. exact Hwf. }
  split; [reflexivity|]. split; [reflexivity|].
  split.
  { unfold answer_slots. cbn. f_equal. lia. }
  split; [reflexivity|]. split.
  { cbn. unfold old_blocks. rewrite Hk. reflexivity. }
  apply burned_answers_zero. exact Hwf.
Qed.

Lemma new_request_scrubs_the_old_scratch_witness :
  exists s' k',
    ssh_packet_userauth_info_request
      (info_request_payload (lit "PAM") [] [] 2 pam_prompts ++ [])
      answering_session = Done s'
    /\ kbdint s' = Some k'
    /\ answers k' = None
    /\ answer_slots k' = replicate (length pam_prompts) None
    /\ prompts k' = Some (map (fun pe => Some (fst pe)) pam_prompts)
    /\ freed s'
       = freed answering_session ++ released_blocks one_answer
    /\ Forall all_zero (burned (answers one_answer)).
Proof.
  apply (new_request_scrubs_the_old_scratch answering_session one_answer
           (lit "PAM") [] [] [] 2 pam_prompts).
  - reflexivity.
  - exact one_answer_wf.
  - reflexivity.
  - reflexivity.
  - reflexivity.
  - vm_compute. intros [=].
  - vm_compute. intros [=].
  - reflexivity.
  - reflexivity.
  - repeat constructor.
Defined.

(** X7. What [ssh_packet_userauth_info_request] stores is what the
    accessors give back: the count, the name, the instruction, and for
    every index below the count the prompt with its echo flag, the flag
    only when it is asked for. *)
Theorem accessors_read_back_the_request `{Limits}
    (s : ssh_session_struct) (name instruction lang rest : bytes) (n : N)
    (ps : list (bytes * ascii)) :
  (N.of_nat (length name) < 4294967296)%N ->
  (N.of_nat (length instruction) < 4294967296)%N ->
  (N.of_nat (length lang) < 4294967296)%N ->
  (forall k, kbdint s = Some k -> kbdint_wf k) ->
  (1 <= n)%N -> (n <= KBDINT_MAX_PROMPT)%N -> (n < 2147483648)%N ->
  N.of_nat (length ps) = n ->
  Forall (fun pe => (N.of_nat (length (fst pe)) < 4294967296)%N) ps ->
  exists s',
    ssh_packet_userauth_info_request
      (info_request_payload name instruction lang n ps ++ rest) s = Done s'
    /\ ssh_userauth_kbdint_getnprompts (Some s') = (Z.of_N n, Some s')
    /\ ssh_userauth_kbdint_getname (Some s') = (Some name, Some s')
    /\ ssh_userauth_kbdint_getinstruction (Some s')
       = (Some instruction, Some s')
    /\ forall (i : nat) (p : bytes) (e : ascii),
         ps !! i = Some (p, e) ->
         ssh_userauth_kbdint_getprompt (Some s') (N.of_nat i) true
         = Done (Some p, Some e, Some s')
         /\ ssh_userauth_kbdint_getprompt (Some s') (N.of_nat i) false
            = Done (Some p, None, Some s').
Proof.
  intros Hname Hins Hlang Hwf Hlo Hhi Hint Hlen Hb.
  eexists. split.
  { apply info_request_stores; try assumption. lia. }
  split.
  { cbn. unfold int_of_uint32.
    destruct (N.ltb_spec n 2147483648); [reflexivity | lia]. }
  split; [reflexivity|]. split; [reflexivity|].
  intros i p e Hi.
  assert (Hlt : i < length ps) by (eapply lookup_lt_Some; exact Hi).
  unfold ssh_userauth_kbdint_getprompt.
  cbn [kbdint set_auth_state set_kbdint nprompts echo prompts].
  destruct (N.ltb_spec n (N.of_nat i)) as [Hbad|_]; [lia|].
  unfold array_load. rewrite !length_map.
  destruct (N.ltb_spec (N.of_nat i) (N.of_nat (length ps))) as [_|Hbad];
    [|lia].
  rewrite Nat2N.id, !list_lookup_fmap, Hi. split; reflexivity.
Qed.

Lemma accessors_read_back_the_request_witness :
  exists s',
    ssh_packet_userauth_info_request
      (info_request_payload (lit "PAM") (lit "Please authenticate") [] 2
         pam_prompts ++ []) fresh_session = Done s'
    /\ ssh_userauth_kbdint_getnprompts (Some s') = (2%Z, Some s')
    /\ ssh_userauth_kbdint_getname (Some s') = (Some (lit "PAM"), Some s')
    /\ ssh_userauth_kbdint_getinstruction (Some s')
       = (Some (lit "Please authenticate"), Some s')
    /\ forall (i : nat) (p : bytes) (e : ascii),
         pam_prompts !! i = Some (p, e) ->
         ssh_userauth_kbdint_getprompt (Some s') (N.of_nat i) true
         = Done (Some p, Some e, Some s')
         /\ ssh_userauth_kbdint_getprompt (Some s') (N.of_nat i) false
            = Done (Some p, None, Some s').
Proof.
  apply (accessors_read_back_the_request fresh_session (lit "PAM")
           (lit "Please authenticate") [] [] 2 pam_prompts).
  - reflexivity.
  - reflexivity.
  - reflexivity.
  - intros k [=].
  - vm_compute. intros [=].
  - vm_compute. intros [=].
  - reflexivity.
  - reflexivity.
  - repeat constructor.
Defined.

(** ** Answers: stored, read back, sent *)

(** [ssh_userauth_kbdint_setanswer] at an index below the count. *)
Lemma setanswer_in_range (s : ssh_session_struct) (k : ssh_kbdint_struct)
    (i : N) (answer : cstring) :
  kbdint s = Some k ->
  kbdint_wf k ->
  (i < nprompts k)%N ->
  ssh_userauth_kbdint_setanswer (Some s) i (Some answer)
  = Done (0%Z,
          Some (set_kbdint
                  (Some (set_answers
                           (Some (<[N.to_nat i := Some (strdup answer)]>
                                    (answer_slots k))) k))
                  (set_freed
                     (freed s
                      ++ match answer_slots k !! N.to_nat i with
                         | Some (Some old) => [BURN_STRING old]
                         | _ => []
                         end) s))).
Proof.
  intros Hk Hwf Hi.
  pose proof (length_answer_slots k Hwf) as Hslots.
  assert ((nprompts k <? i)%N = false) as Hge by (apply N.ltb_ge; lia).
  assert (Hin : (i < N.of_nat (length (answer_slots k)))%N) by lia.
  destruct (array_load_lt i (answer_slots k) Hin) as (old & Hload & Hlook).
  unfold ssh_userauth_kbdint_setanswer. rewrite Hk, Hge.
  fold (answer_slots k). rewrite Hload. cbn [mbind run_bind].
  rewrite array_store_lt by exact Hin. cbn [mbind run_bind].
  rewrite Hlook. destruct old; reflexivity.
Qed.

(** [ssh_userauth_kbdint_getanswer] at an index below the count. *)
Lemma getanswer_in_range (s : ssh_session_struct) (k : ssh_kbdint_struct)
    (i : N) (x : option cstring) :
  kbdint s = Some k ->
  kbdint_wf k ->
  answer_slots k !! N.to_nat i = Some x ->
  ssh_userauth_kbdint_getanswer (Some s) i = Done x.
Proof.
  intros Hk Hwf Hx.
  pose proof (length_answer_slots k Hwf) as Hslots.
  assert (Hlt : N.to_nat i < length (answer_slots k))
    by (eapply lookup_lt_Some; exact Hx).
  unfold ssh_userauth_kbdint_getanswer. rewrite Hk.
  unfold answer_slots in Hx, Hlt.
  destruct (answers k) as [a|] eqn:Ha.
  - rewrite (wf_nanswers k Hwf).
    destruct (N.ltb_spec (nprompts k) i) as [Hbad|_].
    { destruct (wf_answers k Hwf a Ha) as [Hlen _]. lia. }
    unfold array_load.
    destruct (N.ltb_spec i (N.of_nat (length a))) as [_|Hbad]; [|lia].
    rewrite Hx. reflexivity.
  - apply lookup_replicate in Hx as [-> _]. reflexivity.
Qed.

(** X8. An answer stored at an index below the count is the one read
    back at that index, as a copy of the argument up to its first zero
    byte; the answers at the other indices and the number of answers stay
    as they were, and the answer that was there before is overwritten and
    released. *)
Theorem setanswer_then_getanswer (s : ssh_session_struct)
    (k : ssh_kbdint_struct) (i : N) (answer : cstring) :
  kbdint s = Some k ->
  kbdint_wf k ->
  (i < nprompts k)%N ->
  exists s',
    ssh_userauth_kbdint_setanswer (Some s) i (Some answer)
    = Done (0%Z, Some s')
    /\ ssh_userauth_kbdint_getanswer (Some s') i
       = Done (Some (c_view answer))
    /\ (forall j, (j < nprompts k)%N -> j <> i ->
          ssh_userauth_kbdint_getanswer (Some s') j
          = ssh_userauth_kbdint_getanswer (Some s) j)
    /\ ssh_userauth_kbdint_getnanswers (Some s')
       = ssh_userauth_kbdint_getnanswers (Some s)
    /\ fst (ssh_userauth_kbdint_getnprompts (Some s'))
       = fst (ssh_userauth_kbdint_getnprompts (Some s))
    /\ freed s'
       = freed s ++ match answer_slots k !! N.to_nat i with
                    | Some (Some old) => [BURN_STRING old]
                    | _ => []
                    end.
Proof.
  intros Hk Hwf Hi.
  pose proof (length_answer_slots k Hwf) as Hslots.
  pose proof (answered_scratch_wf k i answer Hwf Hi) as Hwf'.
  eexists. split; [apply setanswer_in_range; eassumption|].
  split; [|split; [|split; [|split]]].
  - eapply getanswer_in_range; [reflexivity | exact Hwf' |].
    unfold answer_slots at 1. cbn [answers set_answers].
    apply list_lookup_insert_eq. lia.
  - intros j Hj Hne.
    assert (Hin : N.to_nat j < length (answer_slots k)) by lia.
    destruct (lookup_lt_is_Some_2 _ _ Hin) as [x Hx].
    rewrite (getanswer_in_range s k j x Hk Hwf Hx).
    eapply getanswer_in_range; [reflexivity | exact Hwf' |].
    unfold answer_slots at 1. cbn [answers set_answers].
    rewrite list_lookup_insert_ne by lia. exact Hx.
  - cbn. rewrite Hk. reflexivity.
  - cbn. rewrite Hk. reflexivity.
  - reflexivity.
Qed.

Lemma setanswer_then_getanswer_witness :
  exists s',
    ssh_userauth_kbdint_setanswer (Some answering_session) 0
      (Some (lit "hunter2"))
    = Done (0%Z, Some s')
    /\ ssh_userauth_kbdint_getanswer (Some s') 0
       = Done (Some (c_view (lit "hunter2")))
    /\ freed s' = [BURN_STRING (lit "p")].
Proof.
  destruct (setanswer_then_getanswer answering_session one_answer 0
              (lit "hunter2") eq_refl one_answer_wf eq_refl)
    as (s' & Hset & Hget & _ & _ & _ & Hfreed).
  exists s'. split; [exact Hset|]. split; [exact Hget|]. exact Hfreed.
Defined.

(** An application that answers every prompt from index [i] on. *)
Lemma answer_in_order_all (l : list cstring) :
  forall (i : nat) (s : ssh_session_struct) (k : ssh_kbdint_struct),
    kbdint s = Some k ->
    kbdint_wf k ->
    i + length l = N.to_nat (nprompts k) ->
    exists s' k',
      answer_in_order (N.of_nat i) l (Some s) = Done (0%Z, Some s')
      /\ kbdint s' = Some k'
      /\ kbdint_wf k'
      /\ nprompts k' = nprompts k
      /\ answer_slots k'
         = take i (answer_slots k) ++ map (fun a => Some (c_view a)) l
      /\ out_buffer s' = out_buffer s
      /\ link s' = link s
      /\ pending_call_state s' = pending_call_state s.
Proof.
  induction l as [|a l IH]; intros i s k Hk Hwf Hlen.
  - exists s, k. cbn [answer_in_order map length] in *.
    pose proof (length_answer_slots k Hwf) as Hslots.
    rewrite app_nil_r, take_ge by lia.
    split; [reflexivity|]. split; [exact Hk|]. split; [exact Hwf|].
    repeat split.
  - cbn [length] in Hlen. cbn [answer_in_order].
    rewrite (setanswer_in_range s k (N.of_nat i) a Hk Hwf) by lia.
    cbn [mbind run_bind].
    change (0 <? 0)%Z with false. cbv iota.
    replace (N.succ (N.of_nat i)) with (N.of_nat (S i)) by lia.
    rewrite Nat2N.id.
    pose proof (answered_scratch_wf k (N.of_nat i) a Hwf ltac:(lia)) as Hwf1.
    rewrite Nat2N.id in Hwf1.
    match goal with
    | |- context [answer_in_order _ l (Some ?s1)] =>
        destruct (IH (S i) s1 _ eq_refl Hwf1)
          as (s' & k' & Hrun & Hk' & Hwf' & Hn & Hslots & Hob & Hlink & Hpend)
    end.
    + cbn [nprompts set_answers]. lia.
    + exists s', k'. split; [exact Hrun|]. split; [exact Hk'|].
      split; [exact Hwf'|]. split; [exact Hn|].
      split; [|split; [exact Hob|split; [exact Hlink|exact Hpend]]].
      rewrite Hslots. unfold answer_slots at 1. cbn [answers set_answers].
      assert (Hi : i < length (answer_slots k))
        by (rewrite length_answer_slots by exact Hwf; lia).
      rewrite (take_S_r _ i (Some (strdup a)))
        by (apply list_lookup_insert_eq; exact Hi).
      rewrite take_insert_ge by lia.
      cbn [map]. rewrite <- app_assoc. reflexivity.
Qed.

(** [packet_send] when the transport accepts the packet. *)
Lemma packet_send_accepted (s : ssh_session_struct) :
  next_send_accepted s = true ->
  packet_send s
  = (SSH_OK,
     set_out_buffer []
       (set_link {| service_script := service_script (link s);
                    send_script := tail (send_script (link s));
                    inbox := inbox (link s);
                    wire := wire (link s) ++ [out_buffer s] |} s)).
Proof.
  unfold next_send_accepted, packet_send. intros Hsend.
  destruct (send_script (link s)) as [|b rest]; cbn [hd] in Hsend.
  - reflexivity.
  - subst b. reflexivity.
Qed.

(** [ssh_userauth_kbdint_send] up to the wait, when the transport
    accepts the packet. *)
Lemma kbdint_send_accepted `{Limits} (s : ssh_session_struct)
    (k : ssh_kbdint_struct) :
  kbdint s = Some k ->
  kbdint_wf k ->
  next_send_accepted s = true ->
  exists s2,
    ssh_userauth_kbdint_send s = ssh_userauth_get_response s2
    /\ kbdint s2 = None
    /\ auth_state s2 = SSH_AUTH_STATE_KBDINT_SENT
    /\ freed s2 = freed s ++ released_blocks k
    /\ wire (link s2)
       = wire (link s)
         ++ [out_buffer s
             ++ info_response_packet (map response_of (answer_slots k))]
    /\ inbox (link s2) = inbox (link s)
    /\ pending_call_state s2 = pending_call_state s.
Proof.
  intros Hk Hwf Hsend.
  pose proof (length_answer_slots k Hwf) as Hslots.
  unfold ssh_userauth_kbdint_send. rewrite Hk.
  change 0%N with (N.of_nat 0).
  rewrite (add_answers_all k) by
    (first [ intros a Ha; apply (wf_answers k Hwf a Ha) | lia ]).
  cbn [mbind run_bind]. unfold drop_kbdint.
  rewrite (kbdint_free_wf k Hwf). cbn [mbind run_bind].
  rewrite packet_send_accepted by exact Hsend.
  change (SSH_OK =? SSH_ERROR)%Z with false. cbv iota.
  eexists. split; [reflexivity|].
  split; [reflexivity|]. split; [reflexivity|]. split; [reflexivity|].
  split; [|split; reflexivity].
  cbn. unfold info_response_packet.
  rewrite length_map, Hslots, N2Nat.id.
  unfold buffer_add_u8, buffer_add_u32.
  rewrite <- !app_assoc. reflexivity.
Qed.

(** X9. An application that answers every prompt in order and calls
    [ssh_userauth_kbdint] again puts one [USERAUTH_INFO_RESPONSE] on the
    wire, and a server that reads it finds the answers typed, each up to
    its first zero byte, in the order of the prompts; answers stored
    before are replaced.  The scratch is gone when the packet leaves. *)
Theorem typed_answers_reach_the_wire `{Limits} (s : ssh_session_struct)
    (k : ssh_kbdint_struct) (typed : list cstring)
    (user submethods : option cstring) :
  kbdint s = Some k ->
  kbdint_wf k ->
  N.of_nat (length typed) = nprompts k ->
  Forall (fun a => (N.of_nat (strlen a) < 4294967296)%N) typed ->
  out_buffer s = [] ->
  next_send_accepted s = true ->
  exists s1 s2 packet,
    answer_in_order 0 typed (Some s) = Done (0%Z, Some s1)
    /\ ssh_userauth_kbdint_body s1 user submethods
       = ssh_userauth_get_response s2
    /\ wire (link s2) = wire (link s) ++ [packet]
    /\ parse_info_response packet = Some (map c_view typed)
    /\ kbdint s2 = None
    /\ auth_state s2 = SSH_AUTH_STATE_KBDINT_SENT.
Proof.
  intros Hk Hwf Hlen Hb Hout Hsend.
  destruct (answer_in_order_all typed 0 s k Hk Hwf ltac:(cbn; lia))
    as (s1 & k1 & Hrun & Hk1 & Hwf1 & Hn1 & Hslots1 & Hob1 & Hlink1 & _).
  change (N.of_nat 0) with 0%N in Hrun.
  assert (Hsend1 : next_send_accepted s1 = true)
    by (unfold next_send_accepted; rewrite Hlink1; exact Hsend).
  destruct (kbdint_send_accepted s1 k1 Hk1 Hwf1 Hsend1)
    as (s2 & Hsent & Hnone & Hstate & _ & Hwire & _ & _).
  exists s1, s2. eexists.
  split; [exact Hrun|]. split.
  { unfold ssh_userauth_kbdint_body. rewrite Hk1. exact Hsent. }
  split.
  { rewrite Hwire, Hlink1, Hob1, Hout. cbn [app]. reflexivity. }
  split; [|split; assumption].
  rewrite Hslots1, take_0. cbn [app]. rewrite map_map. cbn [response_of].
  rewrite (map_ext (fun a => c_view (c_view a)) c_view)
    by (intros a; apply c_view_idem).
  apply info_response_round_trip.
  - rewrite length_map. pose proof (wf_int k Hwf). lia.
  - apply Forall_map. exact Hb.
Qed.

Lemma typed_answers_reach_the_wire_witness :
  exists s1 s2 packet,
    answer_in_order 0 [lit "hunter2"; lit "123456"] (Some answering_session)
    = Done (0%Z, Some s1)
    /\ ssh_userauth_kbdint_body s1 None None = ssh_userauth_get_response s2
    /\ wire (link s2) = wire (link answering_session) ++ [packet]
    /\ parse_info_response packet
       = Some (map c_view [lit "hunter2"; lit "123456"])
    /\ kbdint s2 = None
    /\ auth_state s2 = SSH_AUTH_STATE_KBDINT_SENT.
Proof.
  apply (typed_answers_reach_the_wire answering_session one_answer
           [lit "hunter2"; lit "123456"] None None).
  - reflexivity.
  - exact one_answer_wf.
  - reflexivity.
  - repeat constructor.
  - reflexivity.
  - reflexivity.
Defined.

(** X10. The last prompt of a [USERAUTH_INFO_REQUEST] may lack its echo
    byte: the result of the read of the byte is not tested, the prompt is
    stored and its echo flag stays zero, as [memset] left it. *)
Theorem last_prompt_without_echo_byte `{Limits} (s : ssh_session_struct)
    (name instruction lang last_prompt : bytes) (n : N)
    (ps : list (bytes * ascii)) :
  (N.of_nat (length name) < 4294967296)%N ->
  (N.of_nat (length instruction) < 4294967296)%N ->
  (N.of_nat (length lang) < 4294967296)%N ->
  (N.of_nat (length last_prompt) < 4294967296)%N ->
  (forall k, kbdint s = Some k -> kbdint_wf k) ->
  (n <= KBDINT_MAX_PROMPT)%N -> (n < 4294967296)%N ->
  (N.of_nat (length ps) + 1)%N = n ->
  Forall (fun pe => (N.of_nat (length (fst pe)) < 4294967296)%N) ps ->
  exists s' k',
    ssh_packet_userauth_info_request
      (info_request_payload name instruction lang n ps
       ++ wire_string last_prompt) s = Done s'
    /\ auth_state s' = SSH_AUTH_STATE_INFO
    /\ kbdint s' = Some k'
    /\ nprompts k' = n
    /\ prompts k'
       = Some (map (fun pe => Some (fst pe)) ps ++ [Some last_prompt])
    /\ echo k' = Some (map snd ps ++ [Ascii.zero]).
Proof.
  intros Hname Hins Hlang Hlast Hwf Hmax Hn Hlen Hb.
  unfold info_request_payload. rewrite <- !app_assoc.
  rewrite info_request_header by assumption. cbv zeta.
  assert ((n =? 0)%N || (KBDINT_MAX_PROMPT <? n)%N = false) as ->.
  { apply orb_false_iff. split; [apply N.eqb_neq; lia|apply N.ltb_ge; lia]. }
  replace (N.to_nat n) with (length ps + 1) by lia.
  destruct (read_prompts_prefix
              (set_freed (freed s ++ old_blocks s) s)
              (wire_string last_prompt) ps 1 0
              (with_prompts n
                 (set_name_instruction name instruction ssh_kbdint_new))
              (replicate (N.to_nat n) None)
              (replicate (N.to_nat n) Ascii.zero))
    as (k' & Hrun & Hps & Hes & Hnp & Hna & Hnm & Hin & Han);
    [reflexivity | reflexivity
    | rewrite length_replicate; lia | rewrite length_replicate; lia
    | exact Hb |].
  change (N.of_nat 0) with 0%N in Hrun. rewrite Hrun. clear Hrun.
  rewrite take_0 in Hps. rewrite take_0 in Hes. cbn [app Nat.add] in Hps, Hes.
  rewrite drop_replicate in Hps. rewrite drop_replicate in Hes.
  replace (N.to_nat n - length ps) with 1 in Hps, Hes by lia.
  cbn [replicate] in Hps, Hes. cbn in Hnp.
  cbn [read_prompts Nat.add].
  rewrite <- (app_nil_r (wire_string last_prompt)).
  rewrite buffer_get_ssh_string_wire by exact Hlast.
  cbn [buffer_get_u8 mbind run_bind]. rewrite Hps.
  rewrite array_store_lt
    by (rewrite length_app, length_map; cbn [length]; lia).
  cbn [mbind run_bind]. rewrite Nat2N.id.
  eexists. eexists. split; [reflexivity|].
  split; [reflexivity|]. split; [reflexivity|].
  split; [exact Hnp|]. split; [|exact Hes].
  cbn [prompts set_prompts]. f_equal.
  rewrite <- (length_map (fun pe => Some (fst pe)) ps) at 1.
  rewrite <- (Nat.add_0_r (length (map _ ps))), insert_app_r.
  reflexivity.
Qed.

Lemma last_prompt_without_echo_byte_witness :
  exists s' k',
    ssh_packet_userauth_info_request
      (info_request_payload (lit "PAM") [] [] 3 pam_prompts
       ++ wire_string (lit "PIN:")) fresh_session = Done s'
    /\ auth_state s' = SSH_AUTH_STATE_INFO
    /\ kbdint s' = Some k'
    /\ nprompts k' = 3%N
    /\ prompts k'
       = Some (map (fun pe => Some (fst pe)) pam_prompts
               ++ [Some (lit "PIN:")])
    /\ echo k' = Some (map snd pam_prompts ++ [Ascii.zero]).
Proof.
  apply (last_prompt_without_echo_byte fresh_session (lit "PAM") [] []
           (lit "PIN:") 3 pam_prompts).
  - reflexivity.
  - reflexivity.
  - reflexivity.
  - reflexivity.
  - intros k [=].
  - vm_compute. intros [=].
  - reflexivity.
  - reflexivity.
  - repeat constructor.
Defined.

(** ** The scratch stays sound, whatever arrives *)

Lemma wf_set_echo (k : ssh_kbdint_struct) (es : list ascii) :
  kbdint_wf k ->
  length es = N.to_nat (nprompts k) ->
  kbdint_wf (set_echo (Some es) k).
Proof.
  intros Hwf Hlen. split; cbn.
  - apply (wf_nanswers k Hwf).
  - apply (wf_int k Hwf).
  - apply (wf_prompts k Hwf).
  - exists es. split; [reflexivity | exact Hlen].
  - apply (wf_answers k Hwf).
Qed.

Lemma wf_set_prompts (k : ssh_kbdint_struct) (ps : list (option cstring)) :
  kbdint_wf k ->
  length ps = N.to_nat (nprompts k) ->
  kbdint_wf (set_prompts (Some ps) k).
Proof.
  intros Hwf Hlen. split; cbn.
  - apply (wf_nanswers k Hwf).
  - apply (wf_int k Hwf).
  - exists ps. split; [reflexivity | exact Hlen].
  - apply (wf_echo k Hwf).
  - apply (wf_answers k Hwf).
Qed.

Lemma wf_with_prompts (n : N) (a b : cstring) :
  (n < 2147483648)%N ->
  kbdint_wf (with_prompts n (set_name_instruction a b ssh_kbdint_new)).
Proof.
  intros Hn. split; cbn.
  - reflexivity.
  - exact Hn.
  - eexists. split; [reflexivity | apply length_replicate].
  - eexists. split; [reflexivity | apply length_replicate].
  - intros x [=].
Qed.

Lemma scratch_ok_same (s s' : ssh_session_struct) :
  kbdint s' = kbdint s -> scratch_ok s -> scratch_ok s'.
Proof. unfold scratch_ok. intros ->. exact id. Qed.

Lemma scratch_ok_none (s : ssh_session_struct) :
  kbdint s = None -> scratch_ok s.
Proof. unfold scratch_ok. intros -> k [=]. Qed.

Lemma drop_kbdint_sound (k : ssh_kbdint_struct) (s : ssh_session_struct) :
  kbdint_wf k ->
  exists s', drop_kbdint k s = Done s' /\ kbdint s' = None.
Proof.
  intros Hwf. unfold drop_kbdint. rewrite (kbdint_free_wf k Hwf).
  cbn [mbind run_bind]. eexists. split; reflexivity.
Qed.

(** The loop over the prompts never leaves the arrays. *)
Lemma read_prompts_sound (remaining : nat) :
  forall (i : N) (packet : bytes) (k : ssh_kbdint_struct)
         (s : ssh_session_struct),
    kbdint_wf k ->
    N.to_nat i + remaining = N.to_nat (nprompts k) ->
    exists s', read_prompts remaining i packet k s = Done s'
               /\ scratch_ok s'.
Proof.
  induction remaining as [|r IH]; intros i packet k s Hwf Hi.
  - eexists. split; [reflexivity|]. intros k0 [= <-]. exact Hwf.
  - cbn [read_prompts].
    destruct (buffer_get_ssh_string packet) as [tmp packet1].
    destruct (buffer_get_u8 packet1) as [e packet2].
    assert (Hecho : exists k1,
               match e with
               | None => Done k
               | Some b =>
                   match echo k with
                   | None => Undefined NullDereference
                   | Some a =>
                       a' ← array_store i b a; Done (set_echo (Some a') k)
                   end
               end = Done k1
               /\ kbdint_wf k1 /\ nprompts k1 = nprompts k).
    { destruct e as [b|].
      - destruct (wf_echo k Hwf) as (es & -> & Hles).
        rewrite array_store_lt by lia. cbn [mbind run_bind].
        eexists. split; [reflexivity|]. split; [|reflexivity].
        apply wf_set_echo; [exact Hwf | rewrite length_insert; exact Hles].
      - exists k. split; [reflexivity|]. split; [exact Hwf | reflexivity]. }
    destruct Hecho as (k1 & -> & Hwf1 & Hn1). cbn [mbind run_bind].
    destruct tmp as [t|].
    + destruct (wf_prompts k1 Hwf1) as (ps & -> & Hlps).
      rewrite array_store_lt by lia. cbn [mbind run_bind].
      apply IH.
      * apply wf_set_prompts; [exact Hwf1 | rewrite length_insert; exact Hlps].
      * cbn [nprompts set_prompts]. lia.
    + destruct (drop_kbdint_sound k1
                  (ssh_set_error SSH_FATAL "Short INFO_REQUEST packet" s)
                  Hwf1) as (s' & -> & Hnone).
      exists s'. split; [reflexivity | apply scratch_ok_none, Hnone].
Qed.

Lemma info_request_sound `{Limits} (packet : bytes) (s : ssh_session_struct) :
  (KBDINT_MAX_PROMPT < 2147483648)%N ->
  scratch_ok s ->
  sound_or_unread_count (ssh_packet_userauth_info_request packet s) id.
Proof.
  intros Hmax Hok. unfold ssh_packet_userauth_info_request.
  destruct (buffer_get_ssh_string packet) as [nm packet1].
  destruct (buffer_get_ssh_string packet1) as [ins packet2].
  destruct (buffer_get_ssh_string packet2) as [tmp packet3].
  destruct (buffer_get_u32 packet3) as [count packet4].
  destruct nm as [nm|]; [|exact Hok].
  destruct ins as [ins|]; [|exact Hok].
  destruct tmp as [tmp|]; [|exact Hok].
  assert (Hclean : exists blocks,
             match kbdint s with
             | None => Done (ssh_kbdint_new, [])
             | Some k => ssh_kbdint_clean k
             end = Done (ssh_kbdint_new, blocks)).
  { destruct (kbdint s) as [k|] eqn:Hk.
    - rewrite (kbdint_clean_wf k (Hok k Hk)). eexists. reflexivity.
    - eexists. reflexivity. }
  destruct Hclean as (blocks & ->). cbn [mbind run_bind].
  destruct count as [w|]; [|reflexivity].
  destruct ((ntohl w =? 0)%N || (KBDINT_MAX_PROMPT <? ntohl w)%N) eqn:Hbad.
  - cbn. apply scratch_ok_none. reflexivity.
  - apply orb_false_iff in Hbad as [_ Hhi]. apply N.ltb_ge in Hhi.
    match goal with
    | |- sound_or_unread_count (read_prompts ?r ?i ?p ?k ?s1) id =>
        destruct (read_prompts_sound r i p k s1) as (s' & -> & Hok')
    end.
    + apply wf_with_prompts. lia.
    + cbn [nprompts with_prompts]. lia.
    + exact Hok'.
Qed.

Lemma kbdint_add_method (m : cstring) (name : string) (flag : Z)
    (s : ssh_session_struct) :
  kbdint (add_method_if_found m name flag s) = kbdint s.
Proof. unfold add_method_if_found. destruct (strstr _ _); reflexivity. Qed.

Lemma kbdint_failure (packet : bytes) (s : ssh_session_struct) :
  kbdint (ssh_packet_userauth_failure packet s) = kbdint s.
Proof.
  unfold ssh_packet_userauth_failure.
  destruct (buffer_get_ssh_string packet) as [[auth|] p1]; [|reflexivity].
  destruct (buffer_get_u8 p1) as [[partial|] p2]; [|reflexivity].
  cbv zeta. rewrite !kbdint_add_method.
  destruct (negb (is_nul partial)); reflexivity.
Qed.

Lemma kbdint_success (packet : bytes) (s : ssh_session_struct) :
  kbdint (ssh_packet_userauth_success packet s) = kbdint s.
Proof.
  destruct s as [st pd am ss cc bn kb ob un idn er lk wd fr].
  unfold ssh_packet_userauth_success. cbn.
  destruct cc as [[di do ci co]|]; [|reflexivity].
  destruct di, do; reflexivity.
Qed.

Lemma kbdint_banner (packet : bytes) (s : ssh_session_struct) :
  kbdint (ssh_packet_userauth_banner packet s) = kbdint s.
Proof.
  unfold ssh_packet_userauth_banner.
  destruct (buffer_get_ssh_string packet) as [[b|] r]; reflexivity.
Qed.

Lemma dispatch_sound `{Limits} (type : N) (payload : bytes)
    (s : ssh_session_struct) :
  (KBDINT_MAX_PROMPT < 2147483648)%N ->
  scratch_ok s ->
  sound_or_unread_count (ssh_packet_dispatch type payload s) id.
Proof.
  intros Hmax Hok. unfold ssh_packet_dispatch.
  destruct (type =? SSH2_MSG_USERAUTH_FAILURE)%N.
  { exact (scratch_ok_same _ _ (kbdint_failure payload s) Hok). }
  destruct (type =? SSH2_MSG_USERAUTH_SUCCESS)%N.
  { exact (scratch_ok_same _ _ (kbdint_success payload s) Hok). }
  destruct (type =? SSH2_MSG_USERAUTH_BANNER)%N.
  { exact (scratch_ok_same _ _ (kbdint_banner payload s) Hok). }
  destruct (type =? SSH2_MSG_USERAUTH_PK_OK)%N; [|exact Hok].
  unfold ssh_packet_userauth_pk_ok.
  destruct (decide (auth_state s = SSH_AUTH_STATE_KBDINT_SENT)).
  - apply info_request_sound; assumption.
  - exact Hok.
Qed.

Lemma handle_packets_sound `{Limits} (fct : ssh_session_struct -> bool)
    (evs : list event) :
  forall s,
    (KBDINT_MAX_PROMPT < 2147483648)%N ->
    scratch_ok s ->
    sound_or_unread_count (handle_packets fct evs s) snd.
Proof.
  induction evs as [|ev evs IH]; intros s Hmax Hok; cbn [handle_packets].
  - destruct (fct s); exact Hok.
  - destruct (fct s); [exact Hok|].
    destruct ev as [type payload| |]; [|exact Hok|exact Hok].
    pose proof (dispatch_sound type payload s Hmax Hok) as Hd.
    destruct (ssh_packet_dispatch type payload s) as [s'|f].
    + cbn [mbind run_bind]. apply IH; [exact Hmax | exact Hd].
    + exact Hd.
Qed.

Lemma get_response_sound `{Limits} (s : ssh_session_struct) :
  (KBDINT_MAX_PROMPT < 2147483648)%N ->
  scratch_ok s ->
  sound_or_unread_count (ssh_userauth_get_response s) snd.
Proof.
  intros Hmax Hok.
  unfold ssh_userauth_get_response, ssh_handle_packets_termination.
  pose proof (handle_packets_sound ssh_auth_response_termination
                (inbox (link s)) s Hmax Hok) as Hh.
  destruct (handle_packets _ _ s) as [[rc s1]|f]; [|exact Hh].
  cbn [mbind run_bind].
  destruct (rc =? SSH_ERROR)%Z; [exact Hh|].
  destruct (negb (ssh_auth_response_termination s1)); exact Hh.
Qed.

(** X11. Whatever packet arrives, and whatever the socket brings while a
    driver waits, the handlers never index outside the arrays of the
    scratch nor follow a [NULL] array: from a session whose scratch fits
    its arrays they return a session whose scratch fits its arrays, or stop
    at the one read of a prompt count that was never written. *)
Theorem packets_keep_the_scratch_sound `{Limits} (s : ssh_session_struct) :
  (KBDINT_MAX_PROMPT < 2147483648)%N ->
  scratch_ok s ->
  (forall type payload,
     sound_or_unread_count (ssh_packet_dispatch type payload s) id)
  /\ (forall payload,
        sound_or_unread_count (ssh_packet_userauth_info_request payload s)
          id)
  /\ sound_or_unread_count (ssh_userauth_get_response s) snd.
Proof.
  intros Hmax Hok. split; [|split].
  - intros type payload. apply dispatch_sound; assumption.
  - intros payload. apply info_request_sound; assumption.
  - apply get_response_sound; assumption.
Qed.

Lemma packets_keep_the_scratch_sound_witness :
  (forall type payload,
     sound_or_unread_count
       (ssh_packet_dispatch type payload challenged_session) id)
  /\ (forall payload,
        sound_or_unread_count
          (ssh_packet_userauth_info_request payload challenged_session) id)
  /\ sound_or_unread_count (ssh_userauth_get_response challenged_session)
       snd.
Proof.
  apply (packets_keep_the_scratch_sound challenged_session).
  - reflexivity.
  - intros k [= <-]. exact two_prompts_wf.
Defined.

(** X12. The accessors with an index are safe everywhere but at the
    index equal to the count: on a session whose scratch fits its arrays,
    and for an index that is not the number of prompts, the setter returns
    0 or -1 and leaves a scratch that fits its arrays, and the getter
    returns a prompt or [NULL]. *)
Theorem accessors_are_safe_off_the_boundary (s : ssh_session_struct)
    (i : N) (answer : option cstring) (want_echo : bool) :
  scratch_ok s ->
  (forall k, kbdint s = Some k -> i <> nprompts k) ->
  (exists rc s',
     ssh_userauth_kbdint_setanswer (Some s) i answer = Done (rc, Some s')
     /\ scratch_ok s'
     /\ (rc = 0%Z \/ (rc = (-1)%Z /\ kbdint s' = kbdint s)))
  /\ (exists p e s',
        ssh_userauth_kbdint_getprompt (Some s) i want_echo
        = Done (p, e, Some s')
        /\ kbdint s' = kbdint s).
Proof.
  intros Hok Hne. split.
  - destruct answer as [a|], (kbdint s) as [k|] eqn:Hk;
      try (cbn; rewrite ?Hk; eexists; eexists; split; [reflexivity|];
           split; [apply (scratch_ok_same s); [reflexivity | exact Hok]|];
           right; split; [reflexivity | cbn; congruence]).
    destruct (N.ltb_spec (nprompts k) i) as [Hbig|Hsmall].
    + unfold ssh_userauth_kbdint_setanswer. rewrite Hk.
      apply N.ltb_lt in Hbig. rewrite Hbig.
      eexists. eexists. split; [reflexivity|].
      split; [apply (scratch_ok_same s); [reflexivity | exact Hok]|].
      right. split; [reflexivity | cbn; congruence].
    + assert (Hi : (i < nprompts k)%N) by (specialize (Hne k eq_refl); lia).
      rewrite (setanswer_in_range s k i a Hk (Hok k Hk) Hi).
      eexists. eexists. split; [reflexivity|]. split; [|left; reflexivity].
      intros k0 [= <-]. apply answered_scratch_wf; [exact (Hok k Hk)|exact Hi].
  - unfold ssh_userauth_kbdint_getprompt.
    destruct (kbdint s) as [k|] eqn:Hk.
    2:{ do 3 eexists. split; [reflexivity|]. cbn. congruence. }
    destruct (N.ltb_spec (nprompts k) i) as [Hbig|Hsmall].
    { do 3 eexists. split; [reflexivity|]. cbn. congruence. }
    assert (Hi : (i < nprompts k)%N) by (specialize (Hne k eq_refl); lia).
    destruct (wf_prompts k (Hok k Hk)) as (ps & -> & Hlps).
    destruct (wf_echo k (Hok k Hk)) as (es & -> & Hles).
    destruct (array_load_lt i ps ltac:(lia)) as (p & -> & _).
    destruct (array_load_lt i es ltac:(lia)) as (e & -> & _).
    destruct want_echo; cbn [mbind run_bind];
      do 3 eexists; (split; [reflexivity | exact Hk]).
Qed.

Lemma accessors_are_safe_off_the_boundary_witness :
  (exists rc s',
     ssh_userauth_kbdint_setanswer (Some challenged_session) 7
       (Some (lit "x")) = Done (rc, Some s')
     /\ scratch_ok s'
     /\ (rc = 0%Z \/ (rc = (-1)%Z /\ kbdint s' = kbdint challenged_session)))
  /\ (exists p e s',
        ssh_userauth_kbdint_getprompt (Some challenged_session) 7 true
        = Done (p, e, Some s')
        /\ kbdint s' = kbdint challenged_session).
Proof.
  apply (accessors_are_safe_off_the_boundary challenged_session 7
           (Some (lit "x")) true).
  - intros k [= <-]. exact two_prompts_wf.
  - intros k [= <-]. intros [=].
Defined.

(** ** Requests that go out *)

Lemma get_response_result `{Limits} (s s' : ssh_session_struct) (rc : Z) :
  ssh_userauth_get_response s = Done (rc, s') ->
  result_matches_state rc s' /\ is_auth_result rc.
Proof.
  unfold ssh_userauth_get_response.
  destruct (ssh_handle_packets_termination s ssh_auth_response_termination)
    as [[rc1 s1]|f]; [|discriminate].
  cbn [mbind run_bind].
  unfold result_matches_state, is_auth_result.
  destruct (rc1 =? SSH_ERROR)%Z.
  { intros [= <- <-]. split; [|left; reflexivity].
    repeat split; intros [=]. }
  unfold ssh_auth_response_termination.
  destruct (auth_state s1) eqn:Hst; cbn [negb]; intros [= <- <-];
    (split; [repeat split; intros [=]; auto | ]);
    unfold SSH_AUTH_ERROR, SSH_AUTH_SUCCESS, SSH_AUTH_DENIED,
           SSH_AUTH_PARTIAL, SSH_AUTH_INFO, SSH_AUTH_AGAIN; tauto.
Qed.

Lemma at_pending_result `{Limits} (s s' : ssh_session_struct) (rc : Z) :
  at_pending s = Done (rc, s') ->
  resumed_outcome (pending_call_state s) s rc s'
  /\ out_buffer s' = out_buffer s
  /\ world s' = world s.
Proof.
  intros Hrun.
  pose proof (at_pending_clears_marker s s' rc Hrun) as Hclear.
  unfold at_pending in Hrun.
  destruct (ssh_userauth_get_response s) as [[rc1 s1]|f] eqn:Hget;
    [|discriminate].
  cbn [mbind run_bind] in Hrun. injection Hrun as <- <-.
  destruct (get_response_frame s s1 rc1 Hget)
    as (Hpend & Hob & Hwire & Hsend & Hsvc & Hworld).
  destruct (get_response_result s s1 rc1 Hget) as [Hres Hrc].
  assert (Hframe : forall (f : ssh_session_struct -> ssh_session_struct),
             (f = id \/ f = set_pending_call_state SSH_PENDING_CALL_NONE) ->
             link (f s1) = link s1 /\ out_buffer (f s1) = out_buffer s1
             /\ world (f s1) = world s1 /\ auth_state (f s1) = auth_state s1)
    by (intros f [-> | ->]; repeat split).
  destruct (Hframe (fun x => if (rc1 =? SSH_AUTH_AGAIN)%Z then x
                             else set_pending_call_state
                                    SSH_PENDING_CALL_NONE x))
    as (Hl & Hb & Hw & Hs).
  { destruct (rc1 =? SSH_AUTH_AGAIN)%Z; [left|right]; reflexivity. }
  cbv beta in Hl, Hb, Hw, Hs.
  split; [|split].
  - unfold resumed_outcome. rewrite Hl.
    split; [exact Hwire|]. split; [exact Hsvc|]. split; [exact Hsend|].
    split; [|split; [exact Hclear|split; [|exact Hrc]]].
    + intros ->. change (SSH_AUTH_AGAIN =? SSH_AUTH_AGAIN)%Z with true.
      exact Hpend.
    + unfold result_matches_state in *. rewrite Hs. exact Hres.
  - rewrite Hb. exact Hob.
  - rewrite Hw. exact Hworld.
Qed.

Lemma send_request_outcome `{Limits} (marker : ssh_pending_call_e)
    (s0 s : ssh_session_struct) (packet : bytes) :
  next_send_accepted s0 = true ->
  wire (link s0) = wire (link s) ->
  out_buffer s0 = packet ->
  returns (send_request marker s0) (request_outcome marker s packet).
Proof.
  intros Hsend Hwire Hob. unfold send_request.
  rewrite packet_send_accepted by exact Hsend.
  change (SSH_OK =? SSH_ERROR)%Z with false. cbv iota.
  match goal with
  | |- returns (at_pending ?w) _ =>
      destruct (at_pending_outside_kbdint w) as (rc & s' & Hrun & _);
        [unfold outside_kbdint; cbn; discriminate|];
      destruct (at_pending_result w s' rc Hrun)
        as ((Hw & _ & _ & Hagain & Hdone & Hres & Hrc) & _ & _)
  end.
  exists rc, s'. split; [exact Hrun|].
  unfold request_outcome. cbn in Hw, Hagain.
  rewrite Hw, Hwire, Hob.
  split; [reflexivity|]. split; [exact Hagain|]. split; [exact Hdone|].
  split; assumption.
Qed.

Lemma add_request_head_bytes (user : option cstring) (method : string)
    (s s1 : ssh_session_struct) :
  out_buffer s1 = out_buffer s ->
  username s1 = username s ->
  c_view (lit method) = lit method ->
  add_request_head user method s1
  = out_buffer s ++ userauth_request (request_user user s) method [].
Proof.
  intros Hob Hun Hm.
  unfold add_request_head, request_user, userauth_request,
    ssh_string_from_char, buffer_add_u8.
  rewrite !buffer_add_wire_string, Hm, Hob, Hun.
  change (c_view (lit "ssh-connection")) with (lit "ssh-connection").
  rewrite <- !app_assoc, app_nil_r. reflexivity.
Qed.

Lemma userauth_request_fields (user : bytes) (method : string)
    (fields : bytes) :
  userauth_request user method [] ++ fields
  = userauth_request user method fields.
Proof.
  unfold userauth_request. cbn [app].
  rewrite app_nil_r, <- !app_assoc. reflexivity.
Qed.

(** A driver past its test of the marker and its service request. *)
Ltac after_service Hpend Hsvc s1 :=
  let Hreq := fresh "Hreq" in
  let Hp1 := fresh "Hp" in
  let Hob1 := fresh "Hob" in
  let Hun1 := fresh "Hun" in
  let Hw1 := fresh "Hworld" in
  let Hss1 := fresh "Hsend" in
  let Hwire1 := fresh "Hwire" in
  let Hin1 := fresh "Hinbox" in
  destruct (service_request_ok _ Hsvc)
    as (s1 & Hreq & Hp1 & Hob1 & Hun1 & Hw1 & Hss1 & Hwire1 & Hin1);
  rewrite ?Hpend, Hreq; cbv beta iota zeta;
  change (SSH_OK =? SSH_AGAIN)%Z with false;
  change (SSH_OK =? SSH_ERROR)%Z with false;
  change (SSH_OK =? SSH_OK)%Z with true;
  cbv iota.

(** X13. [ssh_userauth_none] and [ssh_userauth_password], called with
    nothing pending on a transport that serves the request: the call
    returns, exactly one packet went to the wire, a [USERAUTH_REQUEST]
    for the service "ssh-connection" with the user given (else the one of
    the session) and the method "none", resp. "password" followed by
    FALSE and the password; the marker is set exactly when the result is
    AGAIN, and a result SUCCESS, DENIED, PARTIAL or INFO tells the state
    the session is in. *)
Theorem none_and_password_requests `{Limits} (s : ssh_session_struct)
    (user : option cstring) (password : cstring) :
  pending_call_state s = SSH_PENDING_CALL_NONE ->
  next_service s = SvcOk ->
  next_send_accepted s = true ->
  returns (ssh_userauth_none_body s user)
    (request_outcome SSH_PENDING_CALL_AUTH_NONE s
       (out_buffer s ++ userauth_request (request_user user s) "none" []))
  /\ returns (ssh_userauth_password_body s user password)
       (request_outcome SSH_PENDING_CALL_AUTH_OFFER_PUBKEY s
          (out_buffer s
           ++ userauth_request (request_user user s) "password"
                (Ascii.zero :: wire_string (c_view password)))).
Proof.
  intros Hpend Hsvc Hacc. split.
  - unfold ssh_userauth_none_body. after_service Hpend Hsvc s1.
    apply send_request_outcome.
    + unfold next_send_accepted in *. cbn. rewrite Hsend. exact Hacc.
    + cbn. exact Hwire.
    + cbn. apply add_request_head_bytes; [assumption..|reflexivity].
  - unfold ssh_userauth_password_body. after_service Hpend Hsvc s1.
    apply send_request_outcome.
    + unfold next_send_accepted in *. cbn. rewrite Hsend. exact Hacc.
    + cbn. exact Hwire.
    + cbn [out_buffer set_out_buffer].
      rewrite (add_request_head_bytes user "password" s s1)
        by (first [assumption | reflexivity]).
      unfold buffer_add_u8, ssh_string_from_char.
      rewrite buffer_add_wire_string, <- !app_assoc.
      f_equal. apply userauth_request_fields.
Qed.

Lemma none_and_password_requests_witness :
  returns (ssh_userauth_none_body slow_server None)
    (request_outcome SSH_PENDING_CALL_AUTH_NONE slow_server
       (out_buffer slow_server
        ++ userauth_request (request_user None slow_server) "none" []))
  /\ returns (ssh_userauth_password_body slow_server None (lit "hunter2"))
       (request_outcome SSH_PENDING_CALL_AUTH_OFFER_PUBKEY slow_server
          (out_buffer slow_server
           ++ userauth_request (request_user None slow_server) "password"
                (Ascii.zero :: wire_string (c_view (lit "hunter2"))))).
Proof.
  apply (none_and_password_requests slow_server None (lit "hunter2"));
    reflexivity.
Defined.

Lemma publickey_request_bytes (user : option cstring) (flag : ascii)
    (key : ssh_key_struct) (blob : bytes) (s s1 : ssh_session_struct) :
  out_buffer s1 = out_buffer s ->
  username s1 = username s ->
  buffer_add_ssh_string
    (buffer_add_ssh_string
       (buffer_add_u8 (add_request_head user "publickey" s1) flag)
       (ssh_string_from_char (type_c key))) blob
  = out_buffer s
    ++ userauth_request (request_user user s) "publickey"
         (publickey_fields flag key blob).
Proof.
  intros Hob Hun.
  rewrite (add_request_head_bytes user "publickey" s s1)
    by (first [assumption | reflexivity]).
  unfold buffer_add_u8, ssh_string_from_char, publickey_fields.
  rewrite !buffer_add_wire_string, <- !app_assoc.
  f_equal. apply userauth_request_fields.
Qed.

(** X14. The three public-key drivers, called with nothing pending on a
    transport that serves the request.  The offer is a "publickey"
    request with FALSE, the algorithm and the key blob, and no signature.
    The two signing drivers send TRUE, the algorithm and the blob,
    followed by the signature, and what they hand to the signer (the PKI,
    resp. the agent) is the outgoing buffer up to and including the blob.
    Each call returns with one packet on the wire and its own marker set
    exactly when the result is AGAIN. *)
Theorem publickey_requests `{Limits} (s : ssh_session_struct)
    (user : option cstring) (key : ssh_key_struct) (blob : bytes) :
  pending_call_state s = SSH_PENDING_CALL_NONE ->
  next_service s = SvcOk ->
  next_send_accepted s = true ->
  pubkey_blob key = Some blob ->
  let request := fun flag =>
    out_buffer s
    ++ userauth_request (request_user user s) "publickey"
         (publickey_fields flag key blob) in
  (is_public key = true ->
   returns (ssh_userauth_try_publickey_body s user (Some key))
     (request_outcome SSH_PENDING_CALL_AUTH_OFFER_PUBKEY s
        (request Ascii.zero)))
  /\ (forall sig,
        is_private key = true ->
        ssh_pki_do_sign (world s) (request Ascii.one) key = Some sig ->
        returns (ssh_userauth_publickey_body s user (Some key))
          (request_outcome SSH_PENDING_CALL_AUTH_PUBKEY s
             (request Ascii.one ++ wire_string sig)))
  /\ (forall sig,
        ssh_pki_do_sign_agent (world s) (request Ascii.one) key = Some sig ->
        returns (ssh_userauth_agent_publickey s user key)
          (request_outcome SSH_PENDING_CALL_AUTH_AGENT s
             (request Ascii.one ++ wire_string sig))).
Proof.
  intros Hpend Hsvc Hacc Hblob request. subst request. cbv beta.
  split; [|split].
  - intros Hpub. unfold ssh_userauth_try_publickey_body.
    rewrite Hpub. cbn [negb]. after_service Hpend Hsvc s1.
    rewrite Hblob. apply send_request_outcome.
    + unfold next_send_accepted in *. cbn. rewrite Hsend. exact Hacc.
    + cbn. exact Hwire.
    + cbn [out_buffer set_out_buffer].
      apply publickey_request_bytes; assumption.
  - intros sig Hpriv Hsig. unfold ssh_userauth_publickey_body.
    rewrite Hpriv. cbn [negb]. after_service Hpend Hsvc s1.
    rewrite Hblob, Hworld.
    rewrite (publickey_request_bytes user Ascii.one key blob s s1 Hob Hun).
    rewrite Hsig. apply send_request_outcome.
    + unfold next_send_accepted in *. cbn. rewrite Hsend. exact Hacc.
    + cbn. exact Hwire.
    + cbn [out_buffer set_out_buffer].
      rewrite buffer_add_wire_string. reflexivity.
  - intros sig Hsig. unfold ssh_userauth_agent_publickey.
    after_service Hpend Hsvc s1.
    rewrite Hblob, Hworld.
    rewrite (publickey_request_bytes user Ascii.one key blob s s1 Hob Hun).
    rewrite Hsig. apply send_request_outcome.
    + unfold next_send_accepted in *. cbn. rewrite Hsend. exact Hacc.
    + cbn. exact Hwire.
    + cbn [out_buffer set_out_buffer].
      rewrite buffer_add_wire_string. reflexivity.
Qed.

Lemma publickey_requests_witness :
  let s := serving accepting_inbox (keys_on_disk false []) in
  let request := fun flag =>
    out_buffer s
    ++ userauth_request (request_user None s) "publickey"
         (publickey_fields flag rsa_private (lit "blob-of-K")) in
  returns (ssh_userauth_try_publickey_body s None (Some rsa_private))
    (request_outcome SSH_PENDING_CALL_AUTH_OFFER_PUBKEY s
       (request Ascii.zero))
  /\ returns (ssh_userauth_publickey_body s None (Some rsa_private))
       (request_outcome SSH_PENDING_CALL_AUTH_PUBKEY s
          (request Ascii.one ++ wire_string (lit "signature"))).
Proof.
  intros s request.
  destruct (publickey_requests s None rsa_private (lit "blob-of-K")
              eq_refl eq_refl eq_refl eq_refl) as (Hoffer & Hsign & _).
  split.
  - apply Hoffer. reflexivity.
  - apply Hsign; reflexivity.
Defined.

(** X15. A driver called again while its own marker is set sends
    nothing and asks the transport for nothing: it goes straight to the
    wait.  It returns; the wire and the scripts of the transport are as
    before; the marker stays while the result is AGAIN and is cleared by
    any other result. *)
Theorem resumed_call_sends_nothing `{Limits} (s : ssh_session_struct)
    (user : option cstring) (password : cstring) (key : ssh_key_struct) :
  outside_kbdint s ->
  (pending_call_state s = SSH_PENDING_CALL_AUTH_NONE ->
   returns (ssh_userauth_none_body s user)
     (resumed_outcome SSH_PENDING_CALL_AUTH_NONE s))
  /\ (pending_call_state s = SSH_PENDING_CALL_AUTH_OFFER_PUBKEY ->
      returns (ssh_userauth_password_body s user password)
        (resumed_outcome SSH_PENDING_CALL_AUTH_OFFER_PUBKEY s)
      /\ (is_public key = true ->
          returns (ssh_userauth_try_publickey_body s user (Some key))
            (resumed_outcome SSH_PENDING_CALL_AUTH_OFFER_PUBKEY s)))
  /\ (pending_call_state s = SSH_PENDING_CALL_AUTH_PUBKEY ->
      is_private key = true ->
      returns (ssh_userauth_publickey_body s user (Some key))
        (resumed_outcome SSH_PENDING_CALL_AUTH_PUBKEY s))
  /\ (pending_call_state s = SSH_PENDING_CALL_AUTH_AGENT ->
      returns (ssh_userauth_agent_publickey s user key)
        (resumed_outcome SSH_PENDING_CALL_AUTH_AGENT s)).
Proof.
  intros Hout.
  assert (Hwait : forall marker,
             pending_call_state s = marker ->
             returns (at_pending s) (resumed_outcome marker s)).
  { intros marker Hm.
    destruct (at_pending_outside_kbdint s Hout) as (rc & s' & Hrun & _).
    exists rc, s'. split; [exact Hrun|].
    rewrite <- Hm. apply (at_pending_result s s' rc Hrun). }
  split; [|split; [|split]].
  - intros Hm. unfold ssh_userauth_none_body. rewrite Hm.
    apply Hwait, Hm.
  - intros Hm. split.
    + unfold ssh_userauth_password_body. rewrite Hm. apply Hwait, Hm.
    + intros Hpub. unfold ssh_userauth_try_publickey_body.
      rewrite Hpub, Hm. apply Hwait, Hm.
  - intros Hm Hpriv. unfold ssh_userauth_publickey_body.
    rewrite Hpriv, Hm. apply Hwait, Hm.
  - intros Hm. unfold ssh_userauth_agent_publickey. rewrite Hm.
    apply Hwait, Hm.
Qed.

Lemma resumed_call_sends_nothing_witness :
  outside_kbdint password_pending
  /\ pending_call_state password_pending
     = SSH_PENDING_CALL_AUTH_OFFER_PUBKEY
  /\ returns
       (ssh_userauth_password_body password_pending None (lit "hunter2"))
       (resumed_outcome SSH_PENDING_CALL_AUTH_OFFER_PUBKEY password_pending).
Proof.
  assert (Hout : outside_kbdint password_pending)
    by (vm_compute; discriminate).
  split; [exact Hout|]. split; [reflexivity|].
  destruct (resumed_call_sends_nothing password_pending None
              (lit "hunter2") rsa_public Hout) as (_ & Hpw & _).
  destruct (Hpw eq_refl) as [Hresumed _]. exact Hresumed.
Defined.

(** ** What the answer does to a waiting driver *)

Lemma service_request_keeps (s s1 : ssh_session_struct) (rc : Z) :
  ssh_userauth_request_service s = (rc, s1) ->
  auth_state s1 = auth_state s
  /\ session_state s1 = session_state s
  /\ kbdint s1 = kbdint s
  /\ auth_methods s1 = auth_methods s
  /\ freed s1 = freed s
  /\ error s1 = error s.
Proof.
  unfold ssh_userauth_request_service, ssh_service_request.
  destruct (service_script (link s)); intros [= <- <-]; repeat split.
Qed.

Lemma send_request_waits `{Limits} (marker : ssh_pending_call_e)
    (s0 : ssh_session_struct) :
  next_send_accepted s0 = true ->
  exists w, send_request marker s0 = at_pending w
            /\ wait_start marker s0 w.
Proof.
  intros Hsend. unfold send_request.
  rewrite packet_send_accepted by exact Hsend.
  change (SSH_OK =? SSH_ERROR)%Z with false. cbv iota.
  eexists. split; [reflexivity|]. repeat split.
Qed.

Lemma wait_start_after_service (marker : ssh_pending_call_e)
    (s s1 w : ssh_session_struct) (b : bytes) (rc : Z) :
  ssh_userauth_request_service s = (rc, s1) ->
  inbox (link s1) = inbox (link s) ->
  wait_start marker (set_out_buffer b s1) w ->
  wait_start marker s w.
Proof.
  intros Hreq Hin (Hst & Hp & Hi & Hss & Hk & Hm & Hf).
  destruct (service_request_keeps s s1 rc Hreq)
    as (_ & Hss1 & Hk1 & Hm1 & Hf1 & _).
  cbn in Hi, Hss, Hk, Hm, Hf. unfold wait_start.
  rewrite Hi, Hss, Hk, Hm, Hf. repeat split; assumption.
Qed.

(** The wait of a driver whose next packet is message 60. *)
Lemma at_pending_pk_ok `{Limits} (w : ssh_session_struct)
    (payload : bytes) (rest : list event) :
  auth_state w = SSH_AUTH_STATE_NONE ->
  inbox (link w) = EvPacket SSH2_MSG_USERAUTH_PK_OK payload :: rest ->
  at_pending w
  = Done (SSH_AUTH_SUCCESS,
          set_pending_call_state SSH_PENDING_CALL_NONE
            (set_inbox rest (set_auth_state SSH_AUTH_STATE_PK_OK w))).
Proof.
  intros Hst Hin.
  unfold at_pending, ssh_userauth_get_response,
    ssh_handle_packets_termination.
  rewrite Hin. cbn [handle_packets].
  assert (ssh_auth_response_termination w = false) as ->
    by (unfold ssh_auth_response_termination; rewrite Hst; reflexivity).
  unfold ssh_packet_dispatch.
  change (SSH2_MSG_USERAUTH_PK_OK =? SSH2_MSG_USERAUTH_FAILURE)%N with false.
  change (SSH2_MSG_USERAUTH_PK_OK =? SSH2_MSG_USERAUTH_SUCCESS)%N with false.
  change (SSH2_MSG_USERAUTH_PK_OK =? SSH2_MSG_USERAUTH_BANNER)%N with false.
  change (SSH2_MSG_USERAUTH_PK_OK =? SSH2_MSG_USERAUTH_PK_OK)%N with true.
  cbv iota. unfold ssh_packet_userauth_pk_ok.
  destruct (decide (auth_state w = SSH_AUTH_STATE_KBDINT_SENT)) as [Hk|_];
    [congruence|].
  cbn [mbind run_bind]. destruct rest; reflexivity.
Qed.

(** X16. Message 60 ends the wait of every driver outside
    keyboard-interactive with SUCCESS, whatever its payload: the algorithm
    and the key a [USERAUTH_PK_OK] carries are not read, and the password
    driver takes it as the offer driver does.  The session is left in the
    state PK_OK and is not marked authenticated. *)
Theorem message_60_counts_as_acceptance `{Limits} (s : ssh_session_struct)
    (user : option cstring) (password : cstring) (key : ssh_key_struct)
    (blob payload : bytes) (rest : list event) :
  pending_call_state s = SSH_PENDING_CALL_NONE ->
  next_service s = SvcOk ->
  next_send_accepted s = true ->
  inbox (link s) = EvPacket SSH2_MSG_USERAUTH_PK_OK payload :: rest ->
  is_public key = true ->
  pubkey_blob key = Some blob ->
  let accepted := fun (m : run (Z * ssh_session_struct)) =>
    exists s', m = Done (SSH_AUTH_SUCCESS, s')
      /\ auth_state s' = SSH_AUTH_STATE_PK_OK
      /\ session_state s' = session_state s
      /\ inbox (link s') = rest
      /\ pending_call_state s' = SSH_PENDING_CALL_NONE in
  accepted (ssh_userauth_try_publickey_body s user (Some key))
  /\ accepted (ssh_userauth_password_body s user password)
  /\ accepted (ssh_userauth_none_body s user).
Proof.
  intros Hpend Hsvc Hacc Hin Hpub Hblob accepted.
  assert (Hgo : forall marker b s1 rc,
             ssh_userauth_request_service s = (rc, s1) ->
             inbox (link s1) = inbox (link s) ->
             send_script (link s1) = send_script (link s) ->
             accepted (send_request marker (set_out_buffer b s1))).
  { intros marker b s1 rc Hreq Hin1 Hsend1.
    destruct (send_request_waits marker (set_out_buffer b s1))
      as (w & -> & Hw).
    { unfold next_send_accepted in *. cbn. rewrite Hsend1. exact Hacc. }
    apply (wait_start_after_service marker s s1 w b rc Hreq Hin1) in Hw.
    destruct Hw as (Hst & _ & Hi & Hss & _).
    rewrite (at_pending_pk_ok w payload rest Hst) by (rewrite Hi; exact Hin).
    eexists. split; [reflexivity|]. cbn. repeat split. exact Hss. }
  split; [|split].
  - unfold ssh_userauth_try_publickey_body. rewrite Hpub. cbn [negb].
    after_service Hpend Hsvc s1. rewrite Hblob.
    eapply Hgo; eassumption.
  - unfold ssh_userauth_password_body. after_service Hpend Hsvc s1.
    eapply Hgo; eassumption.
  - unfold ssh_userauth_none_body. after_service Hpend Hsvc s1.
    eapply Hgo; eassumption.
Qed.

Lemma message_60_counts_as_acceptance_witness :
  let s := serving [EvPacket SSH2_MSG_USERAUTH_PK_OK (lit "anything")]
             no_world in
  exists s',
    ssh_userauth_password_body s None (lit "hunter2")
    = Done (SSH_AUTH_SUCCESS, s')
    /\ auth_state s' = SSH_AUTH_STATE_PK_OK
    /\ session_state s' = session_state s
    /\ inbox (link s') = []
    /\ pending_call_state s' = SSH_PENDING_CALL_NONE.
Proof.
  intros s.
  destruct (message_60_counts_as_acceptance s None (lit "hunter2")
              rsa_public (lit "blob-of-K") (lit "anything") []
              eq_refl eq_refl eq_refl eq_refl eq_refl eq_refl)
    as (_ & Hpassword & _).
  exact Hpassword.
Defined.

(** ** Requests that do not go out *)

(** X17. When the key blob cannot be exported, or the PKI or the agent
    gives no signature, the public-key drivers stop at [fail:]: the result
    is ERROR with the error of [ssh_set_error_oom], nothing reaches the
    wire, the half-built request is dropped from the outgoing buffer, and
    no marker is left behind, so that the next call starts a new
    request. *)
Theorem failed_signature_sends_nothing `{Limits} (s : ssh_session_struct)
    (user : option cstring) (key : ssh_key_struct) :
  pending_call_state s = SSH_PENDING_CALL_NONE ->
  next_service s = SvcOk ->
  let request := fun blob =>
    out_buffer s
    ++ userauth_request (request_user user s) "publickey"
         (publickey_fields Ascii.one key blob) in
  (is_public key = true -> pubkey_blob key = None ->
   failed_before_send s (ssh_userauth_try_publickey_body s user (Some key)))
  /\ (is_private key = true ->
      match pubkey_blob key with
      | None => True
      | Some blob => ssh_pki_do_sign (world s) (request blob) key = None
      end ->
      failed_before_send s (ssh_userauth_publickey_body s user (Some key)))
  /\ (match pubkey_blob key with
      | None => True
      | Some blob => ssh_pki_do_sign_agent (world s) (request blob) key = None
      end ->
      failed_before_send s (ssh_userauth_agent_publickey s user key)).
Proof.
  intros Hpend Hsvc request. subst request. cbv beta.
  assert (Hfail : forall b s1,
             pending_call_state s1 = pending_call_state s ->
             wire (link s1) = wire (link s) ->
             error (ssh_set_error_oom s1) = error (ssh_set_error_oom s) ->
             failed_before_send s (Done (at_fail (set_out_buffer b s1)))).
  { intros b s1 Hp Hw He. eexists. split; [reflexivity|]. cbn.
    rewrite Hp, Hw. repeat split. exact Hpend. }
  split; [|split].
  - intros Hpub Hblob. unfold ssh_userauth_try_publickey_body.
    rewrite Hpub. cbn [negb]. after_service Hpend Hsvc s1.
    rewrite Hblob. apply Hfail; [assumption | assumption | reflexivity].
  - intros Hpriv Hsig. unfold ssh_userauth_publickey_body.
    rewrite Hpriv. cbn [negb]. after_service Hpend Hsvc s1.
    destruct (pubkey_blob key) as [blob|];
      [|apply Hfail; [assumption | assumption | reflexivity]].
    rewrite Hworld.
    rewrite (publickey_request_bytes user Ascii.one key blob s s1 Hob Hun).
    rewrite Hsig. apply Hfail; [assumption | assumption | reflexivity].
  - intros Hsig. unfold ssh_userauth_agent_publickey.
    after_service Hpend Hsvc s1.
    destruct (pubkey_blob key) as [blob|];
      [|apply Hfail; [assumption | assumption | reflexivity]].
    rewrite Hworld.
    rewrite (publickey_request_bytes user Ascii.one key blob s s1 Hob Hun).
    rewrite Hsig. apply Hfail; [assumption | assumption | reflexivity].
Qed.

Lemma failed_signature_sends_nothing_witness :
  failed_before_send fresh_session
    (ssh_userauth_publickey_body fresh_session None (Some rsa_private))
  /\ failed_before_send fresh_session
       (ssh_userauth_agent_publickey fresh_session None rsa_public).
Proof.
  destruct (failed_signature_sends_nothing fresh_session None rsa_private
              eq_refl eq_refl) as (_ & Hsign & _).
  destruct (failed_signature_sends_nothing fresh_session None rsa_public
              eq_refl eq_refl) as (_ & _ & Hagent).
  split; [apply Hsign | apply Hagent]; reflexivity.
Defined.

(** ** The first call of keyboard-interactive *)

Lemma kbdint_init_accepted `{Limits} (s : ssh_session_struct)
    (user submethods : option cstring) :
  next_service s = SvcOk ->
  next_send_accepted s = true ->
  exists w,
    ssh_userauth_kbdint_init s user submethods
    = ssh_userauth_get_response w
    /\ auth_state w = SSH_AUTH_STATE_KBDINT_SENT
    /\ pending_call_state w = pending_call_state s
    /\ kbdint w = kbdint s
    /\ inbox (link w) = inbox (link s)
    /\ wire (link w)
       = wire (link s)
         ++ [out_buffer s
             ++ userauth_request (request_user user s)
                  "keyboard-interactive"
                  (wire_string []
                   ++ wire_string
                        (c_view (match submethods with
                                 | Some m => m
                                 | None => []
                                 end)))].
Proof.
  intros Hsvc Hacc. unfold ssh_userauth_kbdint_init.
  after_service Hsvc Hsvc s1. cbn [negb].
  destruct (service_request_keeps s s1 _ Hreq) as (_ & _ & Hk1 & _).
  rewrite packet_send_accepted
    by (unfold next_send_accepted in *; cbn; rewrite Hsend; exact Hacc).
  change (SSH_OK =? SSH_ERROR)%Z with false. cbv iota.
  eexists. split; [reflexivity|]. split; [reflexivity|].
  split; [exact Hp|]. split; [exact Hk1|]. split; [exact Hinbox|].
  cbn [wire link set_out_buffer set_link set_auth_state out_buffer].
  rewrite Hwire. f_equal. f_equal.
  rewrite (add_request_head_bytes user "keyboard-interactive" s s1)
    by (first [assumption | reflexivity]).
  unfold ssh_string_from_char.
  rewrite !buffer_add_wire_string, <- !app_assoc.
  f_equal. rewrite userauth_request_fields.
  destruct submethods; reflexivity.
Qed.

(** X18. The first call of [ssh_userauth_kbdint], on a session without
    scratch.  A service request that is not served (would block included)
    gives ERROR with nothing sent.  A served one sends one
    "keyboard-interactive" request with an empty language tag and the
    submethods given (empty when [NULL]), in the state KBDINT_SENT, and
    waits; a refused packet gives ERROR in that state.  No result, AGAIN
    included, leaves a marker: the pending-call state is never written. *)
Theorem kbdint_first_call `{Limits} (s : ssh_session_struct)
    (user submethods : option cstring) :
  kbdint s = None ->
  let call := ssh_userauth_kbdint_body s user submethods in
  (next_service s <> SvcOk ->
   exists s', call = Done (SSH_AUTH_ERROR, s')
     /\ wire (link s') = wire (link s)
     /\ auth_state s' = auth_state s)
  /\ (next_service s = SvcOk -> next_send_accepted s = false ->
      exists s', call = Done (SSH_AUTH_ERROR, s')
        /\ wire (link s') = wire (link s)
        /\ auth_state s' = SSH_AUTH_STATE_KBDINT_SENT)
  /\ (next_service s = SvcOk -> next_send_accepted s = true ->
      exists w, call = ssh_userauth_get_response w
        /\ auth_state w = SSH_AUTH_STATE_KBDINT_SENT
        /\ wire (link w)
           = wire (link s)
             ++ [out_buffer s
                 ++ userauth_request (request_user user s)
                      "keyboard-interactive"
                      (wire_string []
                       ++ wire_string
                            (c_view (match submethods with
                                     | Some m => m
                                     | None => []
                                     end)))])
  /\ (forall rc s', call = Done (rc, s') ->
        pending_call_state s' = pending_call_state s).
Proof.
  intros Hk call. subst call. unfold ssh_userauth_kbdint_body at 1 2 3.
  rewrite Hk. split; [|split; [|split]].
  - intros Hsvc. unfold ssh_userauth_kbdint_init,
      ssh_userauth_request_service, ssh_service_request.
    unfold next_service in Hsvc.
    destruct (service_script (link s)) as [|[| |] rest];
      cbn [hd] in Hsvc; try congruence;
      (eexists; split; [reflexivity|]; split; reflexivity).
  - intros Hsvc Hrefused. unfold ssh_userauth_kbdint_init.
    after_service Hsvc Hsvc s1. cbn [negb].
    unfold packet_send.
    cbn [link set_out_buffer set_auth_state].
    unfold next_send_accepted in Hrefused. rewrite Hsend in *.
    destruct (send_script (link s)) as [|b rest]; cbn [hd] in Hrefused;
      [discriminate|]. subst b.
    change (SSH_ERROR =? SSH_ERROR)%Z with true. cbv iota.
    eexists. split; [reflexivity|]. split; [exact Hwire | reflexivity].
  - intros Hsvc Hacc.
    destruct (kbdint_init_accepted s user submethods Hsvc Hacc)
      as (w & Hrun & Hst & _ & _ & _ & Hw).
    exists w. split; [exact Hrun|]. split; assumption.
  - intros rc s' Hrun.
    apply (kbdint_keeps_marker s s' user submethods rc). exact Hrun.
Qed.

Lemma kbdint_first_call_witness :
  let s := serving [EvWouldBlock] no_world in
  exists w,
    ssh_userauth_kbdint_body s None None = ssh_userauth_get_response w
    /\ auth_state w = SSH_AUTH_STATE_KBDINT_SENT
    /\ wire (link w)
       = wire (link s)
         ++ [out_buffer s
             ++ userauth_request (request_user None s)
                  "keyboard-interactive"
                  (wire_string [] ++ wire_string (c_view []))].
Proof.
  intros s.
  destruct (kbdint_first_call s None None eq_refl) as (_ & _ & Hsent & _).
  apply Hsent; reflexivity.
Defined.

(** The wait of keyboard-interactive when a well-formed request is the
    next packet. *)
Lemma get_response_info_request `{Limits} (w : ssh_session_struct)
    (name instruction lang junk : bytes) (n : N)
    (ps : list (bytes * ascii)) (more : list event) :
  auth_state w = SSH_AUTH_STATE_KBDINT_SENT ->
  scratch_ok w ->
  inbox (link w)
  = EvPacket SSH2_MSG_USERAUTH_PK_OK
      (info_request_payload name instruction lang n ps ++ junk) :: more ->
  (N.of_nat (length name) < 4294967296)%N ->
  (N.of_nat (length instruction) < 4294967296)%N ->
  (N.of_nat (length lang) < 4294967296)%N ->
  (1 <= n)%N -> (n <= KBDINT_MAX_PROMPT)%N -> (n < 4294967296)%N ->
  N.of_nat (length ps) = n ->
  Forall (fun pe => (N.of_nat (length (fst pe)) < 4294967296)%N) ps ->
  ssh_userauth_get_response w
  = Done (SSH_AUTH_INFO,
          set_inbox more
            (set_auth_state SSH_AUTH_STATE_INFO
               (set_kbdint
                  (Some {| nprompts := n; nanswers := n;
                           name := Some name;
                           instruction := Some instruction;
                           prompts := Some (map (fun pe => Some (fst pe)) ps);
                           echo := Some (map snd ps);
                           answers := None |})
                  (set_freed (freed w ++ old_blocks w) w)))).
Proof.
  intros Hst Hok Hin Hname Hins Hlang Hlo Hhi Hn Hlen Hb.
  unfold ssh_userauth_get_response, ssh_handle_packets_termination.
  rewrite Hin. cbn [handle_packets].
  assert (ssh_auth_response_termination w = false) as ->
    by (unfold ssh_auth_response_termination; rewrite Hst; reflexivity).
  unfold ssh_packet_dispatch.
  change (SSH2_MSG_USERAUTH_PK_OK =? SSH2_MSG_USERAUTH_FAILURE)%N with false.
  change (SSH2_MSG_USERAUTH_PK_OK =? SSH2_MSG_USERAUTH_SUCCESS)%N with false.
  change (SSH2_MSG_USERAUTH_PK_OK =? SSH2_MSG_USERAUTH_BANNER)%N with false.
  change (SSH2_MSG_USERAUTH_PK_OK =? SSH2_MSG_USERAUTH_PK_OK)%N with true.
  cbv iota. unfold ssh_packet_userauth_pk_ok.
  destruct (decide (auth_state w = SSH_AUTH_STATE_KBDINT_SENT)) as [_|Hno];
    [|contradiction].
  rewrite info_request_stores by assumption.
  cbn [mbind run_bind]. destruct more; reflexivity.
Qed.

(** X19. The first exchange of keyboard-interactive: when the server
    answers the request with a well-formed [USERAUTH_INFO_REQUEST], the
    call returns INFO, the packet is consumed, and the session holds the
    challenge: the accessors give the count and the first prompt of the
    packet. *)
Theorem kbdint_first_exchange `{Limits} (s : ssh_session_struct)
    (user submethods : option cstring)
    (name instruction lang junk : bytes) (n : N)
    (p : bytes) (e : ascii) (ps : list (bytes * ascii))
    (more : list event) :
  kbdint s = None ->
  next_service s = SvcOk ->
  next_send_accepted s = true ->
  inbox (link s)
  = EvPacket SSH2_MSG_USERAUTH_PK_OK
      (info_request_payload name instruction lang n ((p, e) :: ps) ++ junk)
    :: more ->
  (N.of_nat (length name) < 4294967296)%N ->
  (N.of_nat (length instruction) < 4294967296)%N ->
  (N.of_nat (length lang) < 4294967296)%N ->
  (n <= KBDINT_MAX_PROMPT)%N -> (n < 2147483648)%N ->
  N.of_nat (length ((p, e) :: ps)) = n ->
  Forall (fun pe => (N.of_nat (length (fst pe)) < 4294967296)%N)
    ((p, e) :: ps) ->
  exists s',
    ssh_userauth_kbdint (Some s) user submethods
    = Done (SSH_AUTH_INFO, Some s')
    /\ inbox (link s') = more
    /\ length (wire (link s')) = S (length (wire (link s)))
    /\ ssh_userauth_kbdint_getnprompts (Some s') = (Z.of_N n, Some s')
    /\ ssh_userauth_kbdint_getprompt (Some s') 0 true
       = Done (Some p, Some e, Some s')
    /\ ssh_userauth_kbdint_body s' user submethods
       = ssh_userauth_kbdint_send s'.
Proof.
  intros Hk Hsvc Hacc Hin Hname Hins Hlang Hhi Hint Hlen Hb.
  destruct (kbdint_init_accepted s user submethods Hsvc Hacc)
    as (w & Hrun & Hst & _ & Hkw & Hiw & Hw).
  assert (Hok : scratch_ok w)
    by (apply scratch_ok_none; rewrite Hkw; exact Hk).
  cbn [length] in Hlen.
  eexists. split.
  { unfold ssh_userauth_kbdint, ssh_userauth_kbdint_body. rewrite Hk, Hrun.
    rewrite (get_response_info_request w name instruction lang junk n
               ((p, e) :: ps) more Hst Hok)
      by (first [assumption | rewrite Hiw; exact Hin | cbn [length]; lia]).
    reflexivity. }
  split; [reflexivity|]. split.
  { cbn. rewrite Hw, length_app. cbn [length]. lia. }
  split.
  { cbn. unfold int_of_uint32.
    destruct (N.ltb_spec n 2147483648); [reflexivity | lia]. }
  split; [|reflexivity].
  unfold ssh_userauth_kbdint_getprompt.
  cbn [kbdint set_inbox set_link set_auth_state set_kbdint nprompts echo
       prompts].
  destruct (N.ltb_spec n 0) as [Hbad|_]; [lia|].
  reflexivity.
Qed.

Lemma kbdint_first_exchange_witness :
  exists s',
    ssh_userauth_kbdint (Some pam_server) None None
    = Done (SSH_AUTH_INFO, Some s')
    /\ inbox (link s') = [EvPacket SSH2_MSG_USERAUTH_SUCCESS []]
    /\ length (wire (link s')) = S (length (wire (link pam_server)))
    /\ ssh_userauth_kbdint_getnprompts (Some s') = (2%Z, Some s')
    /\ ssh_userauth_kbdint_getprompt (Some s') 0 true
       = Done (Some (lit "Password:"), Some Ascii.zero, Some s')
    /\ ssh_userauth_kbdint_body s' None None = ssh_userauth_kbdint_send s'.
Proof.
  apply (kbdint_first_exchange pam_server None None (lit "PAM")
           (lit "Please authenticate") [] [] 2 (lit "Password:") Ascii.zero
           [(lit "OTP:", Ascii.one)]
           [EvPacket SSH2_MSG_USERAUTH_SUCCESS []]).
  - reflexivity.
  - reflexivity.
  - reflexivity.
  - reflexivity.
  - reflexivity.
  - reflexivity.
  - reflexivity.
  - vm_compute. intros [=].
  - reflexivity.
  - reflexivity.
  - repeat constructor.
Defined.

(** ** The probe and the method list *)

Lemma auth_methods_denied (w : ssh_session_struct) (methods junk : bytes) :
  (N.of_nat (length methods) < 4294967296)%N ->
  let s' := ssh_packet_userauth_failure
              (failure_payload methods Ascii.zero ++ junk) w in
  auth_methods s' = methods_found methods
  /\ auth_state s' = SSH_AUTH_STATE_FAILED
  /\ error s'
     = Some (SSH_REQUEST_DENIED,
             "Access denied. Authentication that can continue: %s"%string).
Proof.
  intros Hlen. cbv zeta. rewrite failure_on_payload by exact Hlen.
  cbv zeta. change (negb (is_nul Ascii.zero)) with false. cbv iota.
  split; [|split].
  - rewrite !auth_methods_add_method. reflexivity.
  - rewrite !auth_state_add_method. reflexivity.
  - unfold add_method_if_found.
    repeat match goal with
           | |- context [strstr ?a ?b] => destruct (strstr a b)
           end; reflexivity.
Qed.

(** X20. The probe: [ssh_userauth_none] answered by a
    [USERAUTH_FAILURE] with "partial" FALSE returns DENIED, and
    [ssh_userauth_list] then gives the flags of the recognized names
    [strstr] finds in the list of the packet, whatever the bitset held
    before; the marker is cleared and the packet consumed. *)
Theorem none_probe_lists_the_methods `{Limits} (s : ssh_session_struct)
    (user : option cstring) (methods junk : bytes) (more : list event) :
  pending_call_state s = SSH_PENDING_CALL_NONE ->
  next_service s = SvcOk ->
  next_send_accepted s = true ->
  inbox (link s)
  = EvPacket SSH2_MSG_USERAUTH_FAILURE
      (failure_payload methods Ascii.zero ++ junk) :: more ->
  (N.of_nat (length methods) < 4294967296)%N ->
  exists s',
    ssh_userauth_none (Some s) user = Done (SSH_AUTH_DENIED, Some s')
    /\ ssh_userauth_list (Some s') = methods_found methods
    /\ auth_state s' = SSH_AUTH_STATE_FAILED
    /\ pending_call_state s' = SSH_PENDING_CALL_NONE
    /\ inbox (link s') = more
    /\ error s'
       = Some (SSH_REQUEST_DENIED,
               "Access denied. Authentication that can continue: %s"%string).
Proof.
  intros Hpend Hsvc Hacc Hin Hlen.
  unfold ssh_userauth_none, ssh_userauth_none_body.
  after_service Hpend Hsvc s1.
  destruct (send_request_waits SSH_PENDING_CALL_AUTH_NONE
              (set_out_buffer (add_request_head user "none" s1) s1))
    as (w & -> & Hst & _ & Hi & _).
  { unfold next_send_accepted in *. cbn. rewrite Hsend. exact Hacc. }
  cbn in Hi. rewrite Hinbox, Hin in Hi.
  destruct (auth_methods_denied w methods junk Hlen) as (Hm & Hf & He).
  unfold at_pending, ssh_userauth_get_response,
    ssh_handle_packets_termination.
  rewrite Hi. cbn [handle_packets].
  assert (ssh_auth_response_termination w = false) as ->
    by (unfold ssh_auth_response_termination; rewrite Hst; reflexivity).
  unfold ssh_packet_dispatch.
  change (SSH2_MSG_USERAUTH_FAILURE =? SSH2_MSG_USERAUTH_FAILURE)%N
    with true.
  cbv iota. cbn [mbind run_bind].
  set (s2 := ssh_packet_userauth_failure _ w) in *.
  assert (Hterm : ssh_auth_response_termination s2 = true)
    by (unfold ssh_auth_response_termination; rewrite Hf; reflexivity).
  assert (Hrun : handle_packets ssh_auth_response_termination more s2
                 = Done (SSH_OK, set_inbox more s2))
    by (destruct more; cbn [handle_packets]; rewrite Hterm; reflexivity).
  rewrite Hrun. cbn [mbind run_bind lift_session].
  change (SSH_OK =? SSH_ERROR)%Z with false. cbv iota.
  assert (ssh_auth_response_termination (set_inbox more s2) = true) as ->
    by exact Hterm.
  cbn [negb auth_state set_inbox set_link]. rewrite Hf.
  change (SSH_AUTH_DENIED =? SSH_AUTH_AGAIN)%Z with false. cbv iota.
  eexists. split; [reflexivity|].
  cbn. repeat split; assumption.
Qed.

Lemma none_probe_lists_the_methods_witness :
  exists s',
    ssh_userauth_none (Some password_only_server) None
    = Done (SSH_AUTH_DENIED, Some s')
    /\ ssh_userauth_list (Some s') = methods_found (lit "password")
    /\ auth_state s' = SSH_AUTH_STATE_FAILED
    /\ pending_call_state s' = SSH_PENDING_CALL_NONE
    /\ inbox (link s') = []
    /\ error s'
       = Some (SSH_REQUEST_DENIED,
               "Access denied. Authentication that can continue: %s"%string).
Proof.
  apply (none_probe_lists_the_methods password_only_server None
           (lit "password") [] []); reflexivity.
Defined.

(** ** The cascades *)

Lemma auto_loop_all_missing `{Limits} (files : list cstring)
    (s : ssh_session_struct) (user passphrase : option cstring) :
  Forall (identity_missing (world s) passphrase) files ->
  auto_loop files s user passphrase = Done (SSH_AUTH_DENIED, s).
Proof.
  induction files as [|f files IH]; intros Hall; cbn [auto_loop].
  - reflexivity.
  - apply Forall_cons in Hall as [[Hpub Hpriv] Hall].
    unfold auto_identity. rewrite Hpub, Hpriv. cbn [mbind run_bind].
    apply IH, Hall.
Qed.

(** X21. Without a running agent [ssh_userauth_agent] is DENIED and
    touches nothing, and [ssh_userauth_publickey_auto] goes on to the
    identity files of the session; when neither file of any identity is
    there, it returns DENIED with the session exactly as it was: no
    service request, no packet, no error. *)
Theorem auto_without_agent `{Limits} (s : ssh_session_struct)
    (user passphrase : option cstring) :
  agent_is_running (world s) = false ->
  ssh_userauth_agent_body s user = Done (SSH_AUTH_DENIED, s)
  /\ ssh_userauth_publickey_auto_body s user passphrase
     = auto_loop (identity s) s user passphrase
  /\ (Forall (identity_missing (world s) passphrase) (identity s) ->
      ssh_userauth_publickey_auto (Some s) user passphrase
      = Done (SSH_AUTH_DENIED, Some s)).
Proof.
  intros Hagent.
  assert (Hdenied : ssh_userauth_agent_body s user
                    = Done (SSH_AUTH_DENIED, s))
    by (unfold ssh_userauth_agent_body; rewrite Hagent; reflexivity).
  assert (Hauto : ssh_userauth_publickey_auto_body s user passphrase
                  = auto_loop (identity s) s user passphrase)
    by (unfold ssh_userauth_publickey_auto_body; rewrite Hdenied;
        reflexivity).
  split; [exact Hdenied|]. split; [exact Hauto|].
  intros Hall. unfold ssh_userauth_publickey_auto.
  rewrite Hauto, (auto_loop_all_missing _ s user passphrase Hall).
  reflexivity.
Qed.

Lemma auto_without_agent_witness :
  let s := with_identity [lit "/k/id_rsa"; lit "/k/id_dsa"] fresh_session in
  ssh_userauth_publickey_auto (Some s) None None
  = Done (SSH_AUTH_DENIED, Some s).
Proof.
  intros s.
  destruct (auto_without_agent s None None eq_refl) as (_ & _ & Hmissing).
  apply Hmissing. repeat constructor.
Defined.

Lemma auto_offer_and_sign_returns `{Limits} (s : ssh_session_struct)
    (user passphrase : option cstring) (privkey_file : cstring)
    (pubkey : ssh_key_struct) (privkey : option ssh_key_struct) :
  outside_kbdint s ->
  returns (auto_offer_and_sign s user passphrase privkey_file pubkey privkey)
    (fun t s' =>
       outside_kbdint s'
       /\ (t = Continue \/ t = Return SSH_AUTH_ERROR
           \/ t = Return SSH_AUTH_SUCCESS)).
Proof.
  intros Hs. unfold auto_offer_and_sign.
  eapply returns_bind; [apply try_publickey_outside_kbdint, Hs|].
  intros rc s1 Hs1. cbv beta iota.
  destruct (Z.eqb_spec rc SSH_AUTH_ERROR) as [->|_];
    [apply returns_done; auto|].
  destruct (negb _); [apply returns_done; auto|].
  assert (Hsign : forall key,
             returns
               (ssh_userauth_publickey_body s1 user (Some key)
                ≫= λ '(rc0, s0),
                     if (rc0 =? SSH_AUTH_ERROR)%Z then Done (Return rc0, s0)
                     else if (rc0 =? SSH_AUTH_SUCCESS)%Z
                          then Done (Return rc0, s0)
                          else Done (Continue, s0))
               (fun t s' =>
                  outside_kbdint s'
                  /\ (t = Continue \/ t = Return SSH_AUTH_ERROR
                      \/ t = Return SSH_AUTH_SUCCESS))).
  { intros key.
    eapply returns_bind; [apply publickey_outside_kbdint, Hs1|].
    intros rc2 s2 Hs2. cbv beta iota.
    destruct (Z.eqb_spec rc2 SSH_AUTH_ERROR) as [->|_];
      [apply returns_done; auto|].
    destruct (Z.eqb_spec rc2 SSH_AUTH_SUCCESS) as [->|_];
      apply returns_done; auto. }
  destruct privkey as [key|]; [apply Hsign|].
  destruct (ssh_pki_import_privkey_file _ _ _) as [key| |].
  - apply Hsign.
  - apply returns_done. auto.
  - apply returns_done. split; [exact Hs1 | auto].
Qed.

Lemma auto_identity_returns `{Limits} (s : ssh_session_struct)
    (user passphrase : option cstring) (privkey_file : cstring) :
  outside_kbdint s ->
  returns (auto_identity s user passphrase privkey_file)
    (fun t s' =>
       outside_kbdint s'
       /\ (t = Continue \/ t = Return SSH_AUTH_ERROR
           \/ t = Return SSH_AUTH_SUCCESS)).
Proof.
  intros Hs. unfold auto_identity.
  destruct (ssh_pki_import_pubkey_file _ _) as [pubkey| |].
  - apply auto_offer_and_sign_returns, Hs.
  - destruct (ssh_pki_import_privkey_file _ _ _) as [key| |].
    + destruct (ssh_pki_export_privkey_to_pubkey _ _) as [pubkey|].
      * apply auto_offer_and_sign_returns, Hs.
      * apply returns_done. auto.
    + apply returns_done. auto.
    + apply returns_done. split; [exact Hs | auto].
  - apply returns_done. split; [exact Hs | auto].
Qed.

Lemma auto_loop_returns `{Limits} (files : list cstring)
    (s : ssh_session_struct) (user passphrase : option cstring) :
  outside_kbdint s ->
  returns (auto_loop files s user passphrase)
    (fun rc s' => outside_kbdint s' /\ is_cascade_result rc).
Proof.
  unfold is_cascade_result.
  revert s. induction files as [|f files IH]; intros s Hs; cbn [auto_loop].
  - apply returns_done. auto.
  - eapply returns_bind; [apply auto_identity_returns, Hs|].
    intros t s1 [Hs1 Ht]. cbv beta iota.
    destruct Ht as [->|[->| ->]].
    + apply IH, Hs1.
    + apply returns_done. auto.
    + apply returns_done. auto.
Qed.

(** X22. The two cascades always come back, and with one of three
    results: [ssh_userauth_agent] and [ssh_userauth_publickey_auto] return
    ERROR, SUCCESS or DENIED, never AGAIN, PARTIAL or INFO, although the
    drivers they call can return those: a step that is not a success and
    not an error only moves the loop to the next key. *)
Theorem cascades_return_three_results `{Limits} (s : ssh_session_struct)
    (user passphrase : option cstring) :
  outside_kbdint s ->
  returns (ssh_userauth_agent_body s user)
    (fun rc _ => is_cascade_result rc)
  /\ returns (ssh_userauth_publickey_auto_body s user passphrase)
       (fun rc _ => is_cascade_result rc).
Proof.
  intros Hs.
  assert (Hagent : returns (ssh_userauth_agent_body s user)
                     (fun rc s' => outside_kbdint s' /\ is_cascade_result rc)).
  { unfold ssh_userauth_agent_body, is_cascade_result.
    destruct (negb _); [apply returns_done; auto|].
    eapply returns_weaken; [apply agent_loop_returns, Hs|].
    cbv beta. intros rc s' [Hs' [->| ->]]; auto. }
  split.
  - eapply returns_weaken; [exact Hagent|]. cbv beta. tauto.
  - unfold ssh_userauth_publickey_auto_body.
    eapply returns_bind; [exact Hagent|].
    intros rc s1 [Hs1 Hrc]. cbv beta iota.
    destruct ((rc =? SSH_AUTH_ERROR)%Z || (rc =? SSH_AUTH_SUCCESS)%Z).
    + apply returns_done. exact Hrc.
    + eapply returns_weaken; [apply auto_loop_returns, Hs1|].
      cbv beta. tauto.
Qed.

Lemma cascades_return_three_results_witness :
  outside_kbdint cascade_session
  /\ returns (ssh_userauth_publickey_auto_body cascade_session None
                (Some (lit "pw")))
       (fun rc _ => is_cascade_result rc).
Proof.
  assert (Hout : outside_kbdint cascade_session)
    by (vm_compute; discriminate).
  split; [exact Hout|].
  exact (proj2 (cascades_return_three_results cascade_session None
                  (Some (lit "pw")) Hout)).
Defined.

(** X23. The name of the public key file is the private one with ".pub"
    appended, cut to the 1023 bytes that fit the buffer: up to 1019 bytes
    the name is whole, and from 1023 bytes on nothing of the suffix is
    left, so that the file read as the public key is the private key file
    itself when its name has exactly 1023 bytes. *)
Theorem pubkey_file_name_is_cut (privkey_file : cstring) :
  length (pubkey_file_of privkey_file) <= 1023
  /\ (strlen privkey_file <= 1019 ->
      pubkey_file_of privkey_file = c_view privkey_file ++ lit ".pub")
  /\ (1023 <= strlen privkey_file ->
      pubkey_file_of privkey_file = take 1023 (c_view privkey_file))
  /\ (strlen privkey_file = 1023 ->
      pubkey_file_of privkey_file = c_view privkey_file).
Proof.
  unfold pubkey_file_of, strlen. split; [|split; [|split]].
  - rewrite length_take. lia.
  - intros Hlen. apply take_ge. rewrite length_app.
    change (length (lit ".pub")) with 4. lia.
  - intros Hlen. apply take_app_le. exact Hlen.
  - intros Hlen. rewrite take_app_le by lia. apply take_ge. lia.
Qed.

(** ** The server-side reader of the answers *)

(** X24. [ssh_userauth_kbdint_getanswer] has the bounds test of the
    other accessors, [i > nanswers]: on a scratch with answers the index
    equal to the count passes it and the read is one element past the end
    of the array; an index above the count, and any index while no answer
    was ever stored, give [NULL]. *)
Theorem getanswer_index_nanswers_passes_the_bounds_test
    (s : ssh_session_struct) (k : ssh_kbdint_struct) :
  kbdint s = Some k ->
  kbdint_wf k ->
  (forall a, answers k = Some a ->
     ssh_userauth_kbdint_getanswer (Some s) (nanswers k)
     = Undefined OutOfBounds)
  /\ (forall i, (nanswers k < i)%N ->
        ssh_userauth_kbdint_getanswer (Some s) i = Done None)
  /\ (answers k = None ->
      forall i, ssh_userauth_kbdint_getanswer (Some s) i = Done None)
  /\ ssh_userauth_kbdint_getnanswers (Some s) = Z.of_N (nprompts k).
Proof.
  intros Hk Hwf. unfold ssh_userauth_kbdint_getanswer,
    ssh_userauth_kbdint_getnanswers. rewrite Hk.
  split; [|split; [|split]].
  - intros a Ha. rewrite Ha, N.ltb_irrefl.
    destruct (wf_answers k Hwf a Ha) as [Hlen _].
    replace (nanswers k) with (N.of_nat (length a))
      by (rewrite (wf_nanswers k Hwf); lia).
    apply array_load_end.
  - intros i Hi. destruct (answers k); [|reflexivity].
    apply N.ltb_lt in Hi. rewrite Hi. reflexivity.
  - intros Ha i. rewrite Ha. reflexivity.
  - rewrite (wf_nanswers k Hwf). unfold int_of_uint32.
    pose proof (wf_int k Hwf) as Hint.
    destruct (N.ltb_spec (nprompts k) 2147483648); [reflexivity | lia].
Qed.

Lemma getanswer_index_nanswers_passes_the_bounds_test_witness :
  ssh_userauth_kbdint_getanswer (Some answering_session) 2
  = Undefined OutOfBounds
  /\ ssh_userauth_kbdint_getanswer (Some answering_session) 3 = Done None
  /\ ssh_userauth_kbdint_getnanswers (Some answering_session) = 2%Z.
Proof.
  destruct (getanswer_index_nanswers_passes_the_bounds_test
              answering_session one_answer eq_refl one_answer_wf)
    as (Hend & Habove & _ & Hcount).
  split; [exact (Hend _ eq_refl)|].
  split; [apply Habove; reflexivity | exact Hcount].
Defined.

(** ** Service requests that are not served *)

Lemma service_request_unserved (s : ssh_session_struct) :
  next_service s <> SvcOk ->
  exists rc s1,
    ssh_userauth_request_service s = (rc, s1)
    /\ ((next_service s = SvcAgain /\ rc = SSH_AGAIN)
        \/ (next_service s = SvcError /\ rc = SSH_ERROR))
    /\ wire (link s1) = wire (link s)
    /\ out_buffer s1 = out_buffer s
    /\ auth_state s1 = auth_state s
    /\ pending_call_state s1 = pending_call_state s
    /\ service_script (link s1) = tail (service_script (link s)).
Proof.
  unfold next_service, ssh_userauth_request_service, ssh_service_request.
  destruct (service_script (link s)) as [|[| |] rest]; cbn [hd];
    intros Hno; try congruence;
    (eexists; eexists; split; [reflexivity|]; split; [auto|];
     repeat split).
Qed.

(** X25. A service request that would block makes each of the five
    drivers with a marker return AGAIN, and one that fails makes them
    return ERROR; in both cases nothing was built or sent and the marker
    is still NONE, so the next call starts with the service request
    again. *)
Theorem unserved_request_sends_nothing `{Limits} (s : ssh_session_struct)
    (user : option cstring) (password : cstring) (key : ssh_key_struct) :
  pending_call_state s = SSH_PENDING_CALL_NONE ->
  next_service s <> SvcOk ->
  is_public key = true ->
  is_private key = true ->
  let rc := match next_service s with
            | SvcAgain => SSH_AUTH_AGAIN
            | _ => SSH_AUTH_ERROR
            end in
  stopped_at_service rc s (ssh_userauth_none_body s user)
  /\ stopped_at_service rc s (ssh_userauth_password_body s user password)
  /\ stopped_at_service rc s
       (ssh_userauth_try_publickey_body s user (Some key))
  /\ stopped_at_service rc s (ssh_userauth_publickey_body s user (Some key))
  /\ stopped_at_service rc s (ssh_userauth_agent_publickey s user key).
Proof.
  intros Hpend Hsvc Hpub Hpriv rc. subst rc.
  destruct (service_request_unserved s Hsvc)
    as (rc & s1 & Hreq & Hrc & Hw & Hob & Hst & Hp & Hscript).
  unfold ssh_userauth_none_body, ssh_userauth_password_body,
    ssh_userauth_try_publickey_body, ssh_userauth_publickey_body,
    ssh_userauth_agent_publickey, stopped_at_service.
  rewrite Hpub, Hpriv, Hpend, Hreq. rewrite Hpend in Hp. cbn [negb].
  destruct Hrc as [[-> ->] | [-> ->]]; cbv beta iota zeta;
    repeat split; eexists; (split; [reflexivity|]);
    repeat split; assumption.
Qed.

Lemma unserved_request_sends_nothing_witness :
  let s :=
    session_of {| service_script := [SvcAgain]; send_script := [];
                  inbox := []; wire := [] |} no_world in
  stopped_at_service SSH_AUTH_AGAIN s (ssh_userauth_none_body s None)
  /\ stopped_at_service SSH_AUTH_AGAIN s
       (ssh_userauth_password_body s None (lit "hunter2")).
Proof.
  intros s.
  destruct (unserved_request_sends_nothing s None (lit "hunter2")
              rsa_private eq_refl ltac:(discriminate) eq_refl eq_refl)
    as (Hnone & Hpassword & _).
  split; [exact Hnone | exact Hpassword].
Defined.

(** ** Keyboard-interactive has no resumption *)

Lemma drop_kbdint_none (k : ssh_kbdint_struct) (s s' : ssh_session_struct) :
  drop_kbdint k s = Done s' -> kbdint s' = None.
Proof.
  unfold drop_kbdint. destruct (ssh_kbdint_free (Some k)) as [blocks|f];
    cbn [mbind run_bind]; [|discriminate].
  intros [= <-]. reflexivity.
Qed.

Lemma read_prompts_none_or_info (remaining : nat) :
  forall (i : N) (packet : bytes) (k : ssh_kbdint_struct)
         (s s' : ssh_session_struct),
    read_prompts remaining i packet k s = Done s' ->
    kbdint s' = None \/ auth_state s' = SSH_AUTH_STATE_INFO.
Proof.
  induction remaining as [|r IH]; intros i packet k s s' Hrun;
    cbn [read_prompts] in Hrun.
  - injection Hrun as <-. right. reflexivity.
  - destruct (buffer_get_ssh_string packet) as [tmp p1].
    destruct (buffer_get_u8 p1) as [e p2].
    match type of Hrun with
    | mbind _ ?m = _ => destruct m as [k1|f]
    end; cbn [mbind run_bind] in Hrun; [|discriminate].
    destruct tmp as [t|].
    + destruct (prompts k1) as [a|]; [|discriminate].
      destruct (array_store i (Some (ssh_string_to_char t)) a) as [a'|f];
        cbn [mbind run_bind] in Hrun; [|discriminate].
      apply IH in Hrun. exact Hrun.
    + left. apply drop_kbdint_none in Hrun. exact Hrun.
Qed.

Lemma info_request_none_or_info `{Limits} (packet : bytes)
    (s s' : ssh_session_struct) :
  kbdint s = None ->
  ssh_packet_userauth_info_request packet s = Done s' ->
  kbdint s' = None \/ auth_state s' = SSH_AUTH_STATE_INFO.
Proof.
  intros Hk. unfold ssh_packet_userauth_info_request.
  destruct (buffer_get_ssh_string packet) as [name p1].
  destruct (buffer_get_ssh_string p1) as [instruction p2].
  destruct (buffer_get_ssh_string p2) as [tmp p3].
  destruct (buffer_get_u32 p3) as [nprompts_read p4].
  destruct name as [name|]; [|intros [= <-]; left; exact Hk].
  destruct instruction as [instruction|]; [|intros [= <-]; left; exact Hk].
  destruct tmp as [tmp|]; [|intros [= <-]; left; exact Hk].
  match goal with
  | |- mbind _ ?m = _ -> _ => destruct m as [[k blocks]|f]
  end; cbn [mbind run_bind]; [|discriminate].
  destruct nprompts_read as [w|]; [|discriminate].
  destruct (_ || _).
  - intros Hrun. left. apply drop_kbdint_none in Hrun. exact Hrun.
  - apply read_prompts_none_or_info.
Qed.

Lemma dispatch_scratch_only_when_ended `{Limits} (type : N)
    (payload : bytes) (s s' : ssh_session_struct) :
  scratch_only_when_ended s ->
  ssh_auth_response_termination s = false ->
  ssh_packet_dispatch type payload s = Done s' ->
  scratch_only_when_ended s'.
Proof.
  intros [Hk|Hend] Hwait; [|congruence].
  unfold ssh_packet_dispatch, scratch_only_when_ended.
  destruct (type =? SSH2_MSG_USERAUTH_FAILURE)%N.
  { intros [= <-]. right. unfold ssh_auth_response_termination.
    destruct (auth_state_failure payload s) as [-> | [-> | ->]];
      reflexivity. }
  destruct (type =? SSH2_MSG_USERAUTH_SUCCESS)%N.
  { intros [= <-]. right. unfold ssh_auth_response_termination.
    rewrite auth_state_success. reflexivity. }
  destruct (type =? SSH2_MSG_USERAUTH_BANNER)%N.
  { intros [= <-]. left. rewrite kbdint_banner. exact Hk. }
  destruct (type =? SSH2_MSG_USERAUTH_PK_OK)%N;
    [|intros [= <-]; left; exact Hk].
  unfold ssh_packet_userauth_pk_ok.
  destruct (decide _); [|intros [= <-]; right; reflexivity].
  intros Hrun.
  destruct (info_request_none_or_info payload s s' Hk Hrun) as [Hn|Hi];
    [left; exact Hn|].
  right. unfold ssh_auth_response_termination. rewrite Hi. reflexivity.
Qed.

Lemma handle_packets_scratch_only_when_ended `{Limits} (evs : list event) :
  forall (s s' : ssh_session_struct) (rc : Z),
    scratch_only_when_ended s ->
    handle_packets ssh_auth_response_termination evs s = Done (rc, s') ->
    scratch_only_when_ended s'.
Proof.
  induction evs as [|e evs IH]; intros s s' rc Hs; cbn [handle_packets].
  - destruct (ssh_auth_response_termination s); intros [= <- <-]; exact Hs.
  - destruct (ssh_auth_response_termination s) eqn:Hwait;
      [intros [= <- <-]; exact Hs|].
    destruct e as [type payload| |]; try (intros [= <- <-]; exact Hs).
    destruct (ssh_packet_dispatch type payload s) as [s1|f] eqn:Hd;
      cbn [mbind run_bind]; [|discriminate].
    apply IH.
    apply (dispatch_scratch_only_when_ended type payload s s1 Hs Hwait Hd).
Qed.

Lemma get_response_again_no_scratch `{Limits} (s s' : ssh_session_struct) :
  kbdint s = None ->
  ssh_userauth_get_response s = Done (SSH_AUTH_AGAIN, s') ->
  kbdint s' = None.
Proof.
  intros Hk. unfold ssh_userauth_get_response,
    ssh_handle_packets_termination.
  destruct (handle_packets _ _ s) as [[rc1 s1]|f] eqn:Hh;
    cbn [mbind run_bind]; [|discriminate].
  apply handle_packets_scratch_only_when_ended in Hh; [|left; exact Hk].
  destruct (rc1 =? SSH_ERROR)%Z; [intros [= Hc _]; discriminate|].
  destruct (ssh_auth_response_termination s1) eqn:Hend; cbn [negb].
  - destruct (auth_state s1); intros [= Hc _]; discriminate.
  - intros [= <-]. destruct Hh as [Hn|He]; [exact Hn | congruence].
Qed.

Lemma service_request_frame (s s1 : ssh_session_struct) (rc : Z) :
  ssh_userauth_request_service s = (rc, s1) ->
  wire (link s1) = wire (link s)
  /\ kbdint s1 = kbdint s
  /\ pending_call_state s1 = pending_call_state s.
Proof.
  unfold ssh_userauth_request_service, ssh_service_request.
  destruct (service_script (link s)); intros [= <- <-]; repeat split.
Qed.

(** X26. Keyboard-interactive cannot be resumed.  When the first call of
    [ssh_userauth_kbdint] returns AGAIN, its request is on the wire, the
    session still has no scratch and no marker was set; so the next call
    takes the path of a first call again and, on a transport that serves
    it, puts a second request on the wire instead of waiting for the
    answer to the first. *)
Theorem kbdint_again_sends_a_second_request `{Limits}
    (s s1 : ssh_session_struct) (user submethods : option cstring) :
  kbdint s = None ->
  ssh_userauth_kbdint_body s user submethods = Done (SSH_AUTH_AGAIN, s1) ->
  kbdint s1 = None
  /\ pending_call_state s1 = pending_call_state s
  /\ length (wire (link s1)) = S (length (wire (link s)))
  /\ ssh_userauth_kbdint_body s1 user submethods
     = ssh_userauth_kbdint_init s1 user submethods
  /\ (next_service s1 = SvcOk -> next_send_accepted s1 = true ->
      exists w,
        ssh_userauth_kbdint_body s1 user submethods
        = ssh_userauth_get_response w
        /\ length (wire (link w)) = S (S (length (wire (link s))))).
Proof.
  intros Hk Hrun.
  pose proof (kbdint_keeps_marker s s1 user submethods _ Hrun) as Hmarker.
  unfold ssh_userauth_kbdint_body in Hrun. rewrite Hk in Hrun.
  unfold ssh_userauth_kbdint_init in Hrun.
  destruct (ssh_userauth_request_service s) as [rc0 s0] eqn:Hreq.
  destruct (service_request_frame s s0 rc0 Hreq) as (Hw0 & Hk0 & _).
  destruct (negb (rc0 =? SSH_OK)%Z); [injection Hrun as Hc _; discriminate|].
  unfold packet_send in Hrun.
  cbn [link set_out_buffer set_auth_state out_buffer] in Hrun.
  destruct (match send_script (link s0) with [] => true | b :: _ => b end);
    [|injection Hrun as Hc _; discriminate].
  change (SSH_OK =? SSH_ERROR)%Z with false in Hrun. cbv iota in Hrun.
  destruct (get_response_frame _ s1 _ Hrun) as (_ & _ & Hw1 & _).
  apply get_response_again_no_scratch in Hrun; [|cbn; congruence].
  cbn in Hw1.
  assert (Hlen : length (wire (link s1)) = S (length (wire (link s))))
    by (rewrite Hw1, length_app, Hw0; cbn [length]; lia).
  split; [exact Hrun|]. split; [exact Hmarker|]. split; [exact Hlen|].
  split; [unfold ssh_userauth_kbdint_body; rewrite Hrun; reflexivity|].
  intros Hsvc Hacc.
  destruct (kbdint_init_accepted s1 user submethods Hsvc Hacc)
    as (w & Hcall & _ & _ & _ & _ & Hw).
  exists w. split.
  - unfold ssh_userauth_kbdint_body. rewrite Hrun. exact Hcall.
  - rewrite Hw, length_app, Hlen. cbn [length]. lia.
Qed.

Lemma kbdint_again_sends_a_second_request_witness :
  let s := serving [EvWouldBlock] no_world in
  exists s1 w,
    ssh_userauth_kbdint_body s None None = Done (SSH_AUTH_AGAIN, s1)
    /\ kbdint s1 = None
    /\ ssh_userauth_kbdint_body s1 None None = ssh_userauth_get_response w
    /\ length (wire (link w)) = 2.
Proof.
  intros s.
  set (s1 := session_after (ssh_userauth_kbdint_body s None None) s).
  assert (Hrun : ssh_userauth_kbdint_body s None None
                 = Done (SSH_AUTH_AGAIN, s1)) by reflexivity.
  destruct (kbdint_again_sends_a_second_request s s1 None None eq_refl Hrun)
    as (Hnone & _ & _ & _ & Hsecond).
  destruct (Hsecond eq_refl eq_refl) as (w & Hcall & Hlen).
  exists s1, w. split; [exact Hrun|]. split; [exact Hnone|].
  split; [exact Hcall | exact Hlen].
Defined.

(** ** The agent cascade on a connection that would block *)

Lemma at_pending_would_block `{Limits} (w : ssh_session_struct)
    (rest : list event) :
  auth_state w = SSH_AUTH_STATE_NONE ->
  inbox (link w) = EvWouldBlock :: rest ->
  at_pending w = Done (SSH_AUTH_AGAIN, set_inbox rest w).
Proof.
  intros Hst Hin.
  unfold at_pending, ssh_userauth_get_response,
    ssh_handle_packets_termination.
  rewrite Hin. cbn [handle_packets].
  assert (Hwait : ssh_auth_response_termination w = false)
    by (unfold ssh_auth_response_termination; rewrite Hst; reflexivity).
  rewrite Hwait. cbn [mbind run_bind].
  change (SSH_AGAIN =? SSH_ERROR)%Z with false. cbv iota.
  assert (ssh_auth_response_termination (set_inbox rest w) = false) as ->
    by exact Hwait.
  reflexivity.
Qed.

Lemma at_pending_success `{Limits} (w : ssh_session_struct)
    (payload : bytes) (rest : list event) :
  auth_state w = SSH_AUTH_STATE_NONE ->
  inbox (link w) = EvPacket SSH2_MSG_USERAUTH_SUCCESS payload :: rest ->
  at_pending w
  = Done (SSH_AUTH_SUCCESS,
          set_pending_call_state SSH_PENDING_CALL_NONE
            (set_inbox rest (ssh_packet_userauth_success payload w))).
Proof.
  intros Hst Hin.
  unfold at_pending, ssh_userauth_get_response,
    ssh_handle_packets_termination.
  rewrite Hin. cbn [handle_packets].
  assert (ssh_auth_response_termination w = false) as ->
    by (unfold ssh_auth_response_termination; rewrite Hst; reflexivity).
  unfold ssh_packet_dispatch.
  change (SSH2_MSG_USERAUTH_SUCCESS =? SSH2_MSG_USERAUTH_FAILURE)%N
    with false.
  change (SSH2_MSG_USERAUTH_SUCCESS =? SSH2_MSG_USERAUTH_SUCCESS)%N
    with true.
  cbv iota. cbn [mbind run_bind].
  set (s2 := ssh_packet_userauth_success payload w).
  assert (Hst2 : auth_state s2 = SSH_AUTH_STATE_SUCCESS)
    by apply auth_state_success.
  assert (Hterm : ssh_auth_response_termination s2 = true)
    by (unfold ssh_auth_response_termination; rewrite Hst2; reflexivity).
  assert (handle_packets ssh_auth_response_termination rest s2
          = Done (SSH_OK, set_inbox rest s2)) as ->
    by (destruct rest; cbn [handle_packets]; rewrite Hterm; reflexivity).
  cbn [mbind run_bind].
  change (SSH_OK =? SSH_ERROR)%Z with false. cbv iota.
  assert (ssh_auth_response_termination (set_inbox rest s2) = true) as ->
    by exact Hterm.
  cbn [negb auth_state set_inbox set_link]. rewrite Hst2. reflexivity.
Qed.

Lemma send_request_sent `{Limits} (marker : ssh_pending_call_e)
    (packet : bytes) (s : ssh_session_struct) :
  service_script (link s) = [] ->
  send_script (link s) = [] ->
  send_request marker (set_out_buffer packet s)
  = at_pending (request_sent marker packet s).
Proof.
  intros Hsvc Hsend. unfold send_request, packet_send, request_sent.
  cbn [link set_out_buffer set_auth_state set_pending_call_state out_buffer].
  rewrite Hsvc, Hsend. reflexivity.
Qed.

Lemma service_request_idle (s : ssh_session_struct) :
  service_script (link s) = [] ->
  ssh_userauth_request_service s = (SSH_OK, s).
Proof.
  intros Hsvc. unfold ssh_userauth_request_service, ssh_service_request.
  rewrite Hsvc. reflexivity.
Qed.

Lemma agent_loop_step `{Limits} (key : ssh_key_struct) (comment : cstring)
    (rest : list (ssh_key_struct * cstring)) (s s1 : ssh_session_struct)
    (user : option cstring) (t : turn) :
  agent_identity s user key = Done (t, s1) ->
  agent_loop ((key, comment) :: rest) s user
  = match t with
    | Return rc => Done (rc, s1)
    | Continue => agent_loop rest s1 user
    end.
Proof. intros Hrun. cbn [agent_loop]. rewrite Hrun. reflexivity. Qed.

(** X27. On a connection that would block, [ssh_userauth_agent] pairs a
    late answer with the wrong key.  The offer of the first identity
    returns AGAIN, which the loop takes as a refusal and goes on; the
    offer of the second identity finds the marker set and only waits, so
    the [USERAUTH_PK_OK] that answers the first offer counts for the
    second key.  The signature of the second key is then sent although
    that key was never offered. *)
Theorem late_answer_is_paired_with_the_next_key `{Limits}
    (s : ssh_session_struct) (user : option cstring)
    (k1 k2 : ssh_key_struct) (c1 c2 : cstring)
    (rest : list (ssh_key_struct * cstring))
    (blob1 blob2 sig payload : bytes) (more : list event) :
  pending_call_state s = SSH_PENDING_CALL_NONE ->
  out_buffer s = [] ->
  service_script (link s) = [] ->
  send_script (link s) = [] ->
  agent_is_running (world s) = true ->
  agent_identities (world s) = (k1, c1) :: (k2, c2) :: rest ->
  is_public k1 = true -> is_public k2 = true ->
  pubkey_blob k1 = Some blob1 -> pubkey_blob k2 = Some blob2 ->
  inbox (link s)
  = EvWouldBlock :: EvPacket SSH2_MSG_USERAUTH_PK_OK payload
    :: EvPacket SSH2_MSG_USERAUTH_SUCCESS [] :: more ->
  let offer1 :=
    userauth_request (request_user user s) "publickey"
      (publickey_fields Ascii.zero k1 blob1) in
  let signed2 :=
    userauth_request (request_user user s) "publickey"
      (publickey_fields Ascii.one k2 blob2) in
  ssh_pki_do_sign_agent (world s) signed2 k2 = Some sig ->
  exists s',
    ssh_userauth_agent_body s user = Done (SSH_AUTH_SUCCESS, s')
    /\ wire (link s')
       = wire (link s) ++ [offer1; signed2 ++ wire_string sig]
    /\ session_state s' = SSH_SESSION_STATE_AUTHENTICATED
    /\ inbox (link s') = more.
Proof.
  intros Hpend Hob Hsvc Hsend Hrunning Hids Hpub1 Hpub2 Hblob1 Hblob2 Hin
         offer1 signed2 Hsig.
  set (s1 := set_inbox
               (EvPacket SSH2_MSG_USERAUTH_PK_OK payload
                :: EvPacket SSH2_MSG_USERAUTH_SUCCESS [] :: more)
               (request_sent SSH_PENDING_CALL_AUTH_OFFER_PUBKEY offer1 s)).
  assert (H1 : ssh_userauth_try_publickey_body s user (Some k1)
               = Done (SSH_AUTH_AGAIN, s1)).
  { unfold ssh_userauth_try_publickey_body.
    rewrite Hpub1, Hpend, (service_request_idle s Hsvc), Hblob1.
    cbn [negb]. cbv beta iota zeta.
    change (SSH_OK =? SSH_AGAIN)%Z with false.
    change (SSH_OK =? SSH_ERROR)%Z with false. cbv iota.
    rewrite (publickey_request_bytes user Ascii.zero k1 blob1 s s eq_refl
               eq_refl), Hob.
    cbn [app]. rewrite (send_request_sent _ _ s Hsvc Hsend).
    apply at_pending_would_block; [reflexivity | exact Hin]. }
  set (s2 := set_pending_call_state SSH_PENDING_CALL_NONE
               (set_inbox (EvPacket SSH2_MSG_USERAUTH_SUCCESS [] :: more)
                  (set_auth_state SSH_AUTH_STATE_PK_OK s1))).
  assert (H2 : ssh_userauth_try_publickey_body s1 user (Some k2)
               = Done (SSH_AUTH_SUCCESS, s2)).
  { unfold ssh_userauth_try_publickey_body. rewrite Hpub2. cbn [negb].
    change (pending_call_state s1)
      with SSH_PENDING_CALL_AUTH_OFFER_PUBKEY.
    cbv iota.
    apply (at_pending_pk_ok s1 payload
             (EvPacket SSH2_MSG_USERAUTH_SUCCESS [] :: more)); reflexivity. }
  set (w3 := request_sent SSH_PENDING_CALL_AUTH_AGENT
               (signed2 ++ wire_string sig) s2).
  set (s3 := set_pending_call_state SSH_PENDING_CALL_NONE
               (set_inbox more (ssh_packet_userauth_success [] w3))).
  assert (H3 : ssh_userauth_agent_publickey s2 user k2
               = Done (SSH_AUTH_SUCCESS, s3)).
  { unfold ssh_userauth_agent_publickey.
    change (pending_call_state s2) with SSH_PENDING_CALL_NONE. cbv iota.
    rewrite (service_request_idle s2 eq_refl), Hblob2.
    cbv beta iota zeta.
    change (SSH_OK =? SSH_AGAIN)%Z with false.
    change (SSH_OK =? SSH_ERROR)%Z with false. cbv iota.
    change (world s2) with (world s).
    rewrite (publickey_request_bytes user Ascii.one k2 blob2 s s2)
      by (first [rewrite Hob; reflexivity | reflexivity]).
    rewrite Hob. cbn [app]. fold signed2. rewrite Hsig.
    rewrite buffer_add_wire_string.
    rewrite (send_request_sent _ _ s2 eq_refl eq_refl).
    apply (at_pending_success w3 [] more); reflexivity. }
  exists s3. split.
  { assert (A1 : agent_identity s user k1 = Done (Continue, s1))
      by (unfold agent_identity; rewrite H1; reflexivity).
    assert (A2 : agent_identity s1 user k2
                 = Done (Return SSH_AUTH_SUCCESS, s3)).
    { unfold agent_identity. rewrite H2. cbn [mbind run_bind].
      change (SSH_AUTH_SUCCESS =? SSH_AUTH_ERROR)%Z with false.
      change (SSH_AUTH_SUCCESS =? SSH_AUTH_SUCCESS)%Z with true.
      cbn [negb]. cbv iota. rewrite H3. reflexivity. }
    unfold ssh_userauth_agent_body. rewrite Hrunning, Hids. cbn [negb].
    rewrite (agent_loop_step k1 c1 _ s s1 user Continue A1).
    rewrite (agent_loop_step k2 c2 _ s1 s3 user _ A2). reflexivity. }
  destruct (frame_success [] w3) as (_ & _ & Hlink & _).
  split; [|split].
  - change (link s3)
      with (link (set_inbox more (ssh_packet_userauth_success [] w3))).
    cbn [wire link set_inbox set_link]. rewrite Hlink.
    cbn. rewrite <- app_assoc. reflexivity.
  - apply session_state_success.
  - reflexivity.
Qed.

Lemma late_answer_is_paired_with_the_next_key_witness :
  let s :=
    serving [EvWouldBlock; EvPacket SSH2_MSG_USERAUTH_PK_OK [];
             EvPacket SSH2_MSG_USERAUTH_SUCCESS []]
      (keys_on_disk true
         [(rsa_public, lit "first"); (rsa_private, lit "second")]) in
  exists s',
    ssh_userauth_agent_body s None = Done (SSH_AUTH_SUCCESS, s')
    /\ wire (link s')
       = wire (link s)
         ++ [userauth_request (request_user None s) "publickey"
               (publickey_fields Ascii.zero rsa_public (lit "blob-of-K"));
             userauth_request (request_user None s) "publickey"
               (publickey_fields Ascii.one rsa_private (lit "blob-of-K"))
             ++ wire_string (lit "signature")]
    /\ session_state s' = SSH_SESSION_STATE_AUTHENTICATED
    /\ inbox (link s') = [].
Proof.
  intros s.
  apply (late_answer_is_paired_with_the_next_key s None rsa_public
           rsa_private (lit "first") (lit "second") [] (lit "blob-of-K")
           (lit "blob-of-K") (lit "signature") [] []); reflexivity.
Defined.
